(** * Verification model of the CFR regret engine (server/regret_engine.py)

    Python floats are modelled by exact rationals [Q]; [math.sqrt] is a
    parameter of the sections that use it.  Python dicts whose iteration
    order matters are insertion-ordered association lists; the mutable
    object graph of the game simulator is an explicit heap ([gmap nat obj]). *)

From Stdlib Require Import QArith Qround Qabs ZArith Lia.
From stdpp Require Import base gmap list strings.

Open Scope list_scope.

(* ================================================================= *)
(** ** Python helpers *)

(** [max(a, b)]: keeps [a] unless [b] is strictly greater. *)
Definition Qltb (x y : Q) : bool := negb (Qle_bool y x).
Definition py_max2 (a b : Q) : Q := if Qltb a b then b else a.
(** [min(a, b)]: keeps [a] unless [b] is strictly smaller. *)
Definition py_min2 (a b : Q) : Q := if Qltb b a then b else a.

(** [sum(xs)] *)
Definition sum_list (xs : list Q) : Q := fold_left Qplus xs 0%Q.

(** [max(iterable, key=f)]: first element whose key is maximal. *)
Definition py_max_by {A} (f : A -> Q) (x : A) (xs : list A) : A :=
  fold_left (fun best y => if Qltb (f best) (f y) then y else best) xs x.

(** [max(xs)] over a non-empty list of numbers. *)
Definition py_max_list (x : Q) (xs : list Q) : Q := py_max_by (fun q => q) x xs.

(** Insertion-ordered dictionaries. *)
Section Dict.
Context {K V : Type} `{EqDecision K}.

Definition dict := list (K * V).

Fixpoint dict_lookup (d : dict) (k : K) : option V :=
  match d with
  | [] => None
  | (k', v) :: d' => if decide (k = k') then Some v else dict_lookup d' k
  end.

(** [d.get(k, dflt)] *)
Definition dict_get (d : dict) (k : K) (dflt : V) : V :=
  match dict_lookup d k with Some v => v | None => dflt end.

(** [d[k] = v]: overwrite in place, or append a new key at the end. *)
Fixpoint dict_set (d : dict) (k : K) (v : V) : dict :=
  match d with
  | [] => [(k, v)]
  | (k', v') :: d' =>
      if decide (k = k') then (k', v) :: d' else (k', v') :: dict_set d' k v
  end.

(** [{k: f(k) for k in ks}] *)
Definition dict_of_keys (f : K -> V) (ks : list K) : dict :=
  fold_left (fun d k => dict_set d k (f k)) ks [].

Definition keys (d : dict) : list K := map fst d.
Definition values (d : dict) : list V := map snd d.
End Dict.
Arguments dict : clear implicits.

(** [defaultdict(float)]: [d[k]] inserts [0.0] when [k] is missing. *)
Definition dd_getitem {K} `{EqDecision K} (d : dict K Q) (k : K) : Q * dict K Q :=
  match dict_lookup d k with
  | Some v => (v, d)
  | None => (0%Q, d ++ [(k, 0%Q)])
  end.

(** [d[k] += x] on a [defaultdict(float)]. *)
Definition dd_add {K} `{EqDecision K} (d : dict K Q) (k : K) (x : Q) : dict K Q :=
  dict_set d k (dict_get d k 0%Q + x)%Q.

(* ================================================================= *)
(** ** Strategy catalog ([StrategyGenerator.STRATEGIES]) *)

Inductive strategy :=
| PARALLEL_CRITICAL
| SEQUENTIAL_SEVERITY
| DOCTOR_CRITICAL_NURSE_OTHERS
| COOPERATIVE_ALL
| NEAREST_FIRST
| NURSE_TRIAGE_DOCTOR_TREAT.

#[global] Instance strategy_eq_dec : EqDecision strategy.
Proof. solve_decision. Defined.

(** Iteration order of the [STRATEGIES] dict. *)
Definition STRATEGY_NAMES : list strategy :=
  [PARALLEL_CRITICAL; SEQUENTIAL_SEVERITY; DOCTOR_CRITICAL_NURSE_OTHERS;
   COOPERATIVE_ALL; NEAREST_FIRST; NURSE_TRIAGE_DOCTOR_TREAT].

Record strategy_info := {
  description : string;
  priority : string;
  cooperation : bool }.

Definition STRATEGIES (s : strategy) : strategy_info :=
  match s with
  | PARALLEL_CRITICAL =>
      {| description := "Both agents work on critical patient first, then split";
         priority := "critical_first"; cooperation := true |}
  | SEQUENTIAL_SEVERITY =>
      {| description := "Handle patients in order of severity, one at a time";
         priority := "severity"; cooperation := false |}
  | DOCTOR_CRITICAL_NURSE_OTHERS =>
      {| description := "Doctor handles critical, nurse handles others";
         priority := "split_by_type"; cooperation := false |}
  | COOPERATIVE_ALL =>
      {| description := "Both agents work together on each patient";
         priority := "fifo"; cooperation := true |}
  | NEAREST_FIRST =>
      {| description := "Each agent takes nearest patient";
         priority := "distance"; cooperation := false |}
  | NURSE_TRIAGE_DOCTOR_TREAT =>
      {| description := "Nurse does triage, doctor does treatment";
         priority := "role_based"; cooperation := false |}
  end.

(* ================================================================= *)
(** ** [CFRRegretMinimizer] *)

Record iteration_record := {
  it_iteration : Z;
  it_strategy_values : dict strategy Q;
  it_selected : strategy;
  it_probabilities : dict strategy Q;
  it_reward : Q }.

Record CFRRegretMinimizer := {
  regret_sum : dict strategy Q;
  strategy_sum : dict strategy Q;
  iteration_history : list iteration_record;
  regret_history : list Q;
  cumulative_regret : Q;
  distance_to_optimal_history : list Q;
  total_iterations : Z;
  strategy_values : dict strategy (list Q);
  prev_probs : dict strategy Q }.

(** [CFRRegretMinimizer.__init__] *)
Definition cfr_init : CFRRegretMinimizer :=
  {| regret_sum := []; strategy_sum := []; iteration_history := [];
     regret_history := []; cumulative_regret := 0; distance_to_optimal_history := [];
     total_iterations := 0; strategy_values := []; prev_probs := [] |}.

Definition set_regret_sum (c : CFRRegretMinimizer) r : CFRRegretMinimizer :=
  {| regret_sum := r; strategy_sum := strategy_sum c;
     iteration_history := iteration_history c; regret_history := regret_history c;
     cumulative_regret := cumulative_regret c;
     distance_to_optimal_history := distance_to_optimal_history c;
     total_iterations := total_iterations c; strategy_values := strategy_values c;
     prev_probs := prev_probs c |}.

Section Learner.
(** [math.sqrt] *)
Variable sqrt : Q -> Q.

(** One step of [{s: max(0, self.regret_sum[s]) for s in strategies}]. *)
Definition positive_regrets_step (acc : dict strategy Q * dict strategy Q) (s : strategy)
    : dict strategy Q * dict strategy Q :=
  let '(pr, rs) := acc in
  let '(r, rs') := dd_getitem rs s in
  (dict_set pr s (py_max2 0 r), rs').

(** [get_strategy_probabilities]: the reads [self.regret_sum[s]] go
    through the defaultdict and so insert missing keys. *)
Definition get_strategy_probabilities (strategies : list strategy)
    (c : CFRRegretMinimizer) : dict strategy Q * CFRRegretMinimizer :=
  let '(positive_regrets, rs) :=
    fold_left positive_regrets_step strategies (([] : dict strategy Q), regret_sum c) in
  let c' := set_regret_sum c rs in
  let total := sum_list (values positive_regrets) in
  if Qltb 0 total
  then (map (fun '(s, r) => (s, r / total)%Q) positive_regrets, c')
  else (dict_of_keys (fun _ => 1 / inject_Z (Z.of_nat (length strategies)))%Q
                     strategies, c').

(** Tracking of the distance to equilibrium, the tail of [update_regrets]
    (run under [if strategies:]). *)
Definition track_distance (strategies : list strategy) (c : CFRRegretMinimizer)
    : CFRRegretMinimizer :=
  match strategies with
  | [] =>
      {| regret_sum := regret_sum c; strategy_sum := strategy_sum c;
         iteration_history := iteration_history c; regret_history := regret_history c;
         cumulative_regret := cumulative_regret c;
         distance_to_optimal_history := distance_to_optimal_history c ++ [1%Q];
         total_iterations := total_iterations c; strategy_values := strategy_values c;
         prev_probs := prev_probs c |}
  | _ =>
      let '(probs, c1) := get_strategy_probabilities strategies c in
      let prob_values := map (fun s => dict_get probs s 0%Q) strategies in
      let n := inject_Z (Z.of_nat (length prob_values)) in
      let mean_prob := match prob_values with [] => 0%Q | _ => (sum_list prob_values / n)%Q end in
      let variance := match prob_values with
                      | [] => 1%Q
                      | _ => (sum_list (map (fun p => (p - mean_prob) * (p - mean_prob)) prob_values) / n)%Q
                      end in
      let std_dev := sqrt variance in
      let distance :=
        match prev_probs c1 with
        | [] => std_dev
        | _ =>
            let prob_change :=
              sqrt (sum_list (map (fun s =>
                      (dict_get probs s 0 - dict_get (prev_probs c1) s 0) *
                      (dict_get probs s 0 - dict_get (prev_probs c1) s 0))%Q strategies)) in
            (std_dev + prob_change * (1#2))%Q
        end in
      {| regret_sum := regret_sum c1; strategy_sum := strategy_sum c1;
         iteration_history := iteration_history c1; regret_history := regret_history c1;
         cumulative_regret := cumulative_regret c1;
         distance_to_optimal_history := distance_to_optimal_history c1 ++ [distance];
         total_iterations := total_iterations c1; strategy_values := strategy_values c1;
         prev_probs := probs |}
  end.

(** Body of [for strategy, value in strategy_values.items()]. *)
Definition regret_update_step (node_value : Q)
    (acc : dict strategy Q * dict strategy (list Q)) (sv : strategy * Q)
    : dict strategy Q * dict strategy (list Q) :=
  let '(rs, svs) := acc in
  let '(s, value) := sv in
  (dd_add rs s (value - node_value)%Q, dict_set svs s (dict_get svs s [] ++ [value])).

(** [update_regrets(strategy_values, selected_strategy)] *)
Definition update_regrets (strategy_values_in : dict strategy Q) (selected : strategy)
    (c : CFRRegretMinimizer) : CFRRegretMinimizer :=
  match strategy_values_in with
  | [] => c
  | (_, v0) :: rest =>
      let strategies := keys strategy_values_in in
      let '(probs, c1) := get_strategy_probabilities strategies c in
      let node_value :=
        sum_list (map (fun s => dict_get probs s 0 * dict_get strategy_values_in s 0)%Q
                      strategies) in
      let '(rs, svs) :=
        fold_left (regret_update_step node_value) strategy_values_in
                  (regret_sum c1, strategy_values c1) in
      let best_value := py_max_list v0 (values rest) in
      let cum := (cumulative_regret c1 + (best_value - node_value))%Q in
      let c2 :=
        {| regret_sum := rs; strategy_sum := strategy_sum c1;
           iteration_history := iteration_history c1;
           regret_history := regret_history c1 ++ [cum];
           cumulative_regret := cum;
           distance_to_optimal_history := distance_to_optimal_history c1;
           total_iterations := total_iterations c1; strategy_values := svs;
           prev_probs := prev_probs c1 |} in
      let c3 := track_distance strategies c2 in
      {| regret_sum := regret_sum c3; strategy_sum := strategy_sum c3;
         iteration_history := iteration_history c3; regret_history := regret_history c3;
         cumulative_regret := cumulative_regret c3;
         distance_to_optimal_history := distance_to_optimal_history c3;
         total_iterations := (total_iterations c3 + 1)%Z;
         strategy_values := strategy_values c3; prev_probs := prev_probs c3 |}
  end.
End Learner.

(** [get_average_strategy] *)
Definition get_average_strategy (c : CFRRegretMinimizer) : dict strategy Q :=
  let total := sum_list (values (strategy_sum c)) in
  if Qltb 0 total then map (fun '(s, v) => (s, v / total)%Q) (strategy_sum c) else [].

(** [record_iteration(strategy_values, selected, probs, reward)] *)
Definition record_iteration (sv : dict strategy Q) (selected : strategy)
    (probs : dict strategy Q) (reward : Q) (c : CFRRegretMinimizer) : CFRRegretMinimizer :=
  {| regret_sum := regret_sum c;
     strategy_sum := fold_left (fun ss '(s, p) => dd_add ss s p) probs (strategy_sum c);
     iteration_history := iteration_history c ++
       [{| it_iteration := total_iterations c; it_strategy_values := sv;
           it_selected := selected; it_probabilities := probs; it_reward := reward |}];
     regret_history := regret_history c; cumulative_regret := cumulative_regret c;
     distance_to_optimal_history := distance_to_optimal_history c;
     total_iterations := total_iterations c; strategy_values := strategy_values c;
     prev_probs := prev_probs c |}.

Record statistics := {
  st_total_iterations : Z;
  st_cumulative_regret : Q;
  st_average_strategy : dict strategy Q;
  st_regret_by_strategy : dict strategy Q;
  st_strategy_frequency : dict strategy Q;
  st_nash_distance : Q }.

(** [get_statistics] *)
Definition get_statistics (c : CFRRegretMinimizer) : statistics :=
  {| st_total_iterations := total_iterations c;
     st_cumulative_regret := cumulative_regret c;
     st_average_strategy := get_average_strategy c;
     st_regret_by_strategy := regret_sum c;
     st_strategy_frequency := strategy_sum c;
     st_nash_distance := match last (distance_to_optimal_history c) with
                         | Some d => d | None => 1%Q end |}.

(* ================================================================= *)
(** ** Patients and game states as values *)

Inductive patient_type := Critical | Moderate | Minor.

#[global] Instance patient_type_eq_dec : EqDecision patient_type.
Proof. solve_decision. Defined.

(** [WAITING_PENALTY], [COMPLETION_REWARD], [INITIAL_HEALTH], [PATHWAYS] *)
Definition WAITING_PENALTY (t : patient_type) : Q :=
  match t with Critical => -3 | Moderate => -2 | Minor => -1 end.
Definition COMPLETION_REWARD (t : patient_type) : Q :=
  match t with Critical => 100 | Moderate => 60 | Minor => 30 end.
Definition INITIAL_HEALTH (t : patient_type) : Q :=
  match t with Critical => 30 | Moderate => 50 | Minor => 70 end.
Definition PATHWAYS (t : patient_type) : list string :=
  match t with
  | Critical => ["TRIAGE"; "TB"; "ICU"]
  | Moderate => ["TRIAGE"; "TB"; "LAB"; "TB"]
  | Minor => ["TRIAGE"; "TB"]
  end.

(** The [Patient] dataclass ([id] is spelled [pid]). *)
Record Patient := {
  pid : Z;
  ptype : patient_type;
  health : Q;
  pathway : list string;
  current_step : Z;
  arrival_time : Q;
  waiting_time : Q;
  being_treated_by : list string;
  deadline : Q;
  doctor_required : bool }.

(** [Patient.is_complete] *)
Definition is_complete (p : Patient) : bool :=
  Z.leb (Z.of_nat (length (pathway p))) (current_step p).

(** [Patient.urgency] *)
Definition urgency (p : Patient) : Q :=
  let type_weight := match ptype p with Critical => 3 | Moderate => 2 | Minor => 1 end%Q in
  (type_weight * ((100 - health p) / 100))%Q.

(** The [GameState] dataclass. *)
Record GameState := {
  patients : list Patient;
  nurse_pos : string;
  doctor_pos : string;
  nurse_busy_until : Q;
  doctor_busy_until : Q;
  current_time : Q;
  total_reward : Q;
  total_penalty : Q;
  completed_patients : Z }.

Definition empty_game_state : GameState :=
  {| patients := []; nurse_pos := "ENT"; doctor_pos := "ENT";
     nurse_busy_until := 0; doctor_busy_until := 0; current_time := 0;
     total_reward := 0; total_penalty := 0; completed_patients := 0 |}.

(** [sorted(xs, key=k)]: a stable sort, ascending in the key. *)
Fixpoint insert_by {A} (k : A -> Q) (x : A) (l : list A) : list A :=
  match l with
  | [] => [x]
  | y :: l' => if Qle_bool (k x) (k y) then x :: l else y :: insert_by k x l'
  end.

Fixpoint py_sorted {A} (k : A -> Q) (l : list A) : list A :=
  match l with
  | [] => []
  | x :: l' => insert_by k x (py_sorted k l')
  end.

(** [sorted(patients, key=lambda p: -p.urgency)] *)
Definition sort_by_urgency (ps : list Patient) : list Patient :=
  py_sorted (fun p => (- urgency p)%Q) ps.

(* ================================================================= *)
(** ** Symbolic agent actions and [StrategyGenerator] *)

(** An action string, classified the way [_execute_agent_action] reads
    it: [f'TREAT_PATIENT_{k}'] for an integer [k]; a string starting with
    ["TREAT_PATIENT_"] whose last ['_']-field is not an integer (its
    [int(...)] raises); ['WAIT']; any other string. *)
Inductive action :=
| TREAT_PATIENT (k : Z)
| TREAT_UNPARSABLE (s : string)
| WAIT
| OTHER_ACTION (s : string).

(** [['WAIT'] * n] *)
Definition waits (n : nat) : list action := repeat WAIT n.

(** Padding of the shorter list with ['WAIT']. *)
Definition pad_waits (na da : list action) : list action * list action :=
  let max_len := Nat.max (length na) (length da) in
  (na ++ waits (max_len - length na), da ++ waits (max_len - length da)).

(** [StrategyGenerator.generate_action_sequences(state, strategy_name)] *)
Definition generate_action_sequences (state : GameState) (strategy_name : strategy)
    : list action * list action :=
  let strat := STRATEGIES strategy_name in
  let ps := patients state in
  let treat p n := repeat (TREAT_PATIENT (pid p)) n in
  if decide (priority strat = "critical_first") then
    fold_left (fun '(na, da) p =>
                 let n := length (pathway p) in
                 if decide (ptype p = Critical)
                 then (na ++ treat p n, da ++ treat p n)
                 else (na ++ treat p n, da ++ waits n))
              (sort_by_urgency ps) ([], [])
  else if decide (priority strat = "severity") then
    fold_left (fun '(na, da) p =>
                 let n := length (pathway p) in (na ++ treat p n, da ++ treat p n))
              (sort_by_urgency ps) ([], [])
  else if decide (priority strat = "split_by_type") then
    let '(na, da) :=
      fold_left (fun '(na, da) p =>
                   let n := length (pathway p) in
                   if decide (ptype p = Critical) then (na, da ++ treat p n)
                   else (na ++ treat p n, da))
                ps ([], []) in
    pad_waits na da
  else if decide (priority strat = "fifo") then
    fold_left (fun '(na, da) p =>
                 let n := length (pathway p) in (na ++ treat p n, da ++ treat p n))
              ps ([], [])
  else if decide (priority strat = "distance") then
    let '(na, da, _) :=
      fold_left (fun '(na, da, i) p =>
                   let n := length (pathway p) in
                   if Nat.even i then (na ++ treat p n, da, S i)
                   else (na, da ++ treat p n, S i))
                ps ([], [], 0%nat) in
    pad_waits na da
  else if decide (priority strat = "role_based") then
    let '(na, da) :=
      fold_left (fun '(na, da) p =>
                   (na ++ [TREAT_PATIENT (pid p)],
                    da ++ treat p (length (pathway p) - 1)))
                ps ([], []) in
    pad_waits na da
  else ([], []).

(* ================================================================= *)
(** ** Plan compiler ([DynamicRegretAnalyzer._generate_unity_commands]) *)

Inductive command_action := ESCORT | TREAT | LEAVE_PATIENT | MOVE.

#[global] Instance command_action_eq_dec : EqDecision command_action.
Proof. solve_decision. Defined.

(** A command dict; [from_room] is present on ESCORT commands only. *)
Record command := {
  caction : command_action;
  target : string;
  patient_id : Z;
  duration : Q;
  from_room : option string }.

(** [self.treatment_times.get(room, 10)] *)
Definition treatment_time (room : string) : Q :=
  if decide (room = "TRIAGE") then 5
  else if decide (room = "TB") then 15
  else if decide (room = "LAB") then 20
  else if decide (room = "ICU") then 45
  else 10.

(** The ESCORT command followed by the TREAT command for one room. *)
Definition escort_treat (p : Patient) (room from : string) : list command :=
  [{| caction := ESCORT; target := room; patient_id := pid p; duration := 0;
      from_room := Some from |};
   {| caction := TREAT; target := room; patient_id := pid p;
      duration := treatment_time room; from_room := None |}].

Definition leave_cmd (p : Patient) (room : string) : command :=
  {| caction := LEAVE_PATIENT; target := room; patient_id := pid p; duration := 0;
     from_room := None |}.

(** Loop state: nurse list, doctor list, [patient_locations],
    [has_doctor_commands]. *)
Record compile_state := {
  cs_nurse : list command;
  cs_doctor : list command;
  cs_locations : dict Z string;
  cs_has_doctor : bool }.

(** Body of [for room in patient.pathway]. *)
Definition compile_room (strat : strategy) (p : Patient) (cs : compile_state)
    (room : string) : compile_state :=
  let is_critical := bool_decide (ptype p = Critical) in
  (* every key is present: the dict is built from all patients *)
  let from := dict_get (cs_locations cs) (pid p) "WAITING" in
  let et := escort_treat p room from in
  let '(n, d, h) :=
    match strat with
    | DOCTOR_CRITICAL_NURSE_OTHERS =>
        if is_critical then (cs_nurse cs, cs_doctor cs ++ et, true)
        else (cs_nurse cs ++ et, cs_doctor cs, cs_has_doctor cs)
    | NURSE_TRIAGE_DOCTOR_TREAT =>
        if decide (room = "TRIAGE")
        then (cs_nurse cs ++ et ++ [leave_cmd p room], cs_doctor cs, cs_has_doctor cs)
        else (cs_nurse cs, cs_doctor cs ++ et, true)
    | PARALLEL_CRITICAL =>
        if is_critical then (cs_nurse cs ++ et, cs_doctor cs ++ et, true)
        else (cs_nurse cs ++ et, cs_doctor cs, cs_has_doctor cs)
    | COOPERATIVE_ALL => (cs_nurse cs ++ et, cs_doctor cs ++ et, true)
    | _ =>
        if is_critical && bool_decide (room ∈ ["TB"; "ICU"])
        then (cs_nurse cs ++ et, cs_doctor cs ++ et, true)
        else (cs_nurse cs ++ et, cs_doctor cs, cs_has_doctor cs)
    end in
  {| cs_nurse := n; cs_doctor := d;
     cs_locations := dict_set (cs_locations cs) (pid p) room; cs_has_doctor := h |}.

(** Body of [for patient in patients]. *)
Definition compile_patient (strat : strategy) (cs : compile_state) (p : Patient)
    : compile_state :=
  let cs0 := {| cs_nurse := cs_nurse cs; cs_doctor := cs_doctor cs;
                cs_locations := cs_locations cs; cs_has_doctor := false |} in
  let cs1 := fold_left (compile_room strat p) (pathway p) cs0 in
  let icu_leave :=
    match last (pathway p) with
    | Some r => bool_decide (r = "ICU") && cs_has_doctor cs1
    | None => false
    end in
  {| cs_nurse := cs_nurse cs1;
     cs_doctor := if icu_leave then cs_doctor cs1 ++ [leave_cmd p "ICU"] else cs_doctor cs1;
     cs_locations := cs_locations cs1; cs_has_doctor := cs_has_doctor cs1 |}.

(** Roster order used by the compiler. *)
Definition compile_order (state : GameState) (strat : strategy) : list Patient :=
  if decide (priority (STRATEGIES strat) ∈ ["critical_first"; "severity"])
  then sort_by_urgency (patients state) else patients state.

(** Primary, strategy-specific generation (everything before the final
    verification pass). *)
Definition primary_commands (state : GameState) (strat : strategy)
    : list command * list command :=
  let ps := compile_order state strat in
  let cs := fold_left (compile_patient strat)
              ps {| cs_nurse := []; cs_doctor := [];
                    cs_locations := dict_of_keys (fun _ => "WAITING") (map pid ps);
                    cs_has_doctor := false |} in
  (cs_nurse cs, cs_doctor cs).

(** [nurse_covered]: ids of the nurse's ESCORT/TREAT commands with a
    positive patient id. *)
Definition nurse_covered (nurse : list command) : list Z :=
  map patient_id (filter (fun c => bool_decide (caction c ∈ [ESCORT; TREAT])
                                   && Z.ltb 0 (patient_id c)) nurse).

(** [missing_patients = all_patient_ids - nurse_covered], listed in
    roster order (the Python set iteration order only affects the order
    of the fallback commands). *)
Definition missing_patients (state : GameState) (strat : strategy) : list Z :=
  let ps := compile_order state strat in
  let '(nurse, _) := primary_commands state strat in
  filter (fun i => negb (bool_decide (i ∈ nurse_covered nurse))) (remove_dups (map pid ps)).

(** Fallback commands synthesised by the verification pass. *)
Definition fallback_commands (ps : list Patient) (missing : list Z) : list command :=
  flat_map (fun i =>
              match list_find (fun p => pid p = i) ps with
              | Some (_, p) =>
                  flat_map (fun room =>
                    [{| caction := ESCORT; target := room; patient_id := i; duration := 0;
                        from_room := Some "WAITING" |};
                     {| caction := TREAT; target := room; patient_id := i;
                        duration := treatment_time room; from_room := None |}]) (pathway p)
              | None => []
              end) missing.

Definition move_ent : command :=
  {| caction := MOVE; target := "ENT"; patient_id := -1; duration := 0; from_room := None |}.

(** [if not cmds: cmds.append(MOVE ENT)] *)
Definition ensure_nonempty (cmds : list command) : list command :=
  match cmds with [] => [move_ent] | _ => cmds end.

(** [_generate_unity_commands(state, strategy)] *)
Definition generate_unity_commands (state : GameState) (strat : strategy)
    : list command * list command :=
  let ps := compile_order state strat in
  let '(nurse, doctor) := primary_commands state strat in
  let nurse' := nurse ++ fallback_commands ps (missing_patients state strat) in
  (ensure_nonempty nurse', ensure_nonempty doctor).

(** The same compiler with the verification pass switched off. *)
Definition generate_unity_commands_no_repair (state : GameState) (strat : strategy)
    : list command * list command :=
  let '(nurse, doctor) := primary_commands state strat in
  (ensure_nonempty nurse, ensure_nonempty doctor).

(* ================================================================= *)
(** ** Scheduling orchestrator ([DynamicRegretAnalyzer]) *)

(** The analyzer fields the planning code reads or writes. *)
Record DynamicRegretAnalyzer := {
  cfr : CFRRegretMinimizer;
  patient_counter : Z;
  current_state : option GameState }.

Inductive assignment := IDLE | ASSIGNED (s : strategy).

(** The result bundle of [analyze_and_plan]; [expected_value] and
    [all_strategy_values] are absent from the IDLE bundle. *)
Record plan_result := {
  success : bool;
  assignment_strategy : assignment;
  assignment_description : string;
  assignment_expected_value : option Q;
  assignment_all_strategy_values : option (dict strategy Q);
  nurse_plan : list command;
  doctor_plan : list command;
  learning_stats : statistics;
  expected_reward : Q }.

Definition NUM_CFR_ITERATIONS : nat := 20.

Section Planning.
(** [math.sqrt] *)
Variable sqrt : Q -> Q.
(** The random source of numpy. *)
Variable Rng : Type.
(** [np.random.normal(loc, scale)] *)
Variable normal : Q -> Q -> Rng -> Q * Rng.
(** [np.random.choice(strategies_list, p=probabilities)] *)
Variable choice : list strategy -> list Q -> Rng -> strategy * Rng.
(** The value [total_healing + 50*patients_completed + 10*cooperation_events
    - total_penalty - 2*idle_time] of one (deterministic) simulator run of
    the strategy's generated sequences against a clone of the state. *)
Variable simulation_value : GameState -> strategy -> Q.

(** [evaluate_all_strategies(state, num_simulations)] *)
Definition evaluate_all_strategies (state : GameState) (num_simulations : nat)
    (c : CFRRegretMinimizer) (rng : Rng) : dict strategy Q * Rng :=
  fold_left (fun '(sv, rng) s =>
               let total_reward :=
                 fold_left (fun t _ => t + simulation_value state s)%Q
                           (seq 0 num_simulations) 0%Q in
               let avg_value := (total_reward / inject_Z (Z.of_nat num_simulations))%Q in
               let noise_scale := py_max2 (1#10) (10 / inject_Z (total_iterations c + 1))%Q in
               let '(noise, rng') := normal 0 noise_scale rng in
               (dict_set sv s (avg_value + noise)%Q, rng'))
            STRATEGY_NAMES ([], rng).

(** [select_strategy(strategies)] *)
Definition select_strategy (strategies : list strategy) (c : CFRRegretMinimizer)
    (rng : Rng) : strategy * CFRRegretMinimizer * Rng :=
  let '(probs, c') := get_strategy_probabilities strategies c in
  let strategies_list := keys probs in
  let probabilities := map (fun s => dict_get probs s 0%Q) strategies_list in
  let '(s, rng') := choice strategies_list probabilities rng in
  (s, c', rng').

(** One iteration of the learning loop of [analyze_and_plan].
    ([strategy_values[selected]] is read with [dict_get]: the selected
    strategy is always one of the keys.) *)
Definition cfr_iteration (state : GameState) (c : CFRRegretMinimizer) (rng : Rng)
    : dict strategy Q * CFRRegretMinimizer * Rng :=
  let '(sv, rng1) := evaluate_all_strategies state 5 c rng in
  let strategies := keys sv in
  let '(probs, c1) := get_strategy_probabilities strategies c in
  let '(selected, c2, rng2) := select_strategy strategies c1 rng1 in
  let c3 := update_regrets sqrt sv selected c2 in
  let c4 := record_iteration sv selected probs (dict_get sv selected 0%Q) c3 in
  (sv, c4, rng2).

(** [for iteration in range(NUM_CFR_ITERATIONS)] *)
Fixpoint cfr_loop (n : nat) (state : GameState) (sv : dict strategy Q)
    (c : CFRRegretMinimizer) (rng : Rng) : dict strategy Q * CFRRegretMinimizer * Rng :=
  match n with
  | O => (sv, c, rng)
  | S n' => let '(sv', c', rng') := cfr_iteration state c rng in
            cfr_loop n' state sv' c' rng'
  end.

(** Final selection: [max(avg_strategy, key=avg_strategy.get)], or
    [max(strategy_values, key=strategy_values.get)] when the average
    strategy is empty ([None]: [max] of an empty dict raises). *)
Definition final_selection (avg sv : dict strategy Q) : option strategy :=
  match avg with
  | (s0, _) :: rest => Some (py_max_by (fun s => dict_get avg s 0%Q) s0 (keys rest))
  | [] =>
      match sv with
      | (s0, _) :: rest => Some (py_max_by (fun s => dict_get sv s 0%Q) s0 (keys rest))
      | [] => None
      end
  end.

Definition idle_result (c : CFRRegretMinimizer) : plan_result :=
  {| success := true; assignment_strategy := IDLE;
     assignment_description := "No patients";
     assignment_expected_value := None; assignment_all_strategy_values := None;
     nurse_plan := []; doctor_plan := []; learning_stats := get_statistics c;
     expected_reward := 0 |}.

(** [analyze_and_plan()]; [None] when Python raises. *)
Definition analyze_and_plan (a : DynamicRegretAnalyzer) (rng : Rng)
    : option (plan_result * DynamicRegretAnalyzer * Rng) :=
  match current_state a with
  | Some st =>
      match patients st with
      | [] => Some (idle_result (cfr a), a, rng)
      | _ :: _ =>
          let '(sv, c, rng') := cfr_loop NUM_CFR_ITERATIONS st [] (cfr a) rng in
          match final_selection (get_average_strategy c) sv with
          | None => None
          | Some best =>
              let '(nurse, doctor) := generate_unity_commands st best in
              let a' := {| cfr := c; patient_counter := patient_counter a;
                           current_state := current_state a |} in
              Some ({| success := true; assignment_strategy := ASSIGNED best;
                       assignment_description := description (STRATEGIES best);
                       assignment_expected_value := Some (dict_get sv best 0%Q);
                       assignment_all_strategy_values := Some sv;
                       nurse_plan := nurse; doctor_plan := doctor;
                       learning_stats := get_statistics c;
                       expected_reward := dict_get sv best 0%Q |}, a', rng')
          end
      end
  | None => Some (idle_result (cfr a), a, rng)
  end.
End Planning.

(** Learner states reachable by the service: the fresh learner, and any
    state after a further iteration of the learning loop (whatever the
    roster, the random draws and the simulated values). *)
Inductive cfr_reachable : CFRRegretMinimizer -> Prop :=
| cfr_reachable_init : cfr_reachable cfr_init
| cfr_reachable_step sqrt (Rng : Type) normal choice simulation_value state c (rng : Rng) :
    cfr_reachable c ->
    cfr_reachable (snd (fst (cfr_iteration sqrt Rng normal choice simulation_value state c rng))).

(** Invariant of the probability accumulator of reachable learners. *)
Definition strategy_sum_inv (c : CFRRegretMinimizer) : Prop :=
  (strategy_sum c = [] /\ iteration_history c = []) \/
  (keys (strategy_sum c) = STRATEGY_NAMES /\
   (forall v, In v (values (strategy_sum c)) -> (0 <= v)%Q) /\
   (1 <= sum_list (values (strategy_sum c)))%Q /\
   iteration_history c <> []).

(* ================================================================= *)
(** ** The game simulator: patient updates *)

(** Python exceptions the simulator can raise.  [Dangling] is the failure
    of a heap read at a location holding no object of the expected kind:
    a Python reference always names an object, so it cannot happen on the
    heaps the program builds. *)
Inductive exn := ValueError | IndexError | Dangling.

(** [l[i]] with Python's negative indexing; [None] is [IndexError]. *)
Definition py_getitem {A} (l : list A) (i : Z) : option A :=
  if Z.leb 0 i then nth_error l (Z.to_nat i)
  else if Z.leb 0 (i + Z.of_nat (length l)) then nth_error l (Z.to_nat (i + Z.of_nat (length l)))
  else None.

(** [Patient.next_room] *)
Definition next_room (p : Patient) : exn + option string :=
  if is_complete p then inr None
  else match py_getitem (pathway p) (current_step p) with
       | Some r => inr (Some r)
       | None => inl IndexError
       end.

(** Truth value of a string. *)
Definition str_truthy (s : string) : bool :=
  match s with EmptyString => false | _ => true end.

Definition DOCTOR_HEALING_POWER : Q := 60.
Definition NURSE_HEALING_POWER : Q := 40.
Definition COOPERATIVE_BONUS : Q := 6 # 5.

(** [ROOM_EFFECTIVENESS.get(room, 0.2)] *)
Definition ROOM_EFFECTIVENESS (room : string) : Q :=
  if decide (room = "TRIAGE") then 1 # 10
  else if decide (room = "TB") then 3 # 10
  else if decide (room = "LAB") then 15 # 100
  else if decide (room = "ICU") then 1 # 2
  else 1 # 5.

(** [ROOM_TREATMENT_TIME.get(room, 10)] *)
Definition ROOM_TREATMENT_TIME (room : string) : Q :=
  if decide (room = "TRIAGE") then 5
  else if decide (room = "TB") then 15
  else if decide (room = "LAB") then 20
  else if decide (room = "ICU") then 45
  else 10.

(** The two agents ([agent == 'nurse'] / ['doctor']). *)
Inductive agent := Nurse | Doctor.

(** The per-patient part of [apply_waiting_penalties(state, time_delta)]:
    the patient after the update and its contribution to [penalty]. *)
Definition penalize_patient (time_delta : Q) (p : Patient) : Patient * Q :=
  match being_treated_by p with
  | [] =>
      let rate := WAITING_PENALTY (ptype p) in
      ({| pid := pid p; ptype := ptype p;
          health := py_max2 0 (health p + rate * time_delta)%Q;
          pathway := pathway p; current_step := current_step p;
          arrival_time := arrival_time p;
          waiting_time := (waiting_time p + time_delta)%Q;
          being_treated_by := being_treated_by p; deadline := deadline p;
          doctor_required := doctor_required p |}, (rate * time_delta)%Q)
  | _ :: _ => (p, 0%Q)
  end.

(** The per-patient part of [treat_patient(state, patient, agent, duration,
    cooperative)]: [None] when [next_room] is [None] (it returns [0.0]),
    else the patient after the healing and the step, and the reward. *)
Definition treat_patient_fields (ag : agent) (duration : Q) (cooperative : bool)
    (p : Patient) : exn + option (Patient * Q) :=
  match next_room p with
  | inl e => inl e
  | inr None => inr None
  | inr (Some room) =>
      let base_power := match ag with Doctor => DOCTOR_HEALING_POWER
                                    | Nurse => NURSE_HEALING_POWER end in
      let base_power := if cooperative then (base_power * COOPERATIVE_BONUS)%Q else base_power in
      let healing := (base_power * ROOM_EFFECTIVENESS room *
                      (duration / ROOM_TREATMENT_TIME room))%Q in
      let p' := {| pid := pid p; ptype := ptype p;
                   health := py_min2 100 (health p + healing)%Q;
                   pathway := pathway p; current_step := (current_step p + 1)%Z;
                   arrival_time := arrival_time p; waiting_time := waiting_time p;
                   being_treated_by := being_treated_by p; deadline := deadline p;
                   doctor_required := doctor_required p |} in
      let reward := if is_complete p' then (healing + COMPLETION_REWARD (ptype p'))%Q
                    else healing in
      inr (Some (p', reward))
  end.

Definition agent_name (ag : agent) : string :=
  match ag with Nurse => "nurse" | Doctor => "doctor" end.

(** [list.remove(x)]: the first occurrence ([None]: [ValueError]). *)
Fixpoint list_remove {A} `{EqDecision A} (x : A) (l : list A) : option (list A) :=
  match l with
  | [] => None
  | y :: l' => if decide (x = y) then Some l' else option_map (cons y) (list_remove x l')
  end.

Definition set_being_treated_by (p : Patient) (b : list string) : Patient :=
  {| pid := pid p; ptype := ptype p; health := health p; pathway := pathway p;
     current_step := current_step p; arrival_time := arrival_time p;
     waiting_time := waiting_time p; being_treated_by := b; deadline := deadline p;
     doctor_required := doctor_required p |}.

(** [Patient(...)] as built by [spawn_patient(ptype)]. *)
Definition new_patient (id : Z) (t : patient_type) : Patient :=
  {| pid := id; ptype := t; health := INITIAL_HEALTH t; pathway := PATHWAYS t;
     current_step := 0; arrival_time := 0; waiting_time := 0; being_treated_by := [];
     deadline := match t with Critical => 25 | Moderate => 45 | Minor => 30 end;
     doctor_required := bool_decide (t = Critical) |}.

(** The patient update of [step_patient(patient_id)]. *)
Definition step_patient_fields (p : Patient) : Patient :=
  if is_complete p then p
  else {| pid := pid p; ptype := ptype p; health := health p; pathway := pathway p;
          current_step := (current_step p + 1)%Z; arrival_time := arrival_time p;
          waiting_time := waiting_time p; being_treated_by := being_treated_by p;
          deadline := deadline p; doctor_required := doctor_required p |}.

(** [DynamicRegretAnalyzer.spawn_patient(ptype)] *)
Definition spawn_patient (t : patient_type) (a : DynamicRegretAnalyzer)
    : Patient * DynamicRegretAnalyzer :=
  let n := (patient_counter a + 1)%Z in
  let p := new_patient n t in
  let st := match current_state a with Some st => st | None => empty_game_state end in
  (p, {| cfr := cfr a; patient_counter := n;
         current_state := Some {| patients := patients st ++ [p]; nurse_pos := nurse_pos st;
                                  doctor_pos := doctor_pos st;
                                  nurse_busy_until := nurse_busy_until st;
                                  doctor_busy_until := doctor_busy_until st;
                                  current_time := current_time st;
                                  total_reward := total_reward st;
                                  total_penalty := total_penalty st;
                                  completed_patients := completed_patients st |} |}).

(** [DynamicRegretAnalyzer.step_patient(patient_id)] on the roster: the
    first patient with that id is stepped (unless complete); the result is
    its [is_complete], or [False] when no patient has that id. *)
Fixpoint step_patient_roster (patient_id : Z) (ps : list Patient) : list Patient * bool :=
  match ps with
  | [] => ([], false)
  | p :: ps' =>
      if Z.eqb (pid p) patient_id then
        let p' := step_patient_fields p in (p' :: ps', is_complete p')
      else let '(ps'', b) := step_patient_roster patient_id ps' in (p :: ps'', b)
  end.

(** [DynamicRegretAnalyzer.remove_patient(patient_id)] on the roster. *)
Definition remove_patient_roster (patient_id : Z) (ps : list Patient) : list Patient :=
  filter (fun p => negb (Z.eqb (pid p) patient_id)) ps.

(** Patients as they can arise: spawned, then any number of simulator
    waiting penalties (time step [1.0]), treatments (for the duration the
    simulator uses, [ROOM_TREATMENT_TIME] of the next room), marks of the
    treating agent and Unity's [step_patient].  Clones copy a patient's
    fields, so they stay in the relation. *)
Inductive patient_reachable : Patient -> Prop :=
| pr_spawn id t : patient_reachable (new_patient id t)
| pr_penalty p : patient_reachable p -> patient_reachable (fst (penalize_patient 1 p))
| pr_treat p ag room cooperative p' reward :
    patient_reachable p -> next_room p = inr (Some room) ->
    treat_patient_fields ag (ROOM_TREATMENT_TIME room) cooperative p = inr (Some (p', reward)) ->
    patient_reachable p'
| pr_mark p b : patient_reachable p -> patient_reachable (set_being_treated_by p b)
| pr_step p : patient_reachable p -> patient_reachable (step_patient_fields p).

(* ================================================================= *)
(** ** The game simulator on a heap of Python objects *)

(** Object references. *)
Definition loc := nat.

(** A [GameState] object: [patients] refers to a list object. *)
Record StateObj := {
  so_patients : loc;
  so_nurse_pos : string;
  so_doctor_pos : string;
  so_nurse_busy_until : Q;
  so_doctor_busy_until : Q;
  so_current_time : Q;
  so_total_reward : Q;
  so_total_penalty : Q;
  so_completed_patients : Z }.

(** Heap objects: a [Patient] (its [pathway] and [being_treated_by] lists
    are held as values: [Patient.clone] copies both, so no list of a clone
    is shared), a [GameState], and a list of patient references. *)
Inductive obj :=
| OPatient (p : Patient)
| OState (s : StateObj)
| OList (l : list loc).

Record heap := { cells : gmap loc obj; next_loc : loc }.

(** Allocation discipline: nothing lives at or above [next_loc]. *)
Definition heap_wf (h : heap) : Prop := forall l, (next_loc h <= l)%nat -> cells h !! l = None.

(** State and exceptions; the heap keeps the writes made before a raise. *)
Definition M (A : Type) : Type := heap -> (exn + A) * heap.

Definition ret {A} (a : A) : M A := fun h => (inr a, h).
Definition bind {A B} (m : M A) (k : A -> M B) : M B :=
  fun h => match m h with
           | (inl e, h') => (inl e, h')
           | (inr a, h') => k a h'
           end.
Definition raise {A} (e : exn) : M A := fun h => (inl e, h).
Definition lift {A} (r : exn + A) : M A := fun h => (r, h).

Module SimNotations.
Notation "x <- m ;; k" := (bind m (fun x => k)) (at level 100, m at next level, right associativity).
End SimNotations.
Import SimNotations.

Definition alloc (o : obj) : M loc :=
  fun h => (inr (next_loc h), {| cells := <[next_loc h := o]> (cells h); next_loc := S (next_loc h) |}).
Definition store (l : loc) (o : obj) : M unit :=
  fun h => (inr tt, {| cells := <[l := o]> (cells h); next_loc := next_loc h |}).
Definition load_patient (l : loc) : M Patient :=
  fun h => match cells h !! l with Some (OPatient p) => (inr p, h) | _ => (inl Dangling, h) end.
Definition load_state (l : loc) : M StateObj :=
  fun h => match cells h !! l with Some (OState s) => (inr s, h) | _ => (inl Dangling, h) end.
Definition load_list (l : loc) : M (list loc) :=
  fun h => match cells h !! l with Some (OList ls) => (inr ls, h) | _ => (inl Dangling, h) end.

Fixpoint mapM {A B} (f : A -> M B) (l : list A) : M (list B) :=
  match l with
  | [] => ret []
  | x :: l' => y <- f x ;; ys <- mapM f l' ;; ret (y :: ys)
  end.

Fixpoint foldM {A B} (f : B -> A -> M B) (l : list A) (acc : B) : M B :=
  match l with
  | [] => ret acc
  | x :: l' => acc' <- f acc x ;; foldM f l' acc'
  end.

Fixpoint filterM {A} (f : A -> M bool) (l : list A) : M (list A) :=
  match l with
  | [] => ret []
  | x :: l' => b <- f x ;; ys <- filterM f l' ;; ret (if b then x :: ys else ys)
  end.

Definition set_so_patients (st : StateObj) (pl : loc) : StateObj :=
  {| so_patients := pl; so_nurse_pos := so_nurse_pos st; so_doctor_pos := so_doctor_pos st;
     so_nurse_busy_until := so_nurse_busy_until st;
     so_doctor_busy_until := so_doctor_busy_until st;
     so_current_time := so_current_time st; so_total_reward := so_total_reward st;
     so_total_penalty := so_total_penalty st;
     so_completed_patients := so_completed_patients st |}.

Definition add_total_penalty (st : StateObj) (x : Q) : StateObj :=
  {| so_patients := so_patients st; so_nurse_pos := so_nurse_pos st;
     so_doctor_pos := so_doctor_pos st; so_nurse_busy_until := so_nurse_busy_until st;
     so_doctor_busy_until := so_doctor_busy_until st;
     so_current_time := so_current_time st; so_total_reward := so_total_reward st;
     so_total_penalty := (so_total_penalty st + x)%Q;
     so_completed_patients := so_completed_patients st |}.

Definition add_reward (st : StateObj) (x : Q) (completed : Z) : StateObj :=
  {| so_patients := so_patients st; so_nurse_pos := so_nurse_pos st;
     so_doctor_pos := so_doctor_pos st; so_nurse_busy_until := so_nurse_busy_until st;
     so_doctor_busy_until := so_doctor_busy_until st;
     so_current_time := so_current_time st; so_total_reward := (so_total_reward st + x)%Q;
     so_total_penalty := so_total_penalty st;
     so_completed_patients := (so_completed_patients st + completed)%Z |}.

(** [state.nurse_busy_until = t] (and [nurse_pos = pos] when given), or
    the doctor's. *)
Definition set_agent (st : StateObj) (ag : agent) (busy : Q) (pos : option string) : StateObj :=
  {| so_patients := so_patients st;
     so_nurse_pos := match ag, pos with Nurse, Some r => r | _, _ => so_nurse_pos st end;
     so_doctor_pos := match ag, pos with Doctor, Some r => r | _, _ => so_doctor_pos st end;
     so_nurse_busy_until := match ag with Nurse => busy | Doctor => so_nurse_busy_until st end;
     so_doctor_busy_until := match ag with Doctor => busy | Nurse => so_doctor_busy_until st end;
     so_current_time := so_current_time st; so_total_reward := so_total_reward st;
     so_total_penalty := so_total_penalty st;
     so_completed_patients := so_completed_patients st |}.

Definition tick (st : StateObj) (dt : Q) : StateObj :=
  {| so_patients := so_patients st; so_nurse_pos := so_nurse_pos st;
     so_doctor_pos := so_doctor_pos st; so_nurse_busy_until := so_nurse_busy_until st;
     so_doctor_busy_until := so_doctor_busy_until st;
     so_current_time := (so_current_time st + dt)%Q; so_total_reward := so_total_reward st;
     so_total_penalty := so_total_penalty st;
     so_completed_patients := so_completed_patients st |}.

(** The [metrics] dict of [simulate_action_sequence] (a local object). *)
Record metrics := {
  m_total_healing : Q;
  m_total_penalty : Q;
  m_patients_completed : Z;
  m_cooperation_events : Z;
  m_idle_time : Q }.

Definition metrics0 : metrics :=
  {| m_total_healing := 0; m_total_penalty := 0; m_patients_completed := 0;
     m_cooperation_events := 0; m_idle_time := 0 |}.

Definition m_add_healing (m : metrics) (x : Q) : metrics :=
  {| m_total_healing := (m_total_healing m + x)%Q; m_total_penalty := m_total_penalty m;
     m_patients_completed := m_patients_completed m;
     m_cooperation_events := m_cooperation_events m; m_idle_time := m_idle_time m |}.
Definition m_add_penalty (m : metrics) (x : Q) : metrics :=
  {| m_total_healing := m_total_healing m; m_total_penalty := (m_total_penalty m + x)%Q;
     m_patients_completed := m_patients_completed m;
     m_cooperation_events := m_cooperation_events m; m_idle_time := m_idle_time m |}.
Definition m_add_completed (m : metrics) (n : Z) : metrics :=
  {| m_total_healing := m_total_healing m; m_total_penalty := m_total_penalty m;
     m_patients_completed := (m_patients_completed m + n)%Z;
     m_cooperation_events := m_cooperation_events m; m_idle_time := m_idle_time m |}.
Definition m_add_cooperation (m : metrics) : metrics :=
  {| m_total_healing := m_total_healing m; m_total_penalty := m_total_penalty m;
     m_patients_completed := m_patients_completed m;
     m_cooperation_events := (m_cooperation_events m + 1)%Z; m_idle_time := m_idle_time m |}.
Definition m_add_idle (m : metrics) : metrics :=
  {| m_total_healing := m_total_healing m; m_total_penalty := m_total_penalty m;
     m_patients_completed := m_patients_completed m;
     m_cooperation_events := m_cooperation_events m; m_idle_time := (m_idle_time m + 1)%Q |}.

Section Simulator.
(** [room_distance(r1, r2)] (it reads the mutable [ROOM_POSITIONS]). *)
Variable room_distance : string -> string -> Q.

(** [self.nurse_speed], [self.doctor_speed] *)
Definition agent_speed (ag : agent) : Q :=
  match ag with Nurse => 4 | Doctor => 5 # 2 end.

(** [Patient.clone] *)
Definition clone_patient (l : loc) : M loc :=
  p <- load_patient l ;; alloc (OPatient p).

(** [GameState.clone] *)
Definition clone_state (l : loc) : M loc :=
  st <- load_state l ;;
  ls <- load_list (so_patients st) ;;
  ls' <- mapM clone_patient ls ;;
  pl <- alloc (OList ls') ;;
  alloc (OState (set_so_patients st pl)).

(** [apply_waiting_penalties(state, time_delta)] *)
Definition apply_waiting_penalties (s : loc) (time_delta : Q) : M Q :=
  st <- load_state s ;;
  ls <- load_list (so_patients st) ;;
  penalty <- foldM (fun acc l =>
                      p <- load_patient l ;;
                      let '(p', d) := penalize_patient time_delta p in
                      _ <- store l (OPatient p') ;;
                      ret (acc + d)%Q) ls 0%Q ;;
  st' <- load_state s ;;
  _ <- store s (OState (add_total_penalty st' penalty)) ;;
  ret penalty.

(** [treat_patient(state, patient, agent, duration, cooperative)] *)
Definition treat_patient (s l : loc) (ag : agent) (duration : Q) (cooperative : bool) : M Q :=
  p <- load_patient l ;;
  r <- lift (treat_patient_fields ag duration cooperative p) ;;
  match r with
  | None => ret 0%Q
  | Some (p', reward) =>
      _ <- store l (OPatient p') ;;
      st <- load_state s ;;
      _ <- store s (OState (add_reward st reward (if is_complete p' then 1 else 0)%Z)) ;;
      ret reward
  end.

(** [_execute_agent_action(state, agent, action, metrics)]; the action is
    given classified ([action]), [TREAT_PATIENT k] standing for the string
    whose last ['_']-field parses to [k]. *)
Definition execute_agent_action (s : loc) (ag : agent) (a : action) (m : metrics)
    : M (Q * metrics) :=
  match a with
  | TREAT_PATIENT k =>
      let patient_idx := (k - 1)%Z in
      st <- load_state s ;;
      ls <- load_list (so_patients st) ;;
      if Z.ltb patient_idx (Z.of_nat (length ls)) then
        match py_getitem ls patient_idx with
        | None => raise IndexError
        | Some l =>
            p <- load_patient l ;;
            room <- lift (next_room p) ;;
            match room with
            | Some r =>
                if str_truthy r then
                  let current_pos := match ag with Nurse => so_nurse_pos st
                                                 | Doctor => so_doctor_pos st end in
                  let travel_time := (room_distance current_pos r / agent_speed ag)%Q in
                  let treatment_time := ROOM_TREATMENT_TIME r in
                  let cooperative := negb (Nat.eqb (length (being_treated_by p)) 0) in
                  let m' := if cooperative then m_add_cooperation m else m in
                  let busy_until := (so_current_time st + travel_time + treatment_time)%Q in
                  _ <- store s (OState (set_agent st ag busy_until (Some r))) ;;
                  _ <- store l (OPatient (set_being_treated_by p
                                            (being_treated_by p ++ [agent_name ag]))) ;;
                  reward <- treat_patient s l ag treatment_time cooperative ;;
                  p2 <- load_patient l ;;
                  match list_remove (agent_name ag) (being_treated_by p2) with
                  | None => raise ValueError
                  | Some b =>
                      _ <- store l (OPatient (set_being_treated_by p2 b)) ;;
                      ret (reward, m')
                  end
                else ret (0%Q, m)
            | None => ret (0%Q, m)
            end
        end
      else ret (0%Q, m)
  | TREAT_UNPARSABLE _ => raise ValueError
  | WAIT =>
      st <- load_state s ;;
      _ <- store s (OState (set_agent st ag (so_current_time st + 1)%Q None)) ;;
      ret (0%Q, m_add_idle m)
  | OTHER_ACTION _ => ret (0%Q, m)
  end.

(** [dead = [p for p in state.patients if pred(p)]; for p in dead: ...;
    state.patients.remove(p)].  Each [remove(p)] drops the first element
    equal (field by field) to [p]; every such element satisfies [pred]
    too, so after the loop exactly the elements failing [pred] remain, in
    order: the filter below. *)
Definition remove_where (s : loc) (pred : Patient -> bool) : M (list loc) :=
  st <- load_state s ;;
  ls <- load_list (so_patients st) ;;
  removed <- filterM (fun l => p <- load_patient l ;; ret (pred p)) ls ;;
  kept <- filterM (fun l => p <- load_patient l ;; ret (negb (pred p))) ls ;;
  _ <- store (so_patients st) (OList kept) ;;
  ret removed.

(** The turn of one agent: [if state.current_time >= busy_until and
    idx < len(actions): ...]. *)
Definition agent_turn (s : loc) (ag : agent) (actions : list action) (idx : nat)
    (m : metrics) : M (nat * metrics) :=
  st <- load_state s ;;
  let busy := match ag with Nurse => so_nurse_busy_until st
                          | Doctor => so_doctor_busy_until st end in
  if Qle_bool busy (so_current_time st) && Nat.ltb idx (length actions) then
    rm <- execute_agent_action s ag (nth idx actions WAIT) m ;;
    let '(reward, m') := rm in
    ret (S idx, m_add_healing m' reward)
  else ret (idx, m).

(** The [while] loop, run for at most [fuel] rounds. *)
Fixpoint sim_loop (fuel : nat) (s : loc) (simulation_time : Q)
    (nurse_actions doctor_actions : list action) (ni di : nat) (m : metrics) : M metrics :=
  match fuel with
  | O => ret m
  | S fuel' =>
      st <- load_state s ;;
      ls <- load_list (so_patients st) ;;
      if Qltb (so_current_time st) simulation_time && negb (Nat.eqb (length ls) 0) then
        penalty <- apply_waiting_penalties s 1 ;;
        let m := m_add_penalty m (Qabs penalty) in
        dead <- remove_where s (fun p => Qle_bool (health p) 0) ;;
        st1 <- load_state s ;;
        _ <- store s (OState (add_total_penalty st1 (- (50 * inject_Z (Z.of_nat (length dead))))%Q)) ;;
        let m := m_add_penalty m (50 * inject_Z (Z.of_nat (length dead)))%Q in
        nm <- agent_turn s Nurse nurse_actions ni m ;;
        let '(ni', m) := nm in
        dm <- agent_turn s Doctor doctor_actions di m ;;
        let '(di', m) := dm in
        completed <- remove_where s is_complete ;;
        let m := m_add_completed m (Z.of_nat (length completed)) in
        st2 <- load_state s ;;
        _ <- store s (OState (tick st2 1)) ;;
        sim_loop fuel' s simulation_time nurse_actions doctor_actions ni' di' m
      else ret m
  end.

(** [simulate_action_sequence(initial_state, nurse_actions, doctor_actions,
    simulation_time)]: the loop adds [1.0] to the clock per round, so it
    stops by itself within [ceil(simulation_time - current_time)] rounds. *)
Definition simulate_action_sequence (initial_state : loc)
    (nurse_actions doctor_actions : list action) (simulation_time : Q) : M (loc * metrics) :=
  s <- clone_state initial_state ;;
  st <- load_state s ;;
  let fuel := Z.to_nat (Qceiling (simulation_time - so_current_time st)) in
  m <- sim_loop fuel s simulation_time nurse_actions doctor_actions 0 0 metrics0 ;;
  ret (s, m).
End Simulator.

(** The region of the heap at or above [n0], allocated by the current
    call, only refers to objects of that region. *)
Definition obj_ok (n0 : loc) (o : obj) : Prop :=
  match o with
  | OPatient _ => True
  | OState st => (n0 <= so_patients st)%nat
  | OList ls => Forall (fun l => (n0 <= l)%nat) ls
  end.

Definition region_inv (n0 : loc) (h : heap) : Prop :=
  (n0 <= next_loc h)%nat /\
  forall l o, (n0 <= l)%nat -> cells h !! l = Some o -> obj_ok n0 o.

(** No object below [n0] changed. *)
Definition frame (n0 : loc) (h h' : heap) : Prop :=
  forall l, (l < n0)%nat -> cells h' !! l = cells h !! l.

(** A computation that keeps [region_inv n0], writes only at or above
    [n0], and whose result satisfies [R]. *)
Definition writes_above {A} (n0 : loc) (m : M A) (R : A -> Prop) : Prop :=
  forall h, region_inv n0 h ->
    region_inv n0 (snd (m h)) /\ frame n0 h (snd (m h)) /\
    forall a, fst (m h) = inr a -> R a.

(* ================================================================= *)
(** ** Concrete scenarios *)

(** One Critical patient, as spawned first. *)
Definition ex_patient : Patient := new_patient 1 Critical.

(** A scenario object graph: the state at 0, its roster list at 1, the
    patient at 2. *)
Definition ex_state_obj : StateObj :=
  {| so_patients := 1; so_nurse_pos := "ENT"; so_doctor_pos := "ENT";
     so_nurse_busy_until := 0; so_doctor_busy_until := 0; so_current_time := 0;
     so_total_reward := 0; so_total_penalty := 0; so_completed_patients := 0 |}.

Definition ex_heap : heap :=
  {| cells := <[0%nat := OState ex_state_obj]> (<[1%nat := OList [2%nat]]>
                (<[2%nat := OPatient ex_patient]> ∅));
     next_loc := 3 |}.

(** A distance table for the witnesses. *)
Definition ex_distance (_ _ : string) : Q := 1.

(** A planning scenario: one Critical patient, as the service spawns it
    into an empty room, with the fresh learner. *)
Definition ce_state : GameState :=
  {| patients := [ex_patient]; nurse_pos := "ENT"; doctor_pos := "ENT";
     nurse_busy_until := 0; doctor_busy_until := 0; current_time := 0;
     total_reward := 0; total_penalty := 0; completed_patients := 0 |}.

Definition ce_analyzer : DynamicRegretAnalyzer :=
  {| cfr := cfr_init; patient_counter := 1; current_state := Some ce_state |}.

(** [math.sqrt]: the square root rounded to the nearest binary64 number
    (53-bit significand), for a positive rational in the normal range;
    [sqrt_floor_at n d e] is [floor(sqrt(n/d) * 2^e)], and [find_exp]
    moves [e] up until that floor has 53 bits. *)
Definition sqrt_floor_at (n d e : Z) : Z :=
  if Z.leb 0 e then Z.sqrt (n * 4 ^ e / d) else Z.sqrt (n / (d * 4 ^ (- e))).

Fixpoint find_exp (fuel : nat) (n d e : Z) : Z :=
  match fuel with
  | O => e
  | S f => if Z.ltb (sqrt_floor_at n d e) (2 ^ 52) then find_exp f n d (e + 1) else e
  end.

Definition py_sqrt (q : Q) : Q :=
  let n := Qnum q in
  let d := Zpos (Qden q) in
  if Z.leb n 0 then 0 else
  let e := find_exp 8 n d (52 - (Z.log2 n - Z.log2 d) / 2 - 3)%Z in
  let m0 := sqrt_floor_at n d e in
  let up := if Z.leb 0 e then Z.ltb ((2 * m0 + 1) ^ 2 * d) (4 * n * 4 ^ e)
            else Z.ltb ((2 * m0 + 1) ^ 2 * d * 4 ^ (- e)) (4 * n) in
  let m := if up then (m0 + 1)%Z else m0 in
  if Z.leb 0 e then m # Z.to_pos (2 ^ e)%Z else inject_Z (m * 2 ^ (- e))%Z.

(** [ROOM_POSITIONS] as initialised. *)
Definition ROOM_POSITIONS : dict string (Q * Q) :=
  [("ENT", (0, 0)); ("TRIAGE", (2, 0)); ("TB", (5, 3)); ("LAB", (8, -2)); ("ICU", (10, 5))]%Q.

(** [room_distance(r1, r2)] against the current content of
    [ROOM_POSITIONS]. *)
Definition room_distance (sqrt : Q -> Q) (positions : dict string (Q * Q)) (r1 r2 : string) : Q :=
  let p1 := dict_get positions r1 (0, 0)%Q in
  let p2 := dict_get positions r2 (0, 0)%Q in
  sqrt ((fst p1 - fst p2) ^ 2 + (snd p1 - snd p2) ^ 2)%Q.

(** The object graph of a [GameState] value: the state at 0, its roster
    list at 1, the patients from 2 on. *)
Definition state_obj_of (st : GameState) (pl : loc) : StateObj :=
  {| so_patients := pl; so_nurse_pos := nurse_pos st; so_doctor_pos := doctor_pos st;
     so_nurse_busy_until := nurse_busy_until st; so_doctor_busy_until := doctor_busy_until st;
     so_current_time := current_time st; so_total_reward := total_reward st;
     so_total_penalty := total_penalty st; so_completed_patients := completed_patients st |}.

Definition state_heap (st : GameState) : heap :=
  let n := length (patients st) in
  {| cells := <[0%nat := OState (state_obj_of st 1)]>
                (<[1%nat := OList (seq 2 n)]>
                  (list_to_map (imap (fun i p => (2 + i, OPatient p)%nat) (patients st))));
     next_loc := 2 + n |}.

(** [value] in [evaluate_all_strategies]. *)
Definition metrics_value (m : metrics) : Q :=
  m_total_healing m * 1 + inject_Z (m_patients_completed m) * 50 +
  inject_Z (m_cooperation_events m) * 10 - m_total_penalty m * 1 - m_idle_time m * 2.

(** One simulation of [evaluate_all_strategies]: the strategy's action
    sequences, simulated for [simulation_time = 100.0]. *)
Definition simulator_run (sqrt : Q -> Q) (positions : dict string (Q * Q))
    (st : GameState) (s : strategy) : exn + (loc * metrics) :=
  let '(na, da) := generate_action_sequences st s in
  fst (simulate_action_sequence (room_distance sqrt positions) 0 na da 100 (state_heap st)).

(** Its [value] (the simulator is deterministic, so all [num_simulations]
    runs give the same one); [0] stands for a raise, which the scenario
    below shows does not happen. *)
Definition sim_value (sqrt : Q -> Q) (positions : dict string (Q * Q))
    (st : GameState) (s : strategy) : Q :=
  match simulator_run sqrt positions st s with
  | inr (_, m) => metrics_value m
  | inl _ => 0
  end.

(** numpy's legacy generator ([np.random]) as the draws it makes from its
    stream of uniform doubles in [0, 1): [legacy_gauss] takes two of them,
    [u1] and [u2], sets [x1 = 2 u1 - 1], [x2 = 2 u2 - 1],
    [r2 = x1^2 + x2^2], retries unless [0 < r2 < 1], and with
    [f = sqrt(-2 log(r2) / r2)] returns [f x2] and keeps [f x1] for its
    next call; [random_sample] takes one uniform.  An accepted pair is
    recorded with its [f] (computed in binary64). *)
Inductive np_event :=
| PolarPair (u1 u2 f : Q)
| Sample (u : Q).

(** The cached Gaussian and the remaining draws; [None] once a call finds
    a draw of the wrong kind or none left. *)
Definition np_state : Type := option (option Q * list np_event).

(** [np.random.normal(loc, scale)] = [loc + scale * legacy_gauss()]. *)
Definition np_normal (loc scale : Q) (st : np_state) : Q * np_state :=
  match st with
  | Some (Some g, t) => ((loc + scale * g)%Q, Some (None, t))
  | Some (None, PolarPair u1 u2 f :: t) =>
      let x1 := (2 * u1 - 1)%Q in
      let x2 := (2 * u2 - 1)%Q in
      let r2 := (x1 * x1 + x2 * x2)%Q in
      if Qltb 0 r2 && Qltb r2 1
      then ((loc + scale * (f * x2))%Q, Some (Some (f * x1)%Q, t))
      else (0%Q, None)
  | _ => (0%Q, None)
  end.

Fixpoint cumsum_from (acc : Q) (l : list Q) : list Q :=
  match l with
  | [] => []
  | x :: l' => (acc + x)%Q :: cumsum_from (acc + x)%Q l'
  end.

(** [np.random.choice(a, p=p)]: [cdf = p.cumsum(); cdf /= cdf[-1];
    idx = cdf.searchsorted(random_sample(), side='right'); a[idx]]
    ([cdf[-1]] is 1 after the division, above any uniform draw, so [idx]
    is an index of [a]). *)
Definition np_choice (a : list strategy) (p : list Q) (st : np_state) : strategy * np_state :=
  match st with
  | Some (g, Sample u :: t) =>
      let cdf := cumsum_from 0 p in
      let cdf := map (fun x => x / List.last cdf 0)%Q cdf in
      let idx := length (filter (fun x => Qle_bool x u) cdf) in
      (nth idx a (List.last a PARALLEL_CRITICAL), Some (g, t))
  | _ => (PARALLEL_CRITICAL, None)
  end.

(** The [f] factors of the pairs drawn below. *)
Definition f_half_half : Q := 7498985273150791 # 4503599627370496.
Definition f_quarter_5_8 : Q := 6143810043326269 # 2251799813685248.
Definition f_7_8_3_8 : Q := 5523131321579047 # 4503599627370496.

(** Draws of a learning round of a plan (round [k], from 0): six calls to
    [normal] in catalog order, in three pairs, then one [random_sample] in
    [select_strategy].  In rounds 0 to 18 the first pair has [u1 = u2], so
    PARALLEL_CRITICAL and SEQUENTIAL_SEVERITY draw the same noise; in the
    last round it has [u1 > u2], so SEQUENTIAL_SEVERITY draws more. *)
Definition np_round (k : nat) : list np_event :=
  (if Nat.eqb k 19 then PolarPair (7 # 8) (5 # 8) f_7_8_3_8
   else PolarPair (3 # 4) (3 # 4) f_half_half) ::
  [PolarPair (1 # 4) (5 # 8) f_quarter_5_8; PolarPair (7 # 8) (3 # 8) f_7_8_3_8;
   Sample (1 # 2)].

(** The generator before round [k] of the plan. *)
Definition np_tape (k : nat) : np_state :=
  Some (None, flat_map np_round (seq k (20 - k))).

(** Exact equality of rationals and of draws, to compare the scenario's
    generator states. *)
#[local] Instance Q_eq_dec_exact : EqDecision Q.
Proof. solve_decision. Defined.
#[local] Instance np_event_eq_dec : EqDecision np_event.
Proof. solve_decision. Defined.

(** A learner whose only non-initial field is its iteration count (the
    one field [evaluate_all_strategies] reads). *)
Definition cfr_at (k : nat) : CFRRegretMinimizer :=
  {| regret_sum := []; strategy_sum := []; iteration_history := [];
     regret_history := []; cumulative_regret := 0; distance_to_optimal_history := [];
     total_iterations := Z.of_nat k; strategy_values := []; prev_probs := [] |}.

(** The strategy values of round [k] of the scenario's plan. *)
Definition ce_round (k : nat) : dict strategy Q * np_state :=
  evaluate_all_strategies np_state np_normal (sim_value py_sqrt ROOM_POSITIONS)
                          ce_state 5 (cfr_at k) (np_tape k).

(** PARALLEL_CRITICAL and SEQUENTIAL_SEVERITY have the same value, and no
    strategy has more. *)
Definition sv_tie (sv : dict strategy Q) : bool :=
  bool_decide (dict_get sv PARALLEL_CRITICAL 0%Q = dict_get sv SEQUENTIAL_SEVERITY 0%Q) &&
  forallb (fun s => Qle_bool (dict_get sv s 0%Q) (dict_get sv PARALLEL_CRITICAL 0%Q))
          STRATEGY_NAMES.

Definition round_check (k : nat) : bool :=
  let '(sv, rng1) := ce_round k in
  bool_decide (rng1 = Some (None, Sample (1 # 2) :: flat_map np_round (seq (S k) (19 - k)))) &&
  (if Nat.eqb k 19
   then Qltb (dict_get sv PARALLEL_CRITICAL 0%Q) (dict_get sv SEQUENTIAL_SEVERITY 0%Q)
   else sv_tie sv).

(** The same for accumulated regrets, and for accumulated probabilities. *)
Definition regret_top (c : CFRRegretMinimizer) : Prop :=
  dict_get (regret_sum c) PARALLEL_CRITICAL 0%Q = dict_get (regret_sum c) SEQUENTIAL_SEVERITY 0%Q /\
  forall s, (dict_get (regret_sum c) s 0 <= dict_get (regret_sum c) PARALLEL_CRITICAL 0)%Q.

Definition sum_top (c : CFRRegretMinimizer) : Prop :=
  dict_get (strategy_sum c) PARALLEL_CRITICAL 0%Q = dict_get (strategy_sum c) SEQUENTIAL_SEVERITY 0%Q /\
  forall s, (dict_get (strategy_sum c) s 0 <= dict_get (strategy_sum c) PARALLEL_CRITICAL 0)%Q.

(** ** Observations on compiled command lists *)

(** Rooms of the TREAT commands for patient [i], in list order. *)
Definition treat_rooms (i : Z) (cmds : list command) : list string :=
  map target (filter (fun c => bool_decide (caction c = TREAT) && Z.eqb (patient_id c) i) cmds).

(** Whether [compile_room] gives the nurse, resp. the doctor, the
    ESCORT/TREAT pair of [room] for patient [p]. *)
Definition nurse_treats (strat : strategy) (p : Patient) (room : string) : bool :=
  match strat with
  | DOCTOR_CRITICAL_NURSE_OTHERS => negb (bool_decide (ptype p = Critical))
  | NURSE_TRIAGE_DOCTOR_TREAT => bool_decide (room = "TRIAGE")
  | _ => true
  end.

Definition doctor_treats (strat : strategy) (p : Patient) (room : string) : bool :=
  match strat with
  | DOCTOR_CRITICAL_NURSE_OTHERS => bool_decide (ptype p = Critical)
  | NURSE_TRIAGE_DOCTOR_TREAT => negb (bool_decide (room = "TRIAGE"))
  | PARALLEL_CRITICAL => bool_decide (ptype p = Critical)
  | COOPERATIVE_ALL => true
  | _ => bool_decide (ptype p = Critical) && bool_decide (room ∈ ["TB"; "ICU"])
  end.

(* ================================================================= *)
(** ** Unity connection: the analyzer's roster operations *)

(** [DynamicRegretAnalyzer()] (also the [/reset] endpoint of the server). *)
Definition analyzer_init : DynamicRegretAnalyzer :=
  {| cfr := cfr_init; patient_counter := 0; current_state := None |}.

(** [DynamicRegretAnalyzer.reset()]: the learner is kept. *)
Definition reset (a : DynamicRegretAnalyzer) : DynamicRegretAnalyzer :=
  {| cfr := cfr a; patient_counter := 0; current_state := None |}.

(** [state.patients = ps] *)
Definition set_patients (st : GameState) (ps : list Patient) : GameState :=
  {| patients := ps; nurse_pos := nurse_pos st; doctor_pos := doctor_pos st;
     nurse_busy_until := nurse_busy_until st; doctor_busy_until := doctor_busy_until st;
     current_time := current_time st; total_reward := total_reward st;
     total_penalty := total_penalty st; completed_patients := completed_patients st |}.

Definition set_current_state (a : DynamicRegretAnalyzer) (st : GameState)
    : DynamicRegretAnalyzer :=
  {| cfr := cfr a; patient_counter := patient_counter a; current_state := Some st |}.

(** [DynamicRegretAnalyzer.step_patient(patient_id)] (nothing in its
    body raises, so the [except] branch is dead). *)
Definition step_patient (patient_id : Z) (a : DynamicRegretAnalyzer)
    : bool * DynamicRegretAnalyzer :=
  match current_state a with
  | None => (false, a)
  | Some st =>
      let '(ps, b) := step_patient_roster patient_id (patients st) in
      (b, set_current_state a (set_patients st ps))
  end.

(** [DynamicRegretAnalyzer.remove_patient(patient_id)] *)
Definition remove_patient (patient_id : Z) (a : DynamicRegretAnalyzer)
    : DynamicRegretAnalyzer :=
  match current_state a with
  | None => a
  | Some st => set_current_state a (set_patients st (remove_patient_roster patient_id (patients st)))
  end.

(** The [/complete_step] endpoint for a given [patient_id]: the reported
    [patient_complete] and the analyzer afterwards. *)
Definition complete_step (patient_id : Z) (a : DynamicRegretAnalyzer)
    : bool * DynamicRegretAnalyzer :=
  let '(is_complete, a1) := step_patient patient_id a in
  if is_complete then (true, remove_patient patient_id a1) else (false, a1).

(** The spawning loop of the [/process_scenario] endpoint:
    [analyzer.spawn_patient(pinfo['type'])] for each parsed patient. *)
Fixpoint spawn_patients (ts : list patient_type) (a : DynamicRegretAnalyzer)
    : list Patient * DynamicRegretAnalyzer :=
  match ts with
  | [] => ([], a)
  | t :: ts' =>
      let '(p, a1) := spawn_patient t a in
      let '(ps, a2) := spawn_patients ts' a1 in
      (p :: ps, a2)
  end.

(** [Patient.__post_init__] *)
Definition post_init (p : Patient) : Patient :=
  {| pid := pid p; ptype := ptype p; health := health p; pathway := pathway p;
     current_step := current_step p; arrival_time := arrival_time p;
     waiting_time := waiting_time p; being_treated_by := being_treated_by p;
     deadline := if Qeq_bool (deadline p) 0
                 then match ptype p with Critical => 25 | Moderate => 45 | Minor => 30 end
                 else deadline p;
     doctor_required := if doctor_required p then true else bool_decide (ptype p = Critical) |}.

(** [GameSimulator.create_scenario(patient_types)] *)
Definition create_scenario (patient_types : list patient_type) : GameState :=
  set_patients empty_game_state
    (imap (fun i t =>
             post_init {| pid := (Z.of_nat i + 1)%Z; ptype := t; health := INITIAL_HEALTH t;
                          pathway := PATHWAYS t; current_step := 0; arrival_time := 0;
                          waiting_time := 0; being_treated_by := []; deadline := 0;
                          doctor_required := false |})
          patient_types).

(** One entry of [get_queue_status()['patients']]. *)
Record queue_entry := {
  q_id : Z;
  q_type : patient_type;
  q_health : Q;
  q_next_room : option string;
  q_urgency : Q;
  q_current_step : Z;
  q_pathway_length : Z;
  q_steps_remaining : Z }.

Record queue_status := {
  queue_size : Z;
  queue_patients : list queue_entry }.

Definition queue_entry_of (p : Patient) : exn + queue_entry :=
  match next_room p with
  | inl e => inl e
  | inr r =>
      inr {| q_id := pid p; q_type := ptype p; q_health := health p; q_next_room := r;
             q_urgency := urgency p; q_current_step := current_step p;
             q_pathway_length := Z.of_nat (length (pathway p));
             q_steps_remaining := (Z.of_nat (length (pathway p)) - current_step p)%Z |}
  end.

(** The list comprehension, stopping at the first exception. *)
Fixpoint queue_entries (ps : list Patient) : exn + list queue_entry :=
  match ps with
  | [] => inr []
  | p :: ps' =>
      match queue_entry_of p with
      | inl e => inl e
      | inr q => match queue_entries ps' with inl e => inl e | inr qs => inr (q :: qs) end
      end
  end.

(** [DynamicRegretAnalyzer.get_queue_status()] *)
Definition get_queue_status (a : DynamicRegretAnalyzer) : exn + queue_status :=
  match current_state a with
  | None => inr {| queue_size := 0; queue_patients := [] |}
  | Some st =>
      match queue_entries (patients st) with
      | inl e => inl e
      | inr qs => inr {| queue_size := Z.of_nat (length (patients st)); queue_patients := qs |}
      end
  end.

(** Analyzers the server can reach: a fresh one, then any sequence of
    spawns, steps, removals, resets and planning calls (whatever the
    random draws and simulated values). *)
Inductive analyzer_reachable : DynamicRegretAnalyzer -> Prop :=
| ar_init : analyzer_reachable analyzer_init
| ar_spawn t a : analyzer_reachable a -> analyzer_reachable (snd (spawn_patient t a))
| ar_step i a : analyzer_reachable a -> analyzer_reachable (snd (step_patient i a))
| ar_remove i a : analyzer_reachable a -> analyzer_reachable (remove_patient i a)
| ar_reset a : analyzer_reachable a -> analyzer_reachable (reset a)
| ar_plan sqrt (Rng : Type) normal choice simulation_value a (rng : Rng) r a' rng' :
    analyzer_reachable a ->
    analyze_and_plan sqrt Rng normal choice simulation_value a rng = Some (r, a', rng') ->
    analyzer_reachable a'.

(* ================================================================= *)
(** ** Room layout updates ([set_rooms]) *)



(* ================================================================= *)
(** ** Rule-based patient parser ([app.parse_patients_rules]) *)

(** [needle in haystack] on strings. *)
Fixpoint str_prefix (p s : string) : bool :=
  match p, s with
  | EmptyString, _ => true
  | String c p', String d s' => bool_decide (c = d) && str_prefix p' s'
  | String _ _, EmptyString => false
  end.

Fixpoint str_contains (needle s : string) : bool :=
  str_prefix needle s ||
  match s with EmptyString => false | String _ s' => str_contains needle s' end.

Definition critical_keywords : list string :=
  ["chest pain"; "stroke"; "unconscious"; "severe"; "critical"; "heart"; "emergency"; "dying"].
Definition moderate_keywords : list string :=
  ["fracture"; "broken"; "infection"; "test"; "blood"; "xray"; "breathing"; "moderate"].
Definition minor_keywords : list string :=
  ["cut"; "bruise"; "fever"; "cold"; "minor"; "small"; "mild"].

Section RuleParser.
(** [str.lower] *)
Variable lower : string -> string.

(** The patient count read from the description. *)
Definition rules_count (desc_lower : string) : nat :=
  if str_contains "two" desc_lower || str_contains "2" desc_lower then 2
  else if str_contains "three" desc_lower || str_contains "3" desc_lower then 3
  else if str_contains "four" desc_lower || str_contains "4" desc_lower then 4
  else 1.

Definition has_keyword (kws : list string) (desc_lower : string) : bool :=
  existsb (fun kw => str_contains kw desc_lower) kws.

(** [parse_patients_rules(description)]: a list of (type, description). *)
Definition parse_patients_rules (description : string) : list (patient_type * string) :=
  let desc_lower := lower description in
  let count := rules_count desc_lower in
  let has_critical := has_keyword critical_keywords desc_lower in
  let has_moderate := has_keyword moderate_keywords desc_lower in
  let has_minor := has_keyword minor_keywords desc_lower in
  if Nat.eqb count 1 then
    if has_critical then [(Critical, "critical condition")]
    else if has_moderate then [(Moderate, "moderate condition")]
    else [(Minor, "minor condition")]
  else
    let '(ps, count) :=
      if has_critical then ([(Critical, "critical condition")], count - 1)
      else ([], count) in
    let '(ps, count) :=
      if has_moderate && Nat.ltb 0 count
      then (ps ++ [(Moderate, "moderate condition")], count - 1) else (ps, count) in
    let '(ps, count) :=
      if has_minor && Nat.ltb 0 count
      then (ps ++ [(Minor, "minor condition")], count - 1) else (ps, count) in
    ps ++ repeat (Minor, "unspecified condition") count.
End RuleParser.

(** Severity rank of a patient type. *)
Definition severity_rank (t : patient_type) : nat :=
  match t with Critical => 0 | Moderate => 1 | Minor => 2 end.

(** Commands that name a roster patient and a room of its pathway. *)
Definition names_roster_room (ps : list Patient) (c : command) : Prop :=
  exists p, In p ps /\ patient_id c = pid p /\ In (target c) (pathway p).

(* ================================================================= *)
(* ================================================================= *)
(** * Proofs *)

From Stdlib Require Import Lqa Sorted.

(** ** Generic lemmas: Python helpers and dictionaries *)

Lemma Qltb_spec x y : Qltb x y = true <-> (x < y)%Q.
Proof.
  unfold Qltb. rewrite negb_true_iff. split.
  - intros H. apply Qnot_le_lt. intros H'. apply Qle_bool_iff in H'. congruence.
  - intros H. destruct (Qle_bool y x) eqn:E; [|reflexivity].
    apply Qle_bool_iff in E. exfalso. apply (Qlt_not_le _ _ H E).
Qed.

Lemma Qltb_false x y : Qltb x y = false <-> (y <= x)%Q.
Proof.
  unfold Qltb. rewrite negb_false_iff. apply Qle_bool_iff.
Qed.

Lemma py_max2_ge_l a b : (a <= py_max2 a b)%Q.
Proof.
  unfold py_max2. destruct (Qltb a b) eqn:E.
  - apply Qltb_spec in E. lra.
  - lra.
Qed.

Lemma py_max2_0_nonpos r : (r <= 0)%Q -> py_max2 0 r = 0%Q.
Proof.
  intros H. unfold py_max2. destruct (Qltb 0 r) eqn:E; [|reflexivity].
  apply Qltb_spec in E. lra.
Qed.

Lemma sum_list_acc xs a : (fold_left Qplus xs a == a + sum_list xs)%Q.
Proof.
  unfold sum_list. revert a. induction xs as [|x xs IH]; intros a; simpl.
  - lra.
  - rewrite (IH (a + x)%Q), (IH (0 + x)%Q). lra.
Qed.

Lemma sum_list_cons x xs : (sum_list (x :: xs) == x + sum_list xs)%Q.
Proof. unfold sum_list at 1. simpl. rewrite sum_list_acc. lra. Qed.

Lemma sum_list_app xs ys : (sum_list (xs ++ ys) == sum_list xs + sum_list ys)%Q.
Proof.
  induction xs as [|x xs IH]; simpl.
  - unfold sum_list at 2. simpl. lra.
  - rewrite !sum_list_cons, IH. lra.
Qed.

(** Python's [max(..., key=f)] returns a maximal element, and the first
    one among equals. *)
Lemma py_max_by_spec {A} (f : A -> Q) (x : A) (xs : list A) :
  exists pre post, x :: xs = pre ++ py_max_by f x xs :: post /\
    (forall y, In y pre -> (f y < f (py_max_by f x xs))%Q) /\
    (forall y, In y post -> (f y <= f (py_max_by f x xs))%Q).
Proof.
  unfold py_max_by.
  assert (Hgen : forall seen best,
    (exists pre post, seen = pre ++ best :: post /\
       (forall y, In y pre -> (f y < f best)%Q) /\ (forall y, In y post -> (f y <= f best)%Q)) ->
    exists pre post,
      seen ++ xs = pre ++ fold_left (fun b y => if Qltb (f b) (f y) then y else b) xs best :: post /\
      (forall y, In y pre -> (f y < f (fold_left (fun b y => if Qltb (f b) (f y) then y else b) xs best))%Q) /\
      (forall y, In y post -> (f y <= f (fold_left (fun b y => if Qltb (f b) (f y) then y else b) xs best))%Q)).
  { induction xs as [|z zs IH]; intros seen best (pre & post & Hs & Hpre & Hpost).
    - exists pre, post. rewrite app_nil_r. auto.
    - simpl. replace (seen ++ z :: zs) with ((seen ++ [z]) ++ zs)
        by (rewrite <- app_assoc; reflexivity).
      apply IH. destruct (Qltb (f best) (f z)) eqn:E.
      + apply Qltb_spec in E. exists seen, [].
        split; [reflexivity|]. split; [|intros y []].
        intros y Hy. rewrite Hs in Hy. apply in_app_or in Hy as [Hy|[<-|Hy]].
        * specialize (Hpre y Hy). lra.
        * exact E.
        * specialize (Hpost y Hy). lra.
      + apply Qltb_false in E. exists pre, (post ++ [z]).
        split; [rewrite Hs, <- app_assoc; reflexivity|]. split; [exact Hpre|].
        intros y Hy. apply in_app_or in Hy as [Hy|[<-|[]]]; auto. }
  apply (Hgen [x] x). exists [], []. simpl. split; [reflexivity|].
  split; intros y [].
Qed.

Lemma py_max_list_spec x xs :
  In (py_max_list x xs) (x :: xs) /\ forall y, In y (x :: xs) -> (y <= py_max_list x xs)%Q.
Proof.
  destruct (py_max_by_spec (fun q => q) x xs) as (pre & post & Heq & Hpre & Hpost).
  unfold py_max_list. split.
  - rewrite Heq. apply in_or_app. right. left. reflexivity.
  - intros y Hy. rewrite Heq in Hy. apply in_app_or in Hy as [Hy|[<-|Hy]].
    + specialize (Hpre y Hy). simpl in Hpre. lra.
    + lra.
    + exact (Hpost y Hy).
Qed.

Section DictLemmas.
Context {K V : Type} `{EqDecision K}.

Lemma dict_lookup_set_eq (d : dict K V) k v : dict_lookup (dict_set d k v) k = Some v.
Proof.
  induction d as [|[k' v'] d IH]; simpl.
  - destruct (decide (k = k)); congruence.
  - destruct (decide (k = k')) as [->|Hne]; simpl.
    + destruct (decide (k' = k')); congruence.
    + destruct (decide (k = k')); [congruence|exact IH].
Qed.

Lemma dict_lookup_set_ne (d : dict K V) k k' v :
  k' <> k -> dict_lookup (dict_set d k v) k' = dict_lookup d k'.
Proof.
  intros Hne. induction d as [|[k1 v1] d IH]; simpl.
  - destruct (decide (k' = k)); congruence.
  - destruct (decide (k = k1)) as [->|Hne1]; simpl.
    + destruct (decide (k' = k1)); congruence.
    + destruct (decide (k' = k1)); [reflexivity|exact IH].
Qed.


Lemma dict_lookup_in (d : dict K V) k v :
  NoDup (keys d) -> In (k, v) d -> dict_lookup d k = Some v.
Proof.
  induction d as [|[k1 v1] d IH]; simpl; intros Hnd Hin; [destruct Hin|].
  inversion Hnd as [|? ? Hn1 Hnd']; subst.
  destruct Hin as [Heq|Hin].
  - inversion Heq; subst. destruct (decide (k = k)); congruence.
  - destruct (decide (k = k1)) as [->|]; [|auto].
    exfalso. apply Hn1. apply list_elem_of_In. apply (in_map fst) in Hin. exact Hin.
Qed.

Lemma dict_set_notin (d : dict K V) k v : ~ In k (keys d) -> dict_set d k v = d ++ [(k, v)].
Proof.
  induction d as [|[k1 v1] d IH]; simpl; intros Hn; [reflexivity|].
  destruct (decide (k = k1)); [subst; tauto|]. rewrite IH; [reflexivity|tauto].
Qed.

Lemma keys_app (d1 d2 : dict K V) : keys (d1 ++ d2) = keys d1 ++ keys d2.
Proof. unfold keys. apply map_app. Qed.

Lemma values_app (d1 d2 : dict K V) : values (d1 ++ d2) = values d1 ++ values d2.
Proof. unfold values. apply map_app. Qed.
End DictLemmas.

Lemma dd_getitem_get {K} `{EqDecision K} (d : dict K Q) k s :
  fst (dd_getitem d k) = dict_get d k 0%Q /\
  dict_get (snd (dd_getitem d k)) s 0%Q = dict_get d s 0%Q.
Proof.
  unfold dd_getitem, dict_get. destruct (dict_lookup d k) eqn:E; simpl; [auto|].
  split; [reflexivity|].
  induction d as [|[k1 v1] d IH]; simpl in *.
  - destruct (decide (s = k)); reflexivity.
  - destruct (decide (k = k1)); [discriminate|].
    destruct (decide (s = k1)); [reflexivity|]. exact (IH E).
Qed.

(** The dictionary of positive regrets built by [get_strategy_probabilities]. *)
Lemma positive_regrets_fold strategies pr rs :
  NoDup strategies -> (forall s, In s strategies -> ~ In s (keys pr)) ->
  fst (fold_left positive_regrets_step strategies (pr, rs)) =
    pr ++ map (fun s => (s, py_max2 0 (dict_get rs s 0%Q))) strategies /\
  (forall s, dict_get (snd (fold_left positive_regrets_step strategies (pr, rs))) s 0%Q =
             dict_get rs s 0%Q).
Proof.
  revert pr rs. induction strategies as [|s0 ss IH]; intros pr rs Hnd Hdis; simpl.
  - rewrite app_nil_r. auto.
  - inversion Hnd as [|? ? Hn0 Hnd']; subst.
    destruct (dd_getitem_get rs s0 s0) as [Hf _].
    destruct (dd_getitem rs s0) as [r rs'] eqn:E. simpl in Hf. subst r.
    rewrite dict_set_notin by (apply Hdis; left; reflexivity).
    destruct (IH (pr ++ [(s0, py_max2 0 (dict_get rs s0 0%Q))]) rs') as [IH1 IH2]; [exact Hnd'| |].
    { intros s Hs Hin. rewrite keys_app in Hin. apply in_app_or in Hin as [Hin|[Heq|[]]].
      - apply (Hdis s); [right; exact Hs|exact Hin].
      - simpl in Heq. subst. apply Hn0. apply list_elem_of_In. exact Hs. }
    split.
    + rewrite IH1. rewrite <- app_assoc. simpl.
      f_equal. f_equal. apply map_ext_in. intros s Hs.
      pose proof (dd_getitem_get rs s0 s) as [_ H2]. rewrite E in H2. simpl in H2.
      rewrite H2. reflexivity.
    + intros s. rewrite IH2.
      pose proof (dd_getitem_get rs s0 s) as [_ H2]. rewrite E in H2. exact H2.
Qed.

(** [get_strategy_probabilities] only adds missing regret keys (with
    value 0) and computes the regret-matching policy. *)
Lemma get_strategy_probabilities_eq strategies c :
  NoDup strategies ->
  exists rs,
    (forall s, dict_get rs s 0%Q = dict_get (regret_sum c) s 0%Q) /\
    let pos := map (fun s => (s, py_max2 0 (dict_get (regret_sum c) s 0%Q))) strategies in
    let total := sum_list (values pos) in
    get_strategy_probabilities strategies c =
      (if Qltb 0 total then map (fun '(s, r) => (s, r / total)%Q) pos
       else dict_of_keys (fun _ => 1 / inject_Z (Z.of_nat (length strategies)))%Q strategies,
       set_regret_sum c rs).
Proof.
  intros Hnd. unfold get_strategy_probabilities.
  destruct (fold_left positive_regrets_step strategies (([] : dict strategy Q), regret_sum c))
    as [pr rs] eqn:E.
  destruct (positive_regrets_fold strategies [] (regret_sum c) Hnd) as [H1 H2];
    [intros s _ []|].
  rewrite E in H1, H2. simpl in H1, H2. rewrite H1. exists rs. split; [exact H2|].
  simpl. destruct (Qltb _ _); reflexivity.
Qed.

Lemma NoDup_STRATEGY_NAMES : NoDup STRATEGY_NAMES.
Proof. apply (bool_decide_unpack _). reflexivity. Qed.

Lemma keys_STRATEGY_NAMES_shape (d : dict strategy Q) :
  keys d = STRATEGY_NAMES ->
  exists a1 a2 a3 a4 a5 a6,
    d = [(PARALLEL_CRITICAL, a1); (SEQUENTIAL_SEVERITY, a2);
         (DOCTOR_CRITICAL_NURSE_OTHERS, a3); (COOPERATIVE_ALL, a4);
         (NEAREST_FIRST, a5); (NURSE_TRIAGE_DOCTOR_TREAT, a6)].
Proof.
  intros H.
  destruct d as [|[k1 a1] d]; [discriminate|]; injection H as -> H.
  destruct d as [|[k2 a2] d]; [discriminate|]; injection H as -> H.
  destruct d as [|[k3 a3] d]; [discriminate|]; injection H as -> H.
  destruct d as [|[k4 a4] d]; [discriminate|]; injection H as -> H.
  destruct d as [|[k5 a5] d]; [discriminate|]; injection H as -> H.
  destruct d as [|[k6 a6] d]; [discriminate|]; injection H as -> H.
  destruct d; [|discriminate]. eauto 7.
Qed.

Lemma values_map_div (pos : dict strategy Q) t :
  values (map (fun '(s, r) => (s, r / t)%Q) pos) = map (fun r => r / t)%Q (values pos).
Proof. induction pos as [|[s r] pos IH]; simpl; [reflexivity|]. f_equal. exact IH. Qed.

Lemma keys_map_div (pos : dict strategy Q) t :
  keys (map (fun '(s, r) => (s, r / t)%Q) pos) = keys pos.
Proof. induction pos as [|[s r] pos IH]; simpl; [reflexivity|]. f_equal. exact IH. Qed.

Lemma sum_list_map_div xs t : (sum_list (map (fun r => r / t) xs) == sum_list xs / t)%Q.
Proof.
  induction xs as [|x xs IH]; simpl.
  - unfold sum_list. simpl. unfold Qdiv. ring.
  - rewrite !sum_list_cons, IH. unfold Qdiv. ring.
Qed.

Lemma uniform_catalog :
  dict_of_keys (fun _ => 1 / inject_Z (Z.of_nat (length STRATEGY_NAMES)))%Q STRATEGY_NAMES =
  map (fun s => (s, 1 # 6)) STRATEGY_NAMES.
Proof. reflexivity. Qed.

(** Regret matching over the full catalog: [currentPolicy()]. *)
Lemma current_policy_catalog c :
  let probs := fst (get_strategy_probabilities STRATEGY_NAMES c) in
  keys probs = STRATEGY_NAMES /\
  (forall p, In p (values probs) -> (0 <= p)%Q) /\
  (sum_list (values probs) == 1)%Q /\
  ((forall s, (dict_get (regret_sum c) s 0 <= 0)%Q) ->
   probs = map (fun s => (s, 1 # 6)) STRATEGY_NAMES).
Proof.
  destruct (get_strategy_probabilities_eq STRATEGY_NAMES c NoDup_STRATEGY_NAMES)
    as (rs & _ & Heq).
  cbv zeta in Heq. cbv zeta.
  set (pos := map (fun s => (s, py_max2 0 (dict_get (regret_sum c) s 0%Q))) STRATEGY_NAMES) in Heq.
  rewrite Heq. cbn [fst].
  assert (Hpos : forall r, In r (values pos) -> (0 <= r)%Q).
  { intros r Hr. unfold pos, values in Hr. rewrite map_map in Hr.
    apply in_map_iff in Hr as (s & <- & _). apply py_max2_ge_l. }
  assert (Hkeys : keys pos = STRATEGY_NAMES).
  { unfold pos, keys. rewrite map_map. apply map_id. }
  destruct (Qltb 0 (sum_list (values pos))) eqn:Ht.
  - apply Qltb_spec in Ht. split; [|split; [|split]].
    + rewrite keys_map_div. exact Hkeys.
    + intros p Hp. rewrite values_map_div in Hp. apply in_map_iff in Hp as (r & <- & Hr).
      specialize (Hpos r Hr). apply Qle_shift_div_l; [exact Ht|]. lra.
    + rewrite values_map_div, sum_list_map_div. unfold Qdiv. apply Qmult_inv_r. lra.
    + intros Hneg. exfalso.
      assert (Hz : pos = map (fun s => (s, 0%Q)) STRATEGY_NAMES).
      { unfold pos. apply map_ext. intros s. rewrite py_max2_0_nonpos; [reflexivity|apply Hneg]. }
      rewrite Hz in Ht. vm_compute in Ht. discriminate Ht.
  - rewrite uniform_catalog. split; [|split; [|split]].
    + reflexivity.
    + intros p Hp. simpl in Hp. repeat destruct Hp as [<-|Hp]; try discriminate; try (compute; discriminate).
      destruct Hp.
    + reflexivity.
    + intros _. reflexivity.
Qed.

Lemma positive_regrets_fold_regrets strategies pr rs s :
  dict_get (snd (fold_left positive_regrets_step strategies (pr, rs))) s 0%Q = dict_get rs s 0%Q.
Proof.
  revert pr rs. induction strategies as [|s0 ss IH]; intros pr rs; simpl; [reflexivity|].
  pose proof (dd_getitem_get rs s0 s) as [_ H2].
  destruct (dd_getitem rs s0) as [r rs'] eqn:E. rewrite IH. exact H2.
Qed.

(** [get_strategy_probabilities] changes no field but [regret_sum], and
    there only adds keys with value 0. *)
Lemma get_strategy_probabilities_snd strategies c :
  exists rs, snd (get_strategy_probabilities strategies c) = set_regret_sum c rs /\
             forall s, dict_get rs s 0%Q = dict_get (regret_sum c) s 0%Q.
Proof.
  unfold get_strategy_probabilities.
  pose proof (positive_regrets_fold_regrets strategies [] (regret_sum c)) as H.
  destruct (fold_left positive_regrets_step strategies (([] : dict strategy Q), regret_sum c))
    as [pr rs].
  exists rs. split; [destruct (Qltb _ _); reflexivity|exact H].
Qed.

Lemma track_distance_frame sqrt strategies c :
  strategy_sum (track_distance sqrt strategies c) = strategy_sum c /\
  iteration_history (track_distance sqrt strategies c) = iteration_history c /\
  regret_history (track_distance sqrt strategies c) = regret_history c /\
  cumulative_regret (track_distance sqrt strategies c) = cumulative_regret c /\
  total_iterations (track_distance sqrt strategies c) = total_iterations c /\
  (forall s, dict_get (regret_sum (track_distance sqrt strategies c)) s 0%Q =
             dict_get (regret_sum c) s 0%Q).
Proof.
  unfold track_distance. destruct strategies as [|s0 ss]; [simpl; auto 7|].
  destruct (get_strategy_probabilities_snd (s0 :: ss) c) as (rs & Hrs & Hget).
  destruct (get_strategy_probabilities (s0 :: ss) c) as [probs c1] eqn:E.
  simpl in Hrs. subst c1. simpl. auto 7.
Qed.

Lemma dd_add_get_eq (d : dict strategy Q) k x :
  dict_get (dd_add d k x) k 0%Q = (dict_get d k 0 + x)%Q.
Proof. unfold dd_add, dict_get at 1. rewrite dict_lookup_set_eq. reflexivity. Qed.

Lemma dd_add_get_ne (d : dict strategy Q) k k' x :
  k' <> k -> dict_get (dd_add d k x) k' 0%Q = dict_get d k' 0%Q.
Proof. intros Hne. unfold dd_add, dict_get. rewrite dict_lookup_set_ne by exact Hne. reflexivity. Qed.

Lemma regret_update_fold V (vals : dict strategy Q) rs svs rs' svs' :
  NoDup (keys vals) ->
  fold_left (regret_update_step V) vals (rs, svs) = (rs', svs') ->
  (forall s v, In (s, v) vals -> dict_get rs' s 0%Q = (dict_get rs s 0 + (v - V))%Q) /\
  (forall s, ~ In s (keys vals) -> dict_get rs' s 0%Q = dict_get rs s 0%Q).
Proof.
  revert rs svs. induction vals as [|[s0 v0] rest IH]; intros rs svs Hnd Hf; simpl in Hf.
  - injection Hf as <- <-. split; [intros s v []|reflexivity].
  - inversion Hnd as [|? ? Hn0 Hnd']; subst.
    assert (Hn0' : ~ In s0 (keys rest)) by (rewrite <- list_elem_of_In; exact Hn0).
    destruct (IH _ _ Hnd' Hf) as [IH1 IH2]. split.
    + intros s v [Heq|Hin].
      * injection Heq as <- <-. rewrite IH2 by exact Hn0'. apply dd_add_get_eq.
      * rewrite (IH1 s v Hin). rewrite dd_add_get_ne; [reflexivity|].
        intros ->. apply Hn0'. apply (in_map fst) in Hin. exact Hin.
    + intros s Hs. rewrite IH2.
      * apply dd_add_get_ne. intros ->. apply Hs. left. reflexivity.
      * intros Hin. apply Hs. right. exact Hin.
Qed.

(** ** Claim C3: the regret update *)

(** C3: for a non-empty value map (a Python dict: distinct keys),
    [update_regrets] adds [values[s] - V] to [regret[s]] for every
    strategy [s] of the map, where [V] is the expected value of the map
    under the current regret-matching policy over the map's strategies;
    it adds [max(values) - V] to the cumulative regret and appends the
    new total to the regret history, and it increments the iteration
    counter by exactly one.  For an empty map it returns the learner
    unchanged. *)
Theorem update_regrets_effect sqrt (vals : dict strategy Q) (selected : strategy)
    (c : CFRRegretMinimizer) :
  NoDup (keys vals) ->
  let V := sum_list (map (fun s => dict_get (fst (get_strategy_probabilities (keys vals) c)) s 0
                                   * dict_get vals s 0)%Q (keys vals)) in
  let c' := update_regrets sqrt vals selected c in
  (vals = [] -> c' = c) /\
  (vals <> [] ->
   (forall s v, In (s, v) vals ->
      dict_get (regret_sum c') s 0%Q = (dict_get (regret_sum c) s 0 + (v - V))%Q) /\
   (exists best, In best (values vals) /\ (forall v, In v (values vals) -> (v <= best)%Q) /\
      cumulative_regret c' = (cumulative_regret c + (best - V))%Q) /\
   regret_history c' = regret_history c ++ [cumulative_regret c'] /\
   total_iterations c' = (total_iterations c + 1)%Z).
Proof.
  intros Hnd V c'. subst c'.
  destruct vals as [|[s0 v0] rest]; [split; [reflexivity|congruence]|].
  split; [discriminate|intros _].
  unfold update_regrets. cbv zeta.
  unfold V; clear V.
  destruct (get_strategy_probabilities _ c) as [probs c1] eqn:G.
  destruct (get_strategy_probabilities_snd (keys ((s0, v0) :: rest)) c) as (rs1 & Hc1 & Hg1).
  rewrite G in Hc1. simpl in Hc1. subst c1. simpl fst.
  set (nv := sum_list (map (fun s => dict_get probs s 0 * dict_get ((s0, v0) :: rest) s 0)%Q
                           (keys ((s0, v0) :: rest)))).
  destruct (fold_left (regret_update_step nv) ((s0, v0) :: rest)
              (regret_sum (set_regret_sum c rs1), strategy_values (set_regret_sum c rs1)))
    as [rs svs] eqn:F.
  destruct (regret_update_fold nv _ _ _ _ _ Hnd F) as [HF _].
  match goal with
  | |- context [track_distance sqrt ?l ?c2] =>
      destruct (track_distance_frame sqrt l c2) as (_ & _ & Hrh & Hcum & Hti & Hget)
  end.
  cbn [regret_sum regret_history cumulative_regret total_iterations].
  rewrite Hrh, Hcum, Hti. simpl. split; [|split; [|split]].
  - intros s v Hin. rewrite Hget. simpl. rewrite (HF s v Hin). simpl. rewrite Hg1. reflexivity.
  - destruct (py_max_list_spec v0 (values rest)) as [Hin Hmax].
    exists (py_max_list v0 (values rest)). split; [exact Hin|]. split; [exact Hmax|].
    reflexivity.
  - reflexivity.
  - reflexivity.
Qed.

(** C3 witness: two strategies, fresh learner. *)
Lemma update_regrets_effect_witness :
  NoDup (keys [(PARALLEL_CRITICAL, 4%Q); (COOPERATIVE_ALL, 2%Q)]) /\
  total_iterations
    (update_regrets (fun q => q) [(PARALLEL_CRITICAL, 4%Q); (COOPERATIVE_ALL, 2%Q)]
                    PARALLEL_CRITICAL cfr_init) = 1%Z.
Proof.
  split; [apply (bool_decide_unpack _); reflexivity|].
  destruct (update_regrets_effect (fun q => q) [(PARALLEL_CRITICAL, 4%Q); (COOPERATIVE_ALL, 2%Q)]
              PARALLEL_CRITICAL cfr_init) as [_ H];
    [apply (bool_decide_unpack _); reflexivity|].
  destruct H as (_ & _ & _ & H); [discriminate|]. exact H.
Defined.

(** ** Claim C9: the idle plan *)

(** C9: when there is no scenario, or its roster is empty,
    [analyze_and_plan] returns the IDLE assignment with empty nurse and
    doctor plans and expected reward 0, and leaves the analyzer, its
    learner included, exactly as it was (and draws no random number). *)
Theorem analyze_and_plan_idle sqrt Rng normal choice simulation_value
    (a : DynamicRegretAnalyzer) (rng : Rng) :
  (current_state a = None \/
   exists st, current_state a = Some st /\ patients st = []) ->
  exists r,
    analyze_and_plan sqrt Rng normal choice simulation_value a rng = Some (r, a, rng) /\
    success r = true /\ assignment_strategy r = IDLE /\
    nurse_plan r = [] /\ doctor_plan r = [] /\ expected_reward r = 0%Q /\
    learning_stats r = get_statistics (cfr a).
Proof.
  intros Hidle. exists (idle_result (cfr a)).
  unfold analyze_and_plan.
  destruct Hidle as [H | (st & H & Hp)]; rewrite H; [|rewrite Hp];
    repeat split; reflexivity.
Qed.

(** C9 witness: the fresh analyzer with no scenario. *)
Lemma analyze_and_plan_idle_witness :
  exists r,
    analyze_and_plan (fun q => q) unit (fun _ _ u => (0%Q, u)) (fun _ _ u => (PARALLEL_CRITICAL, u))
      (fun _ _ => 0%Q)
      {| cfr := cfr_init; patient_counter := 0; current_state := None |} tt =
      Some (r, {| cfr := cfr_init; patient_counter := 0; current_state := None |}, tt) /\
    success r = true /\ assignment_strategy r = IDLE /\
    nurse_plan r = [] /\ doctor_plan r = [] /\ expected_reward r = 0%Q /\
    learning_stats r = get_statistics cfr_init.
Proof.
  apply (analyze_and_plan_idle (fun q => q) unit (fun _ _ u => (0%Q, u))
           (fun _ _ u => (PARALLEL_CRITICAL, u)) (fun _ _ => 0%Q)
           {| cfr := cfr_init; patient_counter := 0; current_state := None |} tt).
  left. reflexivity.
Defined.

(** ** Claim C6: equal-length action sequences *)

Lemma fold_equal_length {A} (f : list action * list action -> A -> list action * list action) :
  (forall acc x, length (fst acc) = length (snd acc) ->
                 length (fst (f acc x)) = length (snd (f acc x))) ->
  forall l acc, length (fst acc) = length (snd acc) ->
  length (fst (fold_left f l acc)) = length (snd (fold_left f l acc)).
Proof.
  intros Hf l. induction l as [|x l IH]; intros acc Hacc; simpl; [exact Hacc|].
  apply IH, Hf, Hacc.
Qed.

Lemma pad_waits_length na da :
  length (fst (pad_waits na da)) = length (snd (pad_waits na da)).
Proof. unfold pad_waits, waits. simpl. rewrite !length_app, !repeat_length. lia. Qed.

(** C6: for every game state and every catalog strategy, the nurse and
    doctor action sequences produced by [generate_action_sequences] have
    the same length. *)
Theorem generate_action_sequences_equal_length (state : GameState) (s : strategy) :
  length (fst (generate_action_sequences state s)) =
  length (snd (generate_action_sequences state s)).
Proof.
  destruct s; unfold generate_action_sequences; simpl.
  all: first
    [ apply fold_equal_length; [|reflexivity];
      intros [na da] p Hl; simpl in Hl;
      repeat (case_decide || simpl); unfold waits;
      rewrite ?length_app, ?repeat_length; lia
    | destruct (fold_left _ _ _) as [[? ?] ?]; apply pad_waits_length
    | destruct (fold_left _ _ _); apply pad_waits_length ].
Qed.

(** ** The probability accumulator of reachable learners *)

Lemma update_regrets_frame sqrt vals selected c :
  strategy_sum (update_regrets sqrt vals selected c) = strategy_sum c /\
  iteration_history (update_regrets sqrt vals selected c) = iteration_history c.
Proof.
  destruct vals as [|[s0 v0] rest]; [split; reflexivity|].
  unfold update_regrets. cbv zeta.
  destruct (get_strategy_probabilities _ c) as [probs c1] eqn:G.
  destruct (get_strategy_probabilities_snd (keys ((s0, v0) :: rest)) c) as (rs1 & Hc1 & _).
  rewrite G in Hc1. simpl in Hc1. subst c1.
  destruct (fold_left _ _ _) as [rs svs].
  match goal with
  | |- context [track_distance sqrt ?l ?c2] =>
      destruct (track_distance_frame sqrt l c2) as (Hss & Hih & _)
  end.
  cbn [strategy_sum iteration_history]. rewrite Hss, Hih. split; reflexivity.
Qed.

Lemma evaluate_all_strategies_keys Rng normal simulation_value state n c (rng : Rng) :
  keys (fst (evaluate_all_strategies Rng normal simulation_value state n c rng)) =
  STRATEGY_NAMES.
Proof.
  unfold evaluate_all_strategies. cbn [fold_left STRATEGY_NAMES].
  repeat (destruct (normal _ _ _) as [? ?]; cbn [fold_left dict_set]);
    reflexivity.
Qed.

Lemma record_fold_catalog (probs ss : dict strategy Q) :
  keys probs = STRATEGY_NAMES ->
  (forall p, In p (values probs) -> (0 <= p)%Q) ->
  (sum_list (values probs) == 1)%Q ->
  (ss = [] \/
   (keys ss = STRATEGY_NAMES /\ (forall v, In v (values ss) -> (0 <= v)%Q) /\
    (1 <= sum_list (values ss))%Q)) ->
  let r := fold_left (fun ss '(s, p) => dd_add ss s p) probs ss in
  keys r = STRATEGY_NAMES /\ (forall v, In v (values r) -> (0 <= v)%Q) /\
  (1 <= sum_list (values r))%Q.
Proof.
  intros Hk Hn Hs Hss r.
  destruct (keys_STRATEGY_NAMES_shape probs Hk) as (a1 & a2 & a3 & a4 & a5 & a6 & ->).
  assert (H1 := Hn a1). assert (H2 := Hn a2). assert (H3 := Hn a3).
  assert (H4 := Hn a4). assert (H5 := Hn a5). assert (H6 := Hn a6).
  cbn [values map snd In] in H1, H2, H3, H4, H5, H6.
  specialize (H1 ltac:(tauto)). specialize (H2 ltac:(tauto)). specialize (H3 ltac:(tauto)).
  specialize (H4 ltac:(tauto)). specialize (H5 ltac:(tauto)). specialize (H6 ltac:(tauto)).
  unfold sum_list in Hs. cbn in Hs.
  destruct Hss as [-> | (Hk' & Hn' & Hs')].
  - assert (Hr : r = [(PARALLEL_CRITICAL, 0 + a1); (SEQUENTIAL_SEVERITY, 0 + a2);
                      (DOCTOR_CRITICAL_NURSE_OTHERS, 0 + a3); (COOPERATIVE_ALL, 0 + a4);
                      (NEAREST_FIRST, 0 + a5); (NURSE_TRIAGE_DOCTOR_TREAT, 0 + a6)]%Q)
      by reflexivity.
    rewrite Hr. split; [reflexivity|]. split.
    + intros v Hv. cbn in Hv. repeat (destruct Hv as [<-|Hv]; [lra|]). contradiction.
    + unfold sum_list. cbn. lra.
  - destruct (keys_STRATEGY_NAMES_shape ss Hk') as (b1 & b2 & b3 & b4 & b5 & b6 & ->).
    assert (G1 := Hn' b1). assert (G2 := Hn' b2). assert (G3 := Hn' b3).
    assert (G4 := Hn' b4). assert (G5 := Hn' b5). assert (G6 := Hn' b6).
    cbn [values map snd In] in G1, G2, G3, G4, G5, G6.
    specialize (G1 ltac:(tauto)). specialize (G2 ltac:(tauto)). specialize (G3 ltac:(tauto)).
    specialize (G4 ltac:(tauto)). specialize (G5 ltac:(tauto)). specialize (G6 ltac:(tauto)).
    unfold sum_list in Hs'. cbn in Hs'.
    assert (Hr : r = [(PARALLEL_CRITICAL, b1 + a1); (SEQUENTIAL_SEVERITY, b2 + a2);
                      (DOCTOR_CRITICAL_NURSE_OTHERS, b3 + a3); (COOPERATIVE_ALL, b4 + a4);
                      (NEAREST_FIRST, b5 + a5); (NURSE_TRIAGE_DOCTOR_TREAT, b6 + a6)]%Q)
      by reflexivity.
    rewrite Hr. split; [reflexivity|]. split.
    + intros v Hv. cbn in Hv. repeat (destruct Hv as [<-|Hv]; [lra|]). contradiction.
    + unfold sum_list. cbn. lra.
Qed.

Lemma cfr_iteration_inv sqrt Rng normal choice simulation_value state c (rng : Rng) :
  strategy_sum_inv c ->
  let c' := snd (fst (cfr_iteration sqrt Rng normal choice simulation_value state c rng)) in
  keys (strategy_sum c') = STRATEGY_NAMES /\
  (forall v, In v (values (strategy_sum c')) -> (0 <= v)%Q) /\
  (1 <= sum_list (values (strategy_sum c')))%Q /\
  iteration_history c' <> [].
Proof.
  intros Hinv c'. subst c'. unfold cfr_iteration.
  pose proof (evaluate_all_strategies_keys Rng normal simulation_value state 5 c rng) as Hk.
  destruct (evaluate_all_strategies Rng normal simulation_value state 5 c rng) as [sv rng1].
  cbn [fst] in Hk. cbv zeta. rewrite Hk.
  destruct (current_policy_catalog c) as (Hpk & Hpn & Hps & _).
  destruct (get_strategy_probabilities_snd STRATEGY_NAMES c) as (rs1 & Hc1 & _).
  destruct (get_strategy_probabilities STRATEGY_NAMES c) as [probs c1].
  cbn [fst snd] in Hpk, Hpn, Hps, Hc1. subst c1.
  unfold select_strategy.
  destruct (get_strategy_probabilities_snd STRATEGY_NAMES (set_regret_sum c rs1)) as (rs2 & Hc2 & _).
  destruct (get_strategy_probabilities STRATEGY_NAMES (set_regret_sum c rs1)) as [probs2 c2].
  cbn [snd] in Hc2. subst c2.
  destruct (choice _ _ _) as [selected rng2].
  cbn [fst snd].
  match goal with
  | |- context [update_regrets sqrt ?v ?s ?cc] =>
      destruct (update_regrets_frame sqrt v s cc) as [Hss Hih]
  end.
  unfold record_iteration. cbn [strategy_sum iteration_history].
  rewrite Hss, Hih. cbn [strategy_sum iteration_history set_regret_sum].
  split; [|split; [|split]].
  1-3: apply (record_fold_catalog probs (strategy_sum c) Hpk Hpn Hps);
    destruct Hinv as [[-> _] | (? & ? & ? & _)]; [left; reflexivity | right; auto].
  intros Hnil. apply (f_equal (@length _)) in Hnil. rewrite length_app in Hnil.
  simpl in Hnil. lia.
Qed.

Lemma cfr_reachable_inv c : cfr_reachable c -> strategy_sum_inv c.
Proof.
  induction 1 as [|sqrt Rng normal choice simulation_value state c rng _ IH].
  - left. split; reflexivity.
  - right. apply (cfr_iteration_inv sqrt Rng normal choice simulation_value state c rng IH).
Qed.

Lemma average_of_inv c :
  strategy_sum_inv c ->
  (iteration_history c = [] /\ get_average_strategy c = []) \/
  (keys (get_average_strategy c) = STRATEGY_NAMES /\
   (forall p, In p (values (get_average_strategy c)) -> (0 <= p)%Q) /\
   (sum_list (values (get_average_strategy c)) == 1)%Q).
Proof.
  intros [[Hs Hh] | (Hk & Hn & Hs & _)].
  - left. split; [exact Hh|]. unfold get_average_strategy. rewrite Hs. reflexivity.
  - right. unfold get_average_strategy.
    assert (Ht : Qltb 0 (sum_list (values (strategy_sum c))) = true)
      by (apply Qltb_spec; lra).
    rewrite Ht. split; [|split].
    + rewrite keys_map_div. exact Hk.
    + intros p Hp. rewrite values_map_div in Hp. apply in_map_iff in Hp as (r & <- & Hr).
      specialize (Hn r Hr). apply Qle_shift_div_l; lra.
    + rewrite values_map_div, sum_list_map_div. unfold Qdiv. apply Qmult_inv_r. lra.
Qed.

(** ** Claim C2: the current and the average policy *)

(** C2 (corrected): in every reachable learner state, the current policy
    over the full catalog ([get_strategy_probabilities] on the six
    strategies) has exactly the catalog as keys, non-negative values
    summing to 1, and is uniform (1/6 each) when no strategy has positive
    accumulated regret.  The average policy is a distribution over the
    catalog (keys the catalog, non-negative, sum 1) only once an iteration
    has been recorded: before the first iteration it is the empty dict. *)
Theorem policies_are_distributions c :
  cfr_reachable c ->
  (let probs := fst (get_strategy_probabilities STRATEGY_NAMES c) in
   keys probs = STRATEGY_NAMES /\
   (forall p, In p (values probs) -> (0 <= p)%Q) /\
   (sum_list (values probs) == 1)%Q /\
   ((forall s, (dict_get (regret_sum c) s 0 <= 0)%Q) ->
    probs = map (fun s => (s, 1 # 6)) STRATEGY_NAMES)) /\
  ((iteration_history c = [] /\ get_average_strategy c = []) \/
   (keys (get_average_strategy c) = STRATEGY_NAMES /\
    (forall p, In p (values (get_average_strategy c)) -> (0 <= p)%Q) /\
    (sum_list (values (get_average_strategy c)) == 1)%Q)).
Proof.
  intros Hr. split.
  - apply current_policy_catalog.
  - apply average_of_inv, cfr_reachable_inv, Hr.
Qed.

(** C2 witness: the fresh learner. *)
Lemma policies_are_distributions_witness :
  cfr_reachable cfr_init /\
  (sum_list (values (fst (get_strategy_probabilities STRATEGY_NAMES cfr_init))) == 1)%Q.
Proof.
  split; [constructor|].
  destruct (policies_are_distributions cfr_init cfr_reachable_init) as [(_ & _ & H & _) _].
  exact H.
Defined.

(** C2 counterexample: the fresh learner is reachable, and its average
    policy is the empty dict, whose probabilities sum to 0, not 1. *)
Lemma average_policy_fresh_not_distribution :
  cfr_reachable cfr_init /\ get_average_strategy cfr_init = [] /\
  ~ (sum_list (values (get_average_strategy cfr_init)) == 1)%Q.
Proof.
  split; [constructor|]. split; [reflexivity|].
  vm_compute. discriminate.
Qed.

(** ** The simulator writes only to the objects it allocates *)

Section Frame.
Variable n0 : loc.

Lemma wa_ret {A} (a : A) (R : A -> Prop) : R a -> writes_above n0 (ret a) R.
Proof.
  intros Ha h Hi. simpl. split; [exact Hi|]. split; [intros l _; reflexivity|].
  intros x Hx. injection Hx as <-. exact Ha.
Qed.

Lemma wa_bind {A B} (m : M A) (k : A -> M B) (R1 : A -> Prop) (R2 : B -> Prop) :
  writes_above n0 m R1 -> (forall a, R1 a -> writes_above n0 (k a) R2) ->
  writes_above n0 (bind m k) R2.
Proof.
  intros Hm Hk h Hi. unfold bind.
  destruct (Hm h Hi) as (Hi1 & Hf1 & Hr1).
  destruct (m h) as [[e|a] h1]; simpl in *.
  - split; [exact Hi1|]. split; [exact Hf1|]. discriminate.
  - destruct (Hk a (Hr1 a eq_refl) h1 Hi1) as (Hi2 & Hf2 & Hr2).
    split; [exact Hi2|]. split; [|exact Hr2].
    intros l Hl. rewrite Hf2 by exact Hl. apply Hf1, Hl.
Qed.

Lemma wa_conseq {A} (m : M A) (R R' : A -> Prop) :
  writes_above n0 m R -> (forall a, R a -> R' a) -> writes_above n0 m R'.
Proof.
  intros Hm HR h Hi. destruct (Hm h Hi) as (H1 & H2 & H3). split; [exact H1|].
  split; [exact H2|]. intros a Ha. apply HR, H3, Ha.
Qed.

Lemma wa_raise {A} e (R : A -> Prop) : writes_above n0 (raise e) R.
Proof. intros h Hi. simpl. split; [exact Hi|]. split; [intros l _; reflexivity|discriminate]. Qed.

Lemma wa_lift {A} (r : exn + A) (R : A -> Prop) :
  (forall a, r = inr a -> R a) -> writes_above n0 (lift r) R.
Proof.
  intros Hr h Hi. simpl. split; [exact Hi|]. split; [intros l _; reflexivity|exact Hr].
Qed.

Lemma wa_alloc o : obj_ok n0 o -> writes_above n0 (alloc o) (fun l => (n0 <= l)%nat).
Proof.
  intros Ho h [Hn Hr]. cbn. split; [split|split]; cbn.
  - lia.
  - intros l o' Hl Hlo. destruct (decide (l = next_loc h)) as [->|Hne].
    + rewrite lookup_insert_eq in Hlo. injection Hlo as <-. exact Ho.
    + rewrite lookup_insert_ne in Hlo by congruence. exact (Hr l o' Hl Hlo).
  - intros l Hl. apply lookup_insert_ne. lia.
  - intros a Ha. injection Ha as <-. exact Hn.
Qed.

Lemma wa_store l o : (n0 <= l)%nat -> obj_ok n0 o -> writes_above n0 (store l o) (fun _ => True).
Proof.
  intros Hl Ho h [Hn Hr]. cbn. split; [split|split]; cbn.
  - exact Hn.
  - intros l' o' Hl' Hlo. destruct (decide (l' = l)) as [->|Hne].
    + rewrite lookup_insert_eq in Hlo. injection Hlo as <-. exact Ho.
    + rewrite lookup_insert_ne in Hlo by congruence. exact (Hr l' o' Hl' Hlo).
  - intros l' Hl'. apply lookup_insert_ne. lia.
  - intros _ _. exact I.
Qed.

Lemma wa_load_patient l : writes_above n0 (load_patient l) (fun _ => True).
Proof.
  intros h Hi. unfold load_patient.
  destruct (cells h !! l) as [[]|]; (split; [exact Hi|split; [intros ? _; reflexivity|auto]]).
Qed.

Lemma wa_load_state l :
  writes_above n0 (load_state l) (fun st => (n0 <= l)%nat -> (n0 <= so_patients st)%nat).
Proof.
  intros h [Hn Hr]. unfold load_state.
  destruct (cells h !! l) as [[]|] eqn:E;
    (split; [split; assumption|split; [intros ? _; reflexivity|]]); try discriminate.
  intros st Hst Hl. injection Hst as <-. exact (Hr l _ Hl E).
Qed.

Lemma wa_load_list l :
  writes_above n0 (load_list l) (fun ls => (n0 <= l)%nat -> Forall (fun x => (n0 <= x)%nat) ls).
Proof.
  intros h [Hn Hr]. unfold load_list.
  destruct (cells h !! l) as [[]|] eqn:E;
    (split; [split; assumption|split; [intros ? _; reflexivity|]]); try discriminate.
  intros ls Hls Hl. injection Hls as <-. exact (Hr l _ Hl E).
Qed.
End Frame.

Section FrameSimulator.
Variable n0 : loc.
Variable room_distance : string -> string -> Q.

Lemma wa_mapM {A B} (f : A -> M B) (R : B -> Prop) (l : list A) :
  (forall x, writes_above n0 (f x) R) -> writes_above n0 (mapM f l) (Forall R).
Proof.
  intros Hf. induction l as [|x l IH]; simpl.
  - apply wa_ret. constructor.
  - eapply wa_bind; [apply Hf|]. intros y Hy.
    eapply wa_bind; [apply IH|]. intros ys Hys. apply wa_ret. constructor; assumption.
Qed.

Lemma wa_foldM {A B} (f : B -> A -> M B) (P : B -> Prop) (l : list A) acc :
  P acc -> (forall acc x, P acc -> In x l -> writes_above n0 (f acc x) P) ->
  writes_above n0 (foldM f l acc) P.
Proof.
  revert acc. induction l as [|x l IH]; intros acc Hacc Hf; simpl.
  - apply wa_ret, Hacc.
  - eapply wa_bind; [apply Hf; [exact Hacc|left; reflexivity]|]. intros acc' Hacc'.
    apply IH; [exact Hacc'|]. intros a y Ha Hy. apply Hf; [exact Ha|right; exact Hy].
Qed.

Lemma wa_filterM {A} (f : A -> M bool) (l : list A) :
  (forall x, writes_above n0 (f x) (fun _ => True)) ->
  writes_above n0 (filterM f l) (fun ys => forall y, In y ys -> In y l).
Proof.
  intros Hf. induction l as [|x l IH]; simpl.
  - apply wa_ret. intros y [].
  - eapply wa_bind; [apply Hf|]. intros b _.
    eapply wa_bind; [apply IH|]. intros ys Hys. apply wa_ret.
    intros y Hy. destruct b; [destruct Hy as [<-|Hy]; [left; reflexivity|]|]; right; auto.
Qed.

Lemma py_getitem_In {A} (l : list A) i x : py_getitem l i = Some x -> In x l.
Proof.
  unfold py_getitem. intros H.
  repeat destruct (Z.leb _ _); try discriminate; eapply nth_error_In; exact H.
Qed.

Lemma Forall_le_In (ls : list loc) l : Forall (fun x => (n0 <= x)%nat) ls -> In l ls -> (n0 <= l)%nat.
Proof. intros H Hin. exact (proj1 (List.Forall_forall _ _) H l Hin). Qed.

Lemma wa_clone_state l : writes_above n0 (clone_state l) (fun s => (n0 <= s)%nat).
Proof.
  unfold clone_state.
  eapply wa_bind; [apply wa_load_state|]. intros st _.
  eapply wa_bind; [apply wa_load_list|]. intros ls _.
  eapply wa_bind.
  { apply (wa_mapM _ (fun l => (n0 <= l)%nat)). intros x. unfold clone_patient.
    eapply wa_bind; [apply wa_load_patient|]. intros p _. apply wa_alloc. exact I. }
  intros ls' Hls'.
  eapply wa_bind; [apply wa_alloc; exact Hls'|]. intros pl Hpl.
  apply wa_alloc. exact Hpl.
Qed.

(** Loading the roster of a state object allocated by the call. *)
Lemma wa_roster {B} s (k : StateObj -> list loc -> M B) (R : B -> Prop) :
  (n0 <= s)%nat ->
  (forall st ls, (n0 <= so_patients st)%nat -> Forall (fun x => (n0 <= x)%nat) ls ->
                 writes_above n0 (k st ls) R) ->
  writes_above n0 (st <- load_state s ;; ls <- load_list (so_patients st) ;; k st ls) R.
Proof.
  intros Hs Hk.
  eapply wa_bind; [apply wa_load_state|]. intros st Hst. specialize (Hst Hs).
  eapply wa_bind; [apply wa_load_list|]. intros ls Hls. apply Hk; [exact Hst|apply Hls, Hst].
Qed.

End FrameSimulator.

Section FrameSimulatorOps.
Variable n0 : loc.
Variable room_distance : string -> string -> Q.

Ltac wa_step :=
  match goal with
  | |- writes_above _ (bind (load_state _) _) _ => eapply wa_bind; [apply wa_load_state|]
  | |- writes_above _ (bind (load_list _) _) _ => eapply wa_bind; [apply wa_load_list|]
  | |- writes_above _ (bind (load_patient _) _) _ => eapply wa_bind; [apply wa_load_patient|]
  | |- writes_above _ (bind (lift _) _) _ =>
      eapply wa_bind; [apply (wa_lift _ _ (fun _ => True)); intros; exact I|]
  | |- writes_above _ (ret _) _ => apply wa_ret
  | |- writes_above _ (raise _) _ => apply wa_raise
  end.

(** [st <- load_state s ;; _ <- store s (OState (f st)) ;; k] *)
Ltac upd_state Hs :=
  eapply wa_bind; [apply wa_load_state|]; let st := fresh "st" in let Hst := fresh "Hst" in
  intros st Hst; eapply wa_bind; [apply wa_store; [exact Hs|simpl; apply Hst, Hs]|];
  intros _ _.

Lemma wa_apply_waiting_penalties s dt :
  (n0 <= s)%nat -> writes_above n0 (apply_waiting_penalties s dt) (fun _ => True).
Proof.
  intros Hs. unfold apply_waiting_penalties.
  apply wa_roster; [exact Hs|]. intros st ls Hst Hls.
  eapply wa_bind.
  { apply (wa_foldM n0 _ (fun _ => True)); [exact I|]. intros acc l _ Hin.
    wa_step. intros p _. destruct (penalize_patient dt p) as [p' d].
    eapply wa_bind; [apply wa_store; [exact (Forall_le_In n0 ls l Hls Hin)|exact I]|].
    intros _ _. apply wa_ret. exact I. }
  intros penalty _.
  upd_state Hs. apply wa_ret. exact I.
Qed.

Lemma wa_treat_patient s l ag duration cooperative :
  (n0 <= s)%nat -> (n0 <= l)%nat ->
  writes_above n0 (treat_patient s l ag duration cooperative) (fun _ => True).
Proof.
  intros Hs Hl. unfold treat_patient.
  wa_step. intros p _. wa_step. intros r _.
  destruct r as [[p' reward]|]; [|apply wa_ret; exact I].
  eapply wa_bind; [apply wa_store; [exact Hl|exact I]|]. intros _ _.
  upd_state Hs. apply wa_ret. exact I.
Qed.

Lemma wa_execute_agent_action s ag a m :
  (n0 <= s)%nat -> writes_above n0 (execute_agent_action room_distance s ag a m) (fun _ => True).
Proof.
  intros Hs. unfold execute_agent_action. destruct a as [k| | |].
  - cbv zeta. apply wa_roster; [exact Hs|]. intros st ls Hst Hls.
    destruct (Z.ltb _ _); [|apply wa_ret; exact I].
    destruct (py_getitem _ _) as [l|] eqn:Hg; [|apply wa_raise].
    assert (Hl : (n0 <= l)%nat) by exact (Forall_le_In n0 ls l Hls (py_getitem_In _ _ _ Hg)).
    wa_step. intros p _. wa_step. intros room _.
    destruct room as [r|]; [|apply wa_ret; exact I].
    destruct (str_truthy r); [|apply wa_ret; exact I].
    eapply wa_bind; [apply wa_store; [exact Hs|exact Hst]|]. intros _ _.
    eapply wa_bind; [apply wa_store; [exact Hl|exact I]|]. intros _ _.
    eapply wa_bind; [apply wa_treat_patient; assumption|]. intros reward _.
    wa_step. intros p2 _.
    destruct (list_remove _ _) as [b|]; [|apply wa_raise].
    eapply wa_bind; [apply wa_store; [exact Hl|exact I]|]. intros _ _.
    apply wa_ret. exact I.
  - apply wa_raise.
  - upd_state Hs. apply wa_ret. exact I.
  - apply wa_ret. exact I.
Qed.

Lemma wa_remove_where s pred :
  (n0 <= s)%nat -> writes_above n0 (remove_where s pred) (fun _ => True).
Proof.
  intros Hs. unfold remove_where.
  apply wa_roster; [exact Hs|]. intros st ls Hst Hls.
  eapply wa_bind; [apply wa_filterM; intros x; wa_step; intros; apply wa_ret; exact I|].
  intros removed _.
  eapply wa_bind; [apply wa_filterM; intros x; wa_step; intros; apply wa_ret; exact I|].
  intros kept Hkept.
  eapply wa_bind; [apply wa_store; [exact Hst|]|].
  - simpl. apply List.Forall_forall. intros x Hx. exact (Forall_le_In n0 ls x Hls (Hkept x Hx)).
  - intros _ _. apply wa_ret. exact I.
Qed.

Lemma wa_agent_turn s ag actions idx m :
  (n0 <= s)%nat -> writes_above n0 (agent_turn room_distance s ag actions idx m) (fun _ => True).
Proof.
  intros Hs. unfold agent_turn. wa_step. intros st _. cbv zeta.
  destruct (_ && _); [|apply wa_ret; exact I].
  eapply wa_bind; [apply wa_execute_agent_action; exact Hs|]. intros [reward m'] _.
  apply wa_ret. exact I.
Qed.

Lemma wa_sim_loop fuel s T na da ni di m :
  (n0 <= s)%nat -> writes_above n0 (sim_loop room_distance fuel s T na da ni di m) (fun _ => True).
Proof.
  intros Hs. revert ni di m. induction fuel as [|fuel IH]; intros ni di m; simpl.
  - apply wa_ret. exact I.
  - apply wa_roster; [exact Hs|]. intros st ls _ _.
    destruct (_ && _); [|apply wa_ret; exact I].
    eapply wa_bind; [apply wa_apply_waiting_penalties; exact Hs|]. intros penalty _. cbv zeta.
    eapply wa_bind; [apply wa_remove_where; exact Hs|]. intros dead _.
    upd_state Hs.
    eapply wa_bind; [apply wa_agent_turn; exact Hs|]. intros [ni' m1] _.
    eapply wa_bind; [apply wa_agent_turn; exact Hs|]. intros [di' m2] _.
    eapply wa_bind; [apply wa_remove_where; exact Hs|]. intros completed _.
    upd_state Hs. apply IH.
Qed.
End FrameSimulatorOps.

(** ** Claim C7: the simulator leaves the caller's state unchanged *)

(** C7: on a well-formed heap, [simulate_action_sequence] changes no
    object that existed before the call: the caller's [GameState], its
    patient list and every patient object (and every other object) are
    exactly as before, whether the run returns or raises; the state it
    returns is a new object, allocated by the call. *)
Theorem simulate_action_sequence_preserves_caller room_distance (h : heap) (initial_state : loc)
    (nurse_actions doctor_actions : list action) (simulation_time : Q) :
  heap_wf h ->
  let run := simulate_action_sequence room_distance initial_state nurse_actions doctor_actions
                                      simulation_time h in
  (forall l, (l < next_loc h)%nat -> cells (snd run) !! l = cells h !! l) /\
  (forall s m, fst run = inr (s, m) -> (next_loc h <= s)%nat).
Proof.
  intros Hwf run.
  assert (Hi : region_inv (next_loc h) h).
  { split; [lia|]. intros l o Hl Hlo. rewrite (Hwf l Hl) in Hlo. discriminate. }
  assert (Hwa : writes_above (next_loc h)
                  (simulate_action_sequence room_distance initial_state nurse_actions
                                            doctor_actions simulation_time)
                  (fun r => (next_loc h <= fst r)%nat)).
  { unfold simulate_action_sequence.
    eapply wa_bind; [apply wa_clone_state|]. intros s Hs.
    eapply wa_bind; [apply wa_load_state|]. intros st _. cbv zeta.
    eapply wa_bind; [apply wa_sim_loop; exact Hs|]. intros m _.
    apply wa_ret. exact Hs. }
  destruct (Hwa h Hi) as (_ & Hf & Hr). split.
  - exact Hf.
  - intros s m Heq. exact (Hr (s, m) Heq).
Qed.

(** C7 witness: one Critical patient, two treatments each. *)
Lemma simulate_action_sequence_preserves_caller_witness :
  heap_wf ex_heap /\
  cells (snd (simulate_action_sequence ex_distance 0 [TREAT_PATIENT 1; TREAT_PATIENT 1]
                [TREAT_PATIENT 1; WAIT] 100 ex_heap)) !! 2%nat = Some (OPatient ex_patient).
Proof.
  assert (Hwf : heap_wf ex_heap).
  { intros l Hl. simpl in Hl. simpl. rewrite !lookup_insert_ne by lia. apply lookup_empty. }
  split; [exact Hwf|].
  destruct (simulate_action_sequence_preserves_caller ex_distance ex_heap 0
              [TREAT_PATIENT 1; TREAT_PATIENT 1] [TREAT_PATIENT 1; WAIT] 100 Hwf) as [H _].
  rewrite (H 2%nat ltac:(simpl; lia)). reflexivity.
Defined.

(** ** Claim C8: patient invariants *)

Definition patient_ok (p : Patient) : Prop :=
  (0 <= health p <= 100)%Q /\
  (0 <= current_step p <= Z.of_nat (length (pathway p)))%Z.

Lemma next_room_some p room :
  next_room p = inr (Some room) -> is_complete p = false.
Proof. unfold next_room. destruct (is_complete p); [discriminate|reflexivity]. Qed.

Lemma ROOM_TREATMENT_TIME_pos room : (0 < ROOM_TREATMENT_TIME room)%Q.
Proof. unfold ROOM_TREATMENT_TIME. repeat case_decide; reflexivity. Qed.

Lemma ROOM_EFFECTIVENESS_pos room : (0 <= ROOM_EFFECTIVENESS room)%Q.
Proof. unfold ROOM_EFFECTIVENESS. repeat case_decide; discriminate. Qed.

Lemma patient_reachable_ok p : patient_reachable p -> patient_ok p.
Proof.
  induction 1 as [id t|p _ IH|p ag room cooperative p' reward _ IH Hroom Htreat
                 |p b _ IH|p _ IH].
  - unfold patient_ok. destruct t; simpl; split; try lra; lia.
  - destruct IH as [[Hh0 Hh1] Hs]. unfold penalize_patient.
    destruct (being_treated_by p); [|split; [split|]; assumption].
    unfold patient_ok, py_max2. simpl. split; [|exact Hs].
    destruct (Qltb 0 _) eqn:E; [apply Qltb_spec in E|]; destruct (ptype p); simpl in *; lra.
  - destruct IH as [[Hh0 Hh1] Hs].
    pose proof (next_room_some p room Hroom) as Hc.
    unfold treat_patient_fields in Htreat. rewrite Hroom in Htreat.
    injection Htreat as <- _.
    unfold is_complete in Hc. apply Z.leb_gt in Hc.
    unfold patient_ok. simpl. split; [|lia].
    set (healing := ((if cooperative then _ else _) * ROOM_EFFECTIVENESS room *
                     (ROOM_TREATMENT_TIME room / ROOM_TREATMENT_TIME room))%Q).
    assert (Hheal : (0 <= healing)%Q).
    { unfold healing. pose proof (ROOM_TREATMENT_TIME_pos room) as Ht.
      pose proof (ROOM_EFFECTIVENESS_pos room) as He.
      apply Qmult_le_0_compat; [apply Qmult_le_0_compat; [|exact He]|].
      - destruct cooperative, ag; unfold DOCTOR_HEALING_POWER, NURSE_HEALING_POWER,
          COOPERATIVE_BONUS; discriminate.
      - apply Qle_shift_div_l; [exact Ht|]. lra. }
    unfold py_min2. destruct (Qltb _ _) eqn:E; [apply Qltb_spec in E|apply Qltb_false in E];
      lra.
  - exact IH.
  - unfold step_patient_fields. destruct (is_complete p) eqn:E; [exact IH|].
    destruct IH as [Hh Hs]. unfold is_complete in E. apply Z.leb_gt in E.
    unfold patient_ok. simpl. split; [exact Hh|lia].
Qed.

(** C8: every patient reachable by spawning, simulator ticks (waiting
    penalties, treatments, the marks of the treating agent) and Unity's
    step-complete operation has [0 <= health <= 100] and
    [0 <= current_step <= len(pathway)], and is complete exactly when
    [current_step = len(pathway)]. *)
Theorem patient_invariants (p : Patient) :
  patient_reachable p ->
  (0 <= health p <= 100)%Q /\
  (0 <= current_step p <= Z.of_nat (length (pathway p)))%Z /\
  (is_complete p = true <-> current_step p = Z.of_nat (length (pathway p))).
Proof.
  intros Hp. destruct (patient_reachable_ok p Hp) as [Hh Hs].
  split; [exact Hh|]. split; [exact Hs|].
  unfold is_complete. rewrite Z.leb_le. lia.
Qed.

(** C8 witness: a spawned patient after a waiting penalty and a step. *)
Lemma patient_invariants_witness :
  patient_reachable (step_patient_fields (fst (penalize_patient 1 ex_patient))) /\
  current_step (step_patient_fields (fst (penalize_patient 1 ex_patient))) = 1%Z.
Proof.
  assert (H : patient_reachable (step_patient_fields (fst (penalize_patient 1 ex_patient))))
    by (apply pr_step, pr_penalty, pr_spawn).
  split; [exact H|].
  destruct (patient_invariants _ H) as (_ & _ & _). reflexivity.
Defined.

(** ** Claim C10: dispatch of [TREAT_PATIENT_k] *)

Lemma exec_treat_out_of_range room_distance h s st ls ag k m :
  cells h !! s = Some (OState st) -> cells h !! so_patients st = Some (OList ls) ->
  (Z.of_nat (length ls) <= k - 1)%Z ->
  execute_agent_action room_distance s ag (TREAT_PATIENT k) m h = (inr (0%Q, m), h).
Proof.
  intros Hs Hl Hk. unfold execute_agent_action. cbv zeta. unfold bind at 1. unfold load_state. rewrite Hs.
  unfold bind at 1, load_list. rewrite Hl.
  destruct (Z.ltb_spec (k - 1) (Z.of_nat (length ls))); [lia|]. reflexivity.
Qed.

Lemma exec_treat_complete room_distance h s st ls ag k m l p :
  cells h !! s = Some (OState st) -> cells h !! so_patients st = Some (OList ls) ->
  (1 <= k)%Z -> nth_error ls (Z.to_nat (k - 1)) = Some l ->
  cells h !! l = Some (OPatient p) -> is_complete p = true ->
  execute_agent_action room_distance s ag (TREAT_PATIENT k) m h = (inr (0%Q, m), h).
Proof.
  intros Hs Hl Hk Hn Hp Hc. unfold execute_agent_action. cbv zeta. unfold bind at 1. unfold load_state. rewrite Hs.
  unfold bind at 1, load_list. rewrite Hl.
  assert (Hlt : (k - 1 < Z.of_nat (length ls))%Z).
  { assert (Z.to_nat (k - 1) < length ls)%nat by (apply nth_error_Some; congruence). lia. }
  destruct (Z.ltb_spec (k - 1) (Z.of_nat (length ls))); [|lia].
  assert (Hg : py_getitem ls (k - 1) = Some l).
  { unfold py_getitem. destruct (Z.leb_spec 0 (k - 1)); [exact Hn|lia]. }
  rewrite Hg. unfold bind at 1, load_patient. rewrite Hp.
  unfold bind at 1, lift, next_room. rewrite Hc. reflexivity.
Qed.

Lemma treat_patient_run h s l ag d c p st room :
  cells h !! l = Some (OPatient p) -> cells h !! s = Some (OState st) -> l <> s ->
  next_room p = inr (Some room) ->
  exists p' reward st',
    treat_patient s l ag d c h =
      (inr reward, {| cells := <[s := OState st']> (<[l := OPatient p']> (cells h));
                      next_loc := next_loc h |}) /\
    pid p' = pid p /\ current_step p' = (current_step p + 1)%Z /\
    being_treated_by p' = being_treated_by p.
Proof.
  intros Hl Hs Hne Hr. unfold treat_patient, treat_patient_fields.
  unfold bind at 1, load_patient. rewrite Hl.
  unfold bind at 1, lift. rewrite Hr.
  cbn. unfold bind, load_state, store, ret. cbn.
  rewrite lookup_insert_ne by congruence. rewrite Hs. cbn.
  eexists _, _, _. split; [reflexivity|]. simpl. auto.
Qed.

Lemma list_remove_snoc {A} `{EqDecision A} (x : A) l : exists l', list_remove x (l ++ [x]) = Some l'.
Proof.
  induction l as [|y l IH]; simpl.
  - rewrite decide_True by reflexivity. eauto.
  - destruct (decide (x = y)); [eauto|]. destruct IH as [l' ->]. simpl. eauto.
Qed.

Lemma exec_treat_dispatch room_distance h s st ls ag k m l p room :
  cells h !! s = Some (OState st) -> cells h !! so_patients st = Some (OList ls) ->
  (1 <= k)%Z -> nth_error ls (Z.to_nat (k - 1)) = Some l -> l <> s ->
  cells h !! l = Some (OPatient p) -> next_room p = inr (Some room) -> str_truthy room = true ->
  exists reward m' h' p',
    execute_agent_action room_distance s ag (TREAT_PATIENT k) m h = (inr (reward, m'), h') /\
    cells h' !! l = Some (OPatient p') /\ pid p' = pid p /\
    current_step p' = (current_step p + 1)%Z /\
    forall l', l' <> l -> l' <> s -> cells h' !! l' = cells h !! l'.
Proof.
  intros Hs Hl Hk Hn Hls Hp Hr Ht. unfold execute_agent_action. cbv zeta.
  unfold bind at 1. unfold load_state. rewrite Hs.
  unfold bind at 1, load_list. rewrite Hl.
  assert (Hlt : (k - 1 < Z.of_nat (length ls))%Z).
  { assert (Z.to_nat (k - 1) < length ls)%nat by (apply nth_error_Some; congruence). lia. }
  destruct (Z.ltb_spec (k - 1) (Z.of_nat (length ls))); [|lia].
  assert (Hg : py_getitem ls (k - 1) = Some l).
  { unfold py_getitem. destruct (Z.leb_spec 0 (k - 1)); [exact Hn|lia]. }
  rewrite Hg. unfold bind at 1, load_patient. rewrite Hp.
  unfold bind at 1, lift. rewrite Hr. rewrite Ht.
  unfold bind at 1, store at 1. cbn [cells next_loc].
  unfold bind at 1, store at 1. cbn [cells next_loc].
  set (pb := set_being_treated_by p (being_treated_by p ++ [agent_name ag])).
  set (h1 := {| cells := _ ; next_loc := _ |}).
  destruct (treat_patient_run h1 s l ag (ROOM_TREATMENT_TIME room)
              (negb (length (being_treated_by p) =? 0)) pb
              (set_agent st ag (so_current_time st + room_distance
                 match ag with Nurse => so_nurse_pos st | Doctor => so_doctor_pos st end room /
                 agent_speed ag + ROOM_TREATMENT_TIME room)%Q (Some room)) room)
    as (p' & reward & st' & Hrun & Hpid & Hstep & Hb).
  1: cbn [cells h1]; apply lookup_insert_eq.
  1: cbn [cells h1]; rewrite lookup_insert_ne by congruence; apply lookup_insert_eq.
  1: exact Hls.
  1: exact Hr.
  unfold bind at 1. rewrite Hrun.
  unfold bind at 1, load_patient. cbn [cells].
  rewrite lookup_insert_ne by congruence. rewrite lookup_insert_eq.
  rewrite Hb. cbn [pb set_being_treated_by being_treated_by].
  destruct (list_remove_snoc (agent_name ag) (being_treated_by p)) as [b Hrem].
  rewrite Hrem. unfold bind, store, ret. cbn.
  eexists _, _, _, _. split; [reflexivity|]. cbn [cells].
  split; [apply lookup_insert_eq|]. split; [|split].
  - cbn. rewrite Hpid. reflexivity.
  - cbn. rewrite Hstep. reflexivity.
  - intros l' H1 H2. rewrite !lookup_insert_ne by congruence. reflexivity.
Qed.

Lemma roster_dispatch_iff (ps : list Patient) :
  NoDup (map pid ps) -> (forall p, In p ps -> (1 <= pid p)%Z) ->
  ((forall p, In p ps ->
      (pid p - 1 < Z.of_nat (length ps))%Z /\ py_getitem ps (pid p - 1) = Some p) <->
   (forall i p, nth_error ps i = Some p -> pid p = (Z.of_nat i + 1)%Z)).
Proof.
  intros Hnd Hpos. split.
  - intros H i p Hi.
    assert (Hin : In p ps) by (eapply nth_error_In; exact Hi).
    destruct (H p Hin) as [_ Hg]. specialize (Hpos p Hin).
    unfold py_getitem in Hg. destruct (Z.leb_spec 0 (pid p - 1)); [|lia].
    assert (Hj : nth_error (map pid ps) (Z.to_nat (pid p - 1)) = nth_error (map pid ps) i).
    { rewrite !nth_error_map, Hg, Hi. reflexivity. }
    apply (proj1 (NoDup_nth_error _) (proj1 (NoDup_ListNoDup _) Hnd)) in Hj; [lia|].
    rewrite length_map. apply nth_error_Some. congruence.
  - intros H p Hin. apply In_nth_error in Hin as [i Hi].
    pose proof (H i p Hi) as Hid.
    assert (i < length ps)%nat by (apply nth_error_Some; congruence).
    split; [lia|]. unfold py_getitem. rewrite Hid.
    destruct (Z.leb_spec 0 (Z.of_nat i + 1 - 1)); [|lia].
    replace (Z.to_nat (Z.of_nat i + 1 - 1)) with i by lia. exact Hi.
Qed.

(** C10: in the simulator, for [k >= 1], the action [TREAT_PATIENT_k]
    acts on the patient at position [k-1] of the state's current roster
    list: when [k-1] is not below the roster's length, or that patient's
    pathway is complete, it returns reward 0 and changes nothing (no
    exception); otherwise that patient (an object distinct from the state)
    advances one step, keeps its id, and no other object but the state
    changes.  On a roster of distinct ids [>= 1], [TREAT_PATIENT_{id}]
    reaches the patient with that id for every patient exactly when every
    patient's id is its position plus one. *)
Theorem treat_patient_action_dispatch :
  (forall room_distance h s st ls ag k m,
     cells h !! s = Some (OState st) -> cells h !! so_patients st = Some (OList ls) ->
     (1 <= k)%Z ->
     ((Z.of_nat (length ls) <= k - 1)%Z ->
      execute_agent_action room_distance s ag (TREAT_PATIENT k) m h = (inr (0%Q, m), h)) /\
     (forall l p, nth_error ls (Z.to_nat (k - 1)) = Some l -> cells h !! l = Some (OPatient p) ->
        (is_complete p = true ->
         execute_agent_action room_distance s ag (TREAT_PATIENT k) m h = (inr (0%Q, m), h)) /\
        (forall room, next_room p = inr (Some room) -> str_truthy room = true -> l <> s ->
         exists reward m' h' p',
           execute_agent_action room_distance s ag (TREAT_PATIENT k) m h = (inr (reward, m'), h') /\
           cells h' !! l = Some (OPatient p') /\ pid p' = pid p /\
           current_step p' = (current_step p + 1)%Z /\
           forall l', l' <> l -> l' <> s -> cells h' !! l' = cells h !! l'))) /\
  (forall ps : list Patient,
     NoDup (map pid ps) -> (forall p, In p ps -> (1 <= pid p)%Z) ->
     ((forall p, In p ps ->
         (pid p - 1 < Z.of_nat (length ps))%Z /\ py_getitem ps (pid p - 1) = Some p) <->
      (forall i p, nth_error ps i = Some p -> pid p = (Z.of_nat i + 1)%Z))).
Proof.
  split.
  - intros room_distance h s st ls ag k m Hs Hl Hk. split.
    + intros Hout. exact (exec_treat_out_of_range room_distance h s st ls ag k m Hs Hl Hout).
    + intros l p Hn Hp. split.
      * intros Hc. exact (exec_treat_complete room_distance h s st ls ag k m l p Hs Hl Hk Hn Hp Hc).
      * intros room Hr Ht Hne.
        exact (exec_treat_dispatch room_distance h s st ls ag k m l p room Hs Hl Hk Hn Hne Hp Hr Ht).
  - exact roster_dispatch_iff.
Qed.

(** C10 witness: [TREAT_PATIENT_2] on a one-patient roster does nothing. *)
Lemma treat_patient_action_dispatch_witness :
  execute_agent_action ex_distance 0 Nurse (TREAT_PATIENT 2) metrics0 ex_heap =
  (inr (0%Q, metrics0), ex_heap).
Proof.
  destruct treat_patient_action_dispatch as [H _].
  apply (H ex_distance ex_heap 0%nat ex_state_obj [2%nat] Nurse 2%Z metrics0);
    [reflexivity|reflexivity|lia|simpl; lia].
Defined.

(** ** Claim C1: the final selection of [analyze_and_plan] *)

(** After at least one round, the learner left by the learning loop is
    the result of an iteration on a reachable learner. *)
Lemma cfr_loop_S sqrt Rng normal choice simulation_value n state sv c (rng : Rng) :
  cfr_reachable c ->
  exists c0 (rng0 : Rng), cfr_reachable c0 /\
    snd (fst (cfr_loop sqrt Rng normal choice simulation_value (S n) state sv c rng)) =
    snd (fst (cfr_iteration sqrt Rng normal choice simulation_value state c0 rng0)).
Proof.
  revert sv c rng. induction n as [|n IH]; intros sv c rng Hr.
  - exists c, rng. split; [exact Hr|]. simpl.
    destruct (cfr_iteration _ _ _ _ _ state c rng) as [[sv' c'] rng']. reflexivity.
  - cbn [cfr_loop].
    destruct (cfr_iteration _ _ _ _ _ state c rng) as [[sv' c'] rng'] eqn:E.
    assert (Hr' : cfr_reachable c').
    { replace c' with (snd (fst (cfr_iteration sqrt Rng normal choice simulation_value state c rng)))
        by (rewrite E; reflexivity).
      constructor. exact Hr. }
    exact (IH sv' c' rng' Hr').
Qed.

Lemma In_STRATEGY_NAMES s : In s STRATEGY_NAMES.
Proof. destruct s; simpl; tauto. Qed.

(** C1 (corrected): on a reachable learner and a non-empty roster,
    [analyze_and_plan] returns a bundle whose strategy has the highest
    probability of the average policy (a distribution over the whole
    catalog); among strategies tied at that probability it is the first
    one in catalog order: every strategy listed before it has a strictly
    smaller average probability.  The latest-round values play no part. *)
Theorem analyze_and_plan_selects_average_max sqrt Rng normal choice simulation_value
    (a : DynamicRegretAnalyzer) (rng : Rng) (st : GameState) :
  cfr_reachable (cfr a) -> current_state a = Some st -> patients st <> [] ->
  exists r a' rng',
    analyze_and_plan sqrt Rng normal choice simulation_value a rng = Some (r, a', rng') /\
    keys (get_average_strategy (cfr a')) = STRATEGY_NAMES /\
    exists best, assignment_strategy r = ASSIGNED best /\
      (forall s, (dict_get (get_average_strategy (cfr a')) s 0 <=
                  dict_get (get_average_strategy (cfr a')) best 0)%Q) /\
      exists pre post, STRATEGY_NAMES = pre ++ best :: post /\
        (forall s, In s pre -> (dict_get (get_average_strategy (cfr a')) s 0 <
                                dict_get (get_average_strategy (cfr a')) best 0)%Q).
Proof.
  intros Hr Hst Hne. unfold analyze_and_plan. rewrite Hst.
  destruct (patients st) as [|p ps] eqn:Hp; [congruence|].
  destruct (cfr_loop_S sqrt Rng normal choice simulation_value 19 st [] (cfr a) rng Hr)
    as (c0 & rng0 & Hr0 & Ec).
  unfold NUM_CFR_ITERATIONS.
  destruct (cfr_loop _ _ _ _ _ 20 st [] (cfr a) rng) as [[sv c] rng'] eqn:E.
  simpl in Ec.
  destruct (cfr_iteration_inv sqrt Rng normal choice simulation_value st c0 rng0
              (cfr_reachable_inv _ Hr0)) as (Hk & Hn & Hs & Hh).
  rewrite <- Ec in Hk, Hn, Hs, Hh.
  destruct (average_of_inv c (or_intror (conj Hk (conj Hn (conj Hs Hh)))))
    as [[Hh' _] | (Hak & _ & _)]; [congruence|].
  destruct (keys_STRATEGY_NAMES_shape _ Hak) as (a1 & a2 & a3 & a4 & a5 & a6 & Ea).
  rewrite Ea. cbn [final_selection].
  destruct (generate_unity_commands st _) as [nurse doctor].
  eexists _, _, _. split; [reflexivity|]. cbn [cfr]. rewrite Ea.
  split; [reflexivity|].
  match goal with
  | |- context [py_max_by ?f ?x ?xs] =>
      pose proof (py_max_by_spec f x xs) as (pre & post & Hdec & Hpre & Hpost);
      set (best := py_max_by f x xs) in *
  end.
  assert (Hcat : STRATEGY_NAMES = pre ++ best :: post) by (rewrite <- Hdec; reflexivity).
  exists best. split; [reflexivity|]. split.
  - intros s. pose proof (In_STRATEGY_NAMES s) as Hin. rewrite Hcat in Hin.
    apply in_app_or in Hin as [Hin | [<- | Hin]].
    + apply Qlt_le_weak. exact (Hpre s Hin).
    + apply Qle_refl.
    + exact (Hpost s Hin).
  - exists pre, post. split; [exact Hcat|]. exact Hpre.
Qed.

(** C1 witness: the planning scenario with one Critical patient. *)
Lemma analyze_and_plan_selects_average_max_witness :
  cfr_reachable (cfr ce_analyzer) /\ current_state ce_analyzer = Some ce_state /\
  patients ce_state <> [] /\
  exists r a' rng',
    analyze_and_plan py_sqrt np_state np_normal np_choice (sim_value py_sqrt ROOM_POSITIONS)
                     ce_analyzer (np_tape 0) = Some (r, a', rng') /\
    keys (get_average_strategy (cfr a')) = STRATEGY_NAMES.
Proof.
  split; [constructor|]. split; [reflexivity|]. split; [discriminate|].
  destruct (analyze_and_plan_selects_average_max py_sqrt np_state np_normal np_choice
              (sim_value py_sqrt ROOM_POSITIONS) ce_analyzer (np_tape 0) ce_state
              cfr_reachable_init eq_refl ltac:(discriminate))
    as (r & a' & rng' & E & Hk & _).
  exists r, a', rng'. split; [exact E | exact Hk].
Defined.

Lemma py_max2_0_mono a b : (a <= b)%Q -> (py_max2 0 a <= py_max2 0 b)%Q.
Proof.
  intros H. unfold py_max2.
  destruct (Qltb 0 a) eqn:Ea; [apply Qltb_spec in Ea|apply Qltb_false in Ea];
  destruct (Qltb 0 b) eqn:Eb;
  try (apply Qltb_spec in Eb); try (apply Qltb_false in Eb); lra.
Qed.

Lemma probs_catalog_get c :
  let probs := fst (get_strategy_probabilities STRATEGY_NAMES c) in
  (exists t, (0 < t)%Q /\
     forall s, dict_get probs s 0%Q = (py_max2 0 (dict_get (regret_sum c) s 0) / t)%Q) \/
  (forall s, dict_get probs s 0%Q = 1 # 6).
Proof.
  destruct (get_strategy_probabilities_eq STRATEGY_NAMES c NoDup_STRATEGY_NAMES)
    as (rs & _ & Heq).
  cbv zeta in Heq. cbv zeta. rewrite Heq. cbn [fst].
  destruct (Qltb 0 _) eqn:Ht.
  - left. apply Qltb_spec in Ht. eexists; split; [exact Ht|]. intros s; destruct s; reflexivity.
  - right. rewrite uniform_catalog. intros s; destruct s; reflexivity.
Qed.

Lemma probs_top c :
  regret_top c ->
  let probs := fst (get_strategy_probabilities STRATEGY_NAMES c) in
  dict_get probs PARALLEL_CRITICAL 0%Q = dict_get probs SEQUENTIAL_SEVERITY 0%Q /\
  forall s, (dict_get probs s 0 <= dict_get probs PARALLEL_CRITICAL 0)%Q.
Proof.
  intros [Heq Hle] probs. subst probs.
  destruct (probs_catalog_get c) as [(t & Ht & Hg) | Hu].
  - split; [rewrite !Hg, Heq; reflexivity|].
    intros s. rewrite !Hg. unfold Qdiv. apply Qmult_le_compat_r.
    + apply py_max2_0_mono, Hle.
    + apply Qlt_le_weak, Qinv_lt_0_compat, Ht.
  - split; [rewrite !Hu; reflexivity|]. intros s. rewrite !Hu. apply Qle_refl.
Qed.

Lemma record_fold_get (probs ss : dict strategy Q) s :
  keys probs = STRATEGY_NAMES ->
  dict_get (fold_left (fun ss '(s, p) => dd_add ss s p) probs ss) s 0%Q =
  (dict_get ss s 0 + dict_get probs s 0)%Q.
Proof.
  intros Hk. destruct (keys_STRATEGY_NAMES_shape probs Hk) as (a1 & a2 & a3 & a4 & a5 & a6 & ->).
  cbn [fold_left].
  destruct s; repeat (rewrite dd_add_get_ne by discriminate); rewrite dd_add_get_eq;
    repeat (rewrite dd_add_get_ne by discriminate); reflexivity.
Qed.

Lemma update_regrets_catalog sqrt sv selected c :
  keys sv = STRATEGY_NAMES ->
  exists node,
    (forall s, dict_get (regret_sum (update_regrets sqrt sv selected c)) s 0%Q =
               (dict_get (regret_sum c) s 0 + (dict_get sv s 0 - node))%Q) /\
    total_iterations (update_regrets sqrt sv selected c) = (total_iterations c + 1)%Z.
Proof.
  intros Hk.
  assert (Hnd : NoDup (keys sv)) by (rewrite Hk; exact NoDup_STRATEGY_NAMES).
  assert (Hin : forall s, In (s, dict_get sv s 0%Q) sv).
  { destruct (keys_STRATEGY_NAMES_shape sv Hk) as (a1 & a2 & a3 & a4 & a5 & a6 & ->).
    intros s; destruct s; simpl; tauto. }
  destruct sv as [|[s0 v0] rest]; [discriminate|].
  unfold update_regrets. cbv zeta.
  destruct (get_strategy_probabilities_snd (keys ((s0, v0) :: rest)) c) as (rs1 & Hc1 & Hg1).
  destruct (get_strategy_probabilities (keys ((s0, v0) :: rest)) c) as [probs c1].
  cbn [snd] in Hc1. subst c1.
  match goal with
  | |- context [fold_left (regret_update_step ?V) _ _] => set (node := V)
  end.
  destruct (fold_left (regret_update_step node) _ _) as [rs svs] eqn:F.
  destruct (regret_update_fold node _ _ _ _ _ Hnd F) as [H1 _].
  match goal with
  | |- context [track_distance sqrt ?l ?c2] =>
      destruct (track_distance_frame sqrt l c2) as (_ & _ & _ & _ & Hti & Hget)
  end.
  exists node. cbn [regret_sum total_iterations]. split.
  - intros s. rewrite Hget. cbn [regret_sum]. rewrite (H1 s _ (Hin s)).
    cbn [set_regret_sum regret_sum]. rewrite Hg1. reflexivity.
  - rewrite Hti. reflexivity.
Qed.

Lemma evaluate_all_strategies_iter Rng normal simulation_value state n c c' (rng : Rng) :
  total_iterations c = total_iterations c' ->
  evaluate_all_strategies Rng normal simulation_value state n c rng =
  evaluate_all_strategies Rng normal simulation_value state n c' rng.
Proof. intros H. unfold evaluate_all_strategies. rewrite H. reflexivity. Qed.

(** One learning round keeps PARALLEL_CRITICAL on top of the accumulated
    probabilities (tied with SEQUENTIAL_SEVERITY) when it is on top of the
    regrets, and keeps it on top of the regrets when the round's values
    put it there. *)
Lemma cfr_iteration_top sqrt Rng normal choice simulation_value state c (rng rng1 : Rng) sv :
  regret_top c -> sum_top c ->
  evaluate_all_strategies Rng normal simulation_value state 5 c rng = (sv, rng1) ->
  let r := cfr_iteration sqrt Rng normal choice simulation_value state c rng in
  sum_top (snd (fst r)) /\
  (sv_tie sv = true -> regret_top (snd (fst r))) /\
  fst (fst r) = sv /\
  total_iterations (snd (fst r)) = (total_iterations c + 1)%Z /\
  exists l ps, snd r = snd (choice l ps rng1).
Proof.
  intros HR HS Hev r. subst r. unfold cfr_iteration.
  pose proof (evaluate_all_strategies_keys Rng normal simulation_value state 5 c rng) as Hk.
  rewrite Hev in Hk |- *. cbn [fst] in Hk.
  cbv zeta. rewrite Hk.
  pose proof (probs_top c HR) as [Hp1 Hp2].
  destruct (current_policy_catalog c) as (Hpk & _ & _ & _).
  destruct (get_strategy_probabilities_snd STRATEGY_NAMES c) as (rs1 & Hc1 & Hg1).
  destruct (get_strategy_probabilities STRATEGY_NAMES c) as [probs c1].
  cbn [fst snd] in Hp1, Hp2, Hpk, Hc1. subst c1.
  unfold select_strategy.
  destruct (get_strategy_probabilities_snd STRATEGY_NAMES (set_regret_sum c rs1))
    as (rs2 & Hc2 & Hg2).
  destruct (get_strategy_probabilities STRATEGY_NAMES (set_regret_sum c rs1)) as [probs2 c2].
  cbn [snd] in Hc2. subst c2.
  destruct (choice _ _ rng1) as [selected rng2] eqn:Ech.
  cbn [fst snd].
  destruct (update_regrets_catalog sqrt sv selected
              (set_regret_sum (set_regret_sum c rs1) rs2) Hk) as (node & Hreg & Hti).
  destruct (update_regrets_frame sqrt sv selected (set_regret_sum (set_regret_sum c rs1) rs2))
    as [Hss _].
  set (c3 := update_regrets sqrt sv selected _) in *.
  unfold record_iteration. cbn [strategy_sum regret_sum total_iterations].
  destruct HS as [HS1 HS2]. destruct HR as [HR1 HR2].
  split; [|split; [|split; [reflexivity|split]]].
  - unfold sum_top. cbn [strategy_sum]. rewrite Hss. cbn [strategy_sum set_regret_sum]. split.
    + rewrite !record_fold_get by exact Hpk. rewrite HS1, Hp1. reflexivity.
    + intros s. rewrite !record_fold_get by exact Hpk.
      apply Qplus_le_compat; [apply HS2|apply Hp2].
  - intros Htie. unfold sv_tie in Htie. apply andb_prop in Htie as [Ht1 Ht2].
    apply bool_decide_eq_true in Ht1. rewrite forallb_forall in Ht2.
    unfold regret_top. cbn [regret_sum]. split.
    + rewrite !Hreg. cbn [regret_sum set_regret_sum]. rewrite !Hg2, !Hg1, HR1, Ht1. reflexivity.
    + intros s. rewrite !Hreg. cbn [regret_sum set_regret_sum]. rewrite !Hg2, !Hg1.
      specialize (Ht2 s (In_STRATEGY_NAMES s)). apply Qle_bool_iff in Ht2.
      specialize (HR2 s). lra.
  - rewrite Hti. reflexivity.
  - do 2 eexists. rewrite Ech. reflexivity.
Qed.

Lemma round_checks : forallb round_check (seq 0 20) = true.
Proof. vm_compute. reflexivity. Qed.

Lemma round_facts k sv rng1 :
  (k < 20)%nat -> ce_round k = (sv, rng1) ->
  rng1 = Some (None, Sample (1 # 2) :: flat_map np_round (seq (S k) (19 - k))) /\
  (k = 19%nat -> (dict_get sv PARALLEL_CRITICAL 0 < dict_get sv SEQUENTIAL_SEVERITY 0)%Q) /\
  (k <> 19%nat -> sv_tie sv = true).
Proof.
  intros Hk E. pose proof round_checks as H. rewrite forallb_forall in H.
  specialize (H k ltac:(apply in_seq; lia)). unfold round_check in H. rewrite E in H.
  apply andb_prop in H as [H1 H2]. apply bool_decide_eq_true in H1.
  split; [exact H1|]. split.
  - intros ->. apply Qltb_spec. exact H2.
  - intros Hne. apply Nat.eqb_neq in Hne. rewrite Hne in H2. exact H2.
Qed.

Lemma ce_loop n : forall k c sv,
  (k + n = 20)%nat -> regret_top c -> sum_top c -> total_iterations c = Z.of_nat k ->
  let r := cfr_loop py_sqrt np_state np_normal np_choice (sim_value py_sqrt ROOM_POSITIONS)
                    n ce_state sv c (np_tape k) in
  sum_top (snd (fst r)) /\ snd r = Some (None, []) /\
  (n <> 0%nat -> fst (fst r) = fst (ce_round 19)).
Proof.
  induction n as [|n IH]; intros k c sv Hkn HR HS Hti r; subst r.
  - cbn [cfr_loop fst snd]. split; [exact HS|]. split; [|intros H; congruence].
    replace k with 20%nat by lia. reflexivity.
  - cbn [cfr_loop].
    assert (Hev : evaluate_all_strategies np_state np_normal (sim_value py_sqrt ROOM_POSITIONS)
                    ce_state 5 c (np_tape k) = ce_round k)
      by (apply evaluate_all_strategies_iter; rewrite Hti; reflexivity).
    destruct (ce_round k) as [sv1 rng1] eqn:Ecr.
    destruct (round_facts k sv1 rng1 ltac:(lia) Ecr) as (Hrng & _ & Htie).
    destruct (cfr_iteration_top py_sqrt _ np_normal np_choice _ ce_state c (np_tape k) rng1 sv1
                HR HS Hev) as (HS' & HR' & Hsv & Hti' & (l & ps & Hrng2)).
    destruct (cfr_iteration _ _ _ _ _ ce_state c (np_tape k)) as [[sv' c'] rng'] eqn:Eit.
    cbn [fst snd] in HS', HR', Hsv, Hti', Hrng2.
    assert (Hrng' : rng' = np_tape (S k)) by (rewrite Hrng2, Hrng; reflexivity).
    rewrite Hrng'. destruct n as [|n'].
    + cbn [cfr_loop fst snd]. split; [exact HS'|]. split.
      * replace (S k) with 20%nat by lia. reflexivity.
      * intros _. replace k with 19%nat in Ecr by lia. rewrite Ecr. exact Hsv.
    + assert (HR'' : regret_top c') by (apply HR', Htie; lia).
      destruct (IH (S k) c' sv' ltac:(lia) HR'' HS' ltac:(lia)) as (A1 & A2 & A3).
      split; [exact A1|]. split; [exact A2|]. intros _. apply A3. lia.
Qed.

Lemma py_max_by_first_max {A} (f : A -> Q) x xs :
  (forall y, In y xs -> (f y <= f x)%Q) -> py_max_by f x xs = x.
Proof.
  intros Hle. destruct (py_max_by_spec f x xs) as (pre & post & Hd & Hpre & _).
  destruct pre as [|y pre]; [injection Hd; auto|].
  injection Hd as Hxy Hd. subst y. specialize (Hpre x (or_introl eq_refl)).
  assert (Hb : In (py_max_by f x xs) xs).
  { rewrite Hd at 2. apply in_or_app. right. left. reflexivity. }
  specialize (Hle _ Hb). lra.
Qed.

Lemma average_get c s :
  keys (strategy_sum c) = STRATEGY_NAMES -> (0 < sum_list (values (strategy_sum c)))%Q ->
  dict_get (get_average_strategy c) s 0%Q =
  (dict_get (strategy_sum c) s 0 / sum_list (values (strategy_sum c)))%Q.
Proof.
  intros Hk Ht. unfold get_average_strategy.
  apply Qltb_spec in Ht. rewrite Ht.
  destruct (keys_STRATEGY_NAMES_shape _ Hk) as (a1 & a2 & a3 & a4 & a5 & a6 & ->).
  destruct s; reflexivity.
Qed.

Lemma cfr_init_top : regret_top cfr_init /\ sum_top cfr_init.
Proof. split; (split; [reflexivity | intros s; apply Qle_refl]). Qed.

Lemma ce_simulator_runs s :
  exists l m, simulator_run py_sqrt ROOM_POSITIONS ce_state s = inr (l, m).
Proof.
  assert (H : forallb (fun s => match simulator_run py_sqrt ROOM_POSITIONS ce_state s with
                                | inr _ => true | inl _ => false end) STRATEGY_NAMES = true)
    by (vm_compute; reflexivity).
  rewrite forallb_forall in H. specialize (H s (In_STRATEGY_NAMES s)).
  destruct (simulator_run _ _ _ _) as [e|[l m]]; [discriminate|]. eauto.
Qed.

(** C1 counterexample: one Critical patient, the fresh learner, the
    simulator's own values (171 for [PARALLEL_CRITICAL],
    [SEQUENTIAL_SEVERITY] and [COOPERATIVE_ALL]; -86, -88 and -84 for
    the other three), and numpy's generator on a stream of uniform draws
    in which each Gaussian pair [legacy_gauss] consumes is made of two
    equal draws, so that both members of the pair are equal (280 words of
    the Mersenne twister in all, which its 623-dimensional
    equidistribution lets it output).  The first two strategies of the
    catalog get the same noise in every round until the last one, so
    they stay tied at the top of the accumulated probabilities; in the
    last round [SEQUENTIAL_SEVERITY] gets the higher value, yet the
    bundle names [PARALLEL_CRITICAL], the first of the two in catalog
    order. *)
Lemma plan_tie_not_broken_by_latest_value :
  ce_analyzer = snd (spawn_patient Critical
                       {| cfr := cfr_init; patient_counter := 0; current_state := None |}) /\
  (forall s, exists l m, simulator_run py_sqrt ROOM_POSITIONS ce_state s = inr (l, m)) /\
  exists r a' rng',
    analyze_and_plan py_sqrt np_state np_normal np_choice (sim_value py_sqrt ROOM_POSITIONS)
                     ce_analyzer (np_tape 0) = Some (r, a', rng') /\
    rng' = Some (None, []) /\
    assignment_strategy r = ASSIGNED PARALLEL_CRITICAL /\
    dict_get (get_average_strategy (cfr a')) SEQUENTIAL_SEVERITY 0%Q =
    dict_get (get_average_strategy (cfr a')) PARALLEL_CRITICAL 0%Q /\
    (forall s, dict_get (get_average_strategy (cfr a')) s 0 <=
               dict_get (get_average_strategy (cfr a')) PARALLEL_CRITICAL 0)%Q /\
    exists sv, assignment_all_strategy_values r = Some sv /\
      (dict_get sv PARALLEL_CRITICAL 0 < dict_get sv SEQUENTIAL_SEVERITY 0)%Q.
Proof.
  split; [reflexivity|]. split; [exact ce_simulator_runs|].
  unfold analyze_and_plan.
  assert (Hst : current_state ce_analyzer = Some ce_state) by reflexivity.
  assert (Hp : patients ce_state = [ex_patient]) by reflexivity.
  assert (Hc : cfr ce_analyzer = cfr_init) by reflexivity.
  rewrite Hst, Hp, Hc. cbv beta iota. unfold NUM_CFR_ITERATIONS.
  destruct cfr_init_top as [HR0 HS0].
  destruct (ce_loop 20 0 cfr_init [] eq_refl HR0 HS0 eq_refl) as (HS & Hrng & Hsv).
  destruct (cfr_loop_S py_sqrt np_state np_normal np_choice (sim_value py_sqrt ROOM_POSITIONS)
              19 ce_state [] cfr_init (np_tape 0) cfr_reachable_init) as (c0 & rng0 & Hr0 & Ec).
  destruct (cfr_loop _ _ _ _ _ 20 ce_state [] cfr_init (np_tape 0)) as [[sv c] rng'] eqn:E.
  cbn [fst snd] in HS, Hrng, Hsv, Ec.
  specialize (Hsv ltac:(discriminate)).
  destruct (cfr_iteration_inv py_sqrt np_state np_normal np_choice (sim_value py_sqrt ROOM_POSITIONS)
              ce_state c0 rng0 (cfr_reachable_inv _ Hr0)) as (Hk & _ & Hs1 & _).
  rewrite <- Ec in Hk, Hs1.
  assert (Ht : (0 < sum_list (values (strategy_sum c)))%Q) by lra.
  destruct HS as [HS1 HS2].
  assert (Havg : forall s, dict_get (get_average_strategy c) s 0%Q =
                   (dict_get (strategy_sum c) s 0 / sum_list (values (strategy_sum c)))%Q)
    by (intros s; apply average_get; assumption).
  assert (Htop : forall s, (dict_get (get_average_strategy c) s 0 <=
                            dict_get (get_average_strategy c) PARALLEL_CRITICAL 0)%Q).
  { intros s. rewrite !Havg. unfold Qdiv. apply Qmult_le_compat_r; [apply HS2|].
    apply Qlt_le_weak, Qinv_lt_0_compat, Ht. }
  assert (Hsel : final_selection (get_average_strategy c) sv = Some PARALLEL_CRITICAL).
  { unfold get_average_strategy. apply Qltb_spec in Ht. rewrite Ht.
    destruct (keys_STRATEGY_NAMES_shape _ Hk) as (a1 & a2 & a3 & a4 & a5 & a6 & Ea).
    rewrite Ea. cbn [final_selection map]. f_equal. apply py_max_by_first_max.
    intros y _. pose proof (Htop y) as Hy.
    unfold get_average_strategy in Hy. rewrite Ht, Ea in Hy. destruct y; exact Hy. }
  rewrite Hsel.
  destruct (generate_unity_commands ce_state PARALLEL_CRITICAL) as [nurse doctor].
  eexists _, _, _. split; [reflexivity|]. cbn [cfr assignment_strategy assignment_all_strategy_values].
  split; [exact Hrng|]. split; [reflexivity|]. split.
  - rewrite !Havg, HS1. reflexivity.
  - split; [exact Htop|]. exists sv. split; [reflexivity|].
    destruct (ce_round 19) as [sv19 rng19] eqn:E19. cbn [fst] in Hsv. subst sv19.
    exact (proj1 (proj2 (round_facts 19 sv rng19 ltac:(lia) E19)) eq_refl).
Qed.

(** ** Claims C4 and C5: the plan compiler *)

Lemma treat_rooms_app i (l1 l2 : list command) :
  treat_rooms i (l1 ++ l2) = treat_rooms i l1 ++ treat_rooms i l2.
Proof. unfold treat_rooms. rewrite filter_app, map_app. reflexivity. Qed.

Lemma nurse_covered_app (l1 l2 : list command) :
  nurse_covered (l1 ++ l2) = nurse_covered l1 ++ nurse_covered l2.
Proof. unfold nurse_covered. rewrite filter_app, map_app. reflexivity. Qed.

Lemma treat_rooms_escort_treat i p room from :
  treat_rooms i (escort_treat p room from) = if Z.eqb (pid p) i then [room] else [].
Proof. unfold treat_rooms, escort_treat. cbn. destruct (Z.eqb (pid p) i); reflexivity. Qed.

Lemma treat_rooms_leave i p room : treat_rooms i [leave_cmd p room] = [].
Proof. reflexivity. Qed.

Lemma nurse_covered_escort_treat p room from :
  nurse_covered (escort_treat p room from) = if Z.ltb 0 (pid p) then [pid p; pid p] else [].
Proof.
  unfold nurse_covered, escort_treat.
  assert (H1 : bool_decide (ESCORT ∈ [ESCORT; TREAT]) = true) by reflexivity.
  assert (H2 : bool_decide (TREAT ∈ [ESCORT; TREAT]) = true) by reflexivity.
  cbn. rewrite H1, H2. destruct (Z.ltb 0 (pid p)); reflexivity.
Qed.

Lemma nurse_covered_leave p room : nurse_covered [leave_cmd p room] = [].
Proof. unfold nurse_covered, leave_cmd. vm_compute. reflexivity. Qed.

Lemma in_covered_pair p j :
  In j (if Z.ltb 0 (pid p) then [pid p; pid p] else []) <-> j = pid p /\ (0 < pid p)%Z.
Proof. destruct (Z.ltb_spec 0 (pid p)); simpl; intuition (subst; try lia). Qed.

(** What one room adds to the two lists. *)
Lemma compile_room_extra strat p cs room :
  exists xn xd,
    cs_nurse (compile_room strat p cs room) = cs_nurse cs ++ xn /\
    cs_doctor (compile_room strat p cs room) = cs_doctor cs ++ xd /\
    (forall i, treat_rooms i xn =
       if nurse_treats strat p room then (if Z.eqb (pid p) i then [room] else []) else []) /\
    (forall i, treat_rooms i xd =
       if doctor_treats strat p room then (if Z.eqb (pid p) i then [room] else []) else []) /\
    (forall j, In j (nurse_covered xn) <->
       j = pid p /\ (0 < pid p)%Z /\ nurse_treats strat p room = true).
Proof.
  unfold compile_room, nurse_treats, doctor_treats.
  destruct (bool_decide (ptype p = Critical)) eqn:Hc;
  destruct (decide (room = "TRIAGE")) as [Ht|Ht];
  try (rewrite (bool_decide_eq_true_2 _ Ht)); try (rewrite (bool_decide_eq_false_2 _ Ht));
  destruct (bool_decide (room ∈ ["TB"; "ICU"]));
  destruct strat; cbn -[escort_treat leave_cmd app];
  eexists _, _;
  (split; [first [reflexivity | symmetry; apply app_nil_r] |]);
  (split; [first [reflexivity | symmetry; apply app_nil_r] |]);
  repeat split; intros;
  rewrite ?treat_rooms_app, ?nurse_covered_app, ?treat_rooms_escort_treat, ?treat_rooms_leave,
    ?nurse_covered_escort_treat, ?nurse_covered_leave, ?app_nil_r in *;
  try reflexivity;
  try (apply in_covered_pair in H; tauto);
  try (apply in_covered_pair; tauto);
  try (simpl in H; tauto);
  try (destruct H as (_ & _ & H); discriminate).
Qed.

(** What the rooms of one patient add to the two lists. *)
Lemma compile_rooms_extra strat p rooms cs :
  exists xn xd,
    cs_nurse (fold_left (compile_room strat p) rooms cs) = cs_nurse cs ++ xn /\
    cs_doctor (fold_left (compile_room strat p) rooms cs) = cs_doctor cs ++ xd /\
    (forall i, treat_rooms i xn =
       if Z.eqb (pid p) i then filter (fun r => nurse_treats strat p r) rooms else []) /\
    (forall i, treat_rooms i xd =
       if Z.eqb (pid p) i then filter (fun r => doctor_treats strat p r) rooms else []) /\
    (forall j, In j (nurse_covered xn) <->
       j = pid p /\ (0 < pid p)%Z /\ exists r, In r rooms /\ nurse_treats strat p r = true).
Proof.
  revert cs. induction rooms as [|room rooms IH]; intros cs.
  - exists [], []. rewrite !app_nil_r. split; [reflexivity|]. split; [reflexivity|].
    split; [|split].
    + intros i. destruct (Z.eqb (pid p) i); reflexivity.
    + intros i. destruct (Z.eqb (pid p) i); reflexivity.
    + intros j. simpl. split; [tauto | intros (_ & _ & r & [] & _)].
  - simpl. destruct (compile_room_extra strat p cs room) as (x1 & y1 & Hn1 & Hd1 & Tn1 & Td1 & C1).
    destruct (IH (compile_room strat p cs room)) as (x2 & y2 & Hn2 & Hd2 & Tn2 & Td2 & C2).
    exists (x1 ++ x2), (y1 ++ y2).
    rewrite Hn2, Hd2, Hn1, Hd1, !app_assoc. split; [reflexivity|]. split; [reflexivity|].
    split; [|split].
    + intros i. rewrite treat_rooms_app, Tn1, Tn2, filter_cons.
      destruct (nurse_treats strat p room) eqn:E; destruct (Z.eqb (pid p) i); reflexivity.
    + intros i. rewrite treat_rooms_app, Td1, Td2, filter_cons.
      destruct (doctor_treats strat p room) eqn:E; destruct (Z.eqb (pid p) i); reflexivity.
    + intros j. rewrite nurse_covered_app, in_app_iff, C1, C2. split.
      * intros [(-> & Hp & Ht) | (-> & Hp & r & Hr & Ht)];
          repeat split; try assumption; [exists room | exists r]; simpl; tauto.
      * intros (-> & Hp & r & [<- | Hr] & Ht); [left | right]; repeat split; try assumption.
        exists r. tauto.
Qed.

(** What one patient adds to the two lists. *)
Lemma compile_patient_extra strat cs p :
  exists xn xd,
    cs_nurse (compile_patient strat cs p) = cs_nurse cs ++ xn /\
    cs_doctor (compile_patient strat cs p) = cs_doctor cs ++ xd /\
    (forall i, treat_rooms i xn =
       if Z.eqb (pid p) i then filter (fun r => nurse_treats strat p r) (pathway p) else []) /\
    (forall i, treat_rooms i xd =
       if Z.eqb (pid p) i then filter (fun r => doctor_treats strat p r) (pathway p) else []) /\
    (forall j, In j (nurse_covered xn) <->
       j = pid p /\ (0 < pid p)%Z /\
       exists r, In r (pathway p) /\ nurse_treats strat p r = true).
Proof.
  unfold compile_patient.
  destruct (compile_rooms_extra strat p (pathway p)
              {| cs_nurse := cs_nurse cs; cs_doctor := cs_doctor cs;
                 cs_locations := cs_locations cs; cs_has_doctor := false |})
    as (xn & xd & Hn & Hd & Tn & Td & C).
  simpl in Hn, Hd.
  match goal with |- context [if ?b then _ else _] => destruct b end.
  - exists xn, (xd ++ [leave_cmd p "ICU"]). simpl. rewrite Hn, Hd, app_assoc.
    split; [reflexivity|]. split; [reflexivity|]. split; [exact Tn|]. split; [|exact C].
    intros i. rewrite treat_rooms_app, treat_rooms_leave, app_nil_r. apply Td.
  - exists xn, xd. simpl. rewrite Hn, Hd. auto.
Qed.

(** What the whole roster adds to the two lists. *)
Lemma compile_patients_extra strat ps cs :
  exists xn xd,
    cs_nurse (fold_left (compile_patient strat) ps cs) = cs_nurse cs ++ xn /\
    cs_doctor (fold_left (compile_patient strat) ps cs) = cs_doctor cs ++ xd /\
    (forall i, treat_rooms i xn =
       flat_map (fun p => if Z.eqb (pid p) i
                          then filter (fun r => nurse_treats strat p r) (pathway p) else []) ps) /\
    (forall i, treat_rooms i xd =
       flat_map (fun p => if Z.eqb (pid p) i
                          then filter (fun r => doctor_treats strat p r) (pathway p) else []) ps) /\
    (forall j, In j (nurse_covered xn) <->
       exists p, In p ps /\ j = pid p /\ (0 < pid p)%Z /\
                 exists r, In r (pathway p) /\ nurse_treats strat p r = true).
Proof.
  revert cs. induction ps as [|p ps IH]; intros cs.
  - exists [], []. rewrite !app_nil_r. split; [reflexivity|]. split; [reflexivity|].
    split; [reflexivity|]. split; [reflexivity|].
    intros j. simpl. split; [tauto | intros (p & [] & _)].
  - simpl. destruct (compile_patient_extra strat cs p) as (x1 & y1 & Hn1 & Hd1 & Tn1 & Td1 & C1).
    destruct (IH (compile_patient strat cs p)) as (x2 & y2 & Hn2 & Hd2 & Tn2 & Td2 & C2).
    exists (x1 ++ x2), (y1 ++ y2).
    rewrite Hn2, Hd2, Hn1, Hd1, !app_assoc. split; [reflexivity|]. split; [reflexivity|].
    split; [|split].
    + intros i. rewrite treat_rooms_app, Tn1, Tn2. reflexivity.
    + intros i. rewrite treat_rooms_app, Td1, Td2. reflexivity.
    + intros j. rewrite nurse_covered_app, in_app_iff, C1, C2. split.
      * intros [H | (q & Hq & H)]; [exists p | exists q]; simpl; tauto.
      * intros (q & [<- | Hq] & H); [left; exact H | right; exists q; tauto].
Qed.

(** The primary lists of [_generate_unity_commands]. *)
Lemma primary_commands_extra st strat :
  let '(nurse, doctor) := primary_commands st strat in
  (forall i, treat_rooms i nurse =
     flat_map (fun p => if Z.eqb (pid p) i
                        then filter (fun r => nurse_treats strat p r) (pathway p) else [])
              (compile_order st strat)) /\
  (forall i, treat_rooms i doctor =
     flat_map (fun p => if Z.eqb (pid p) i
                        then filter (fun r => doctor_treats strat p r) (pathway p) else [])
              (compile_order st strat)) /\
  (forall j, In j (nurse_covered nurse) <->
     exists p, In p (compile_order st strat) /\ j = pid p /\ (0 < pid p)%Z /\
               exists r, In r (pathway p) /\ nurse_treats strat p r = true).
Proof.
  unfold primary_commands.
  match goal with |- context [fold_left (compile_patient strat) ?ps ?cs] =>
    destruct (compile_patients_extra strat ps cs) as (xn & xd & Hn & Hd & Tn & Td & C) end.
  simpl in Hn, Hd. rewrite Hn, Hd. auto.
Qed.

Lemma insert_by_perm {A} (k : A -> Q) x l : Permutation (insert_by k x l) (x :: l).
Proof.
  induction l as [|y l IH]; simpl; [reflexivity|].
  destruct (Qle_bool (k x) (k y)); [reflexivity|].
  rewrite IH. apply perm_swap.
Qed.

Lemma py_sorted_perm {A} (k : A -> Q) l : Permutation (py_sorted k l) l.
Proof.
  induction l as [|x l IH]; simpl; [reflexivity|].
  rewrite insert_by_perm, IH. reflexivity.
Qed.

Lemma compile_order_perm st strat : Permutation (compile_order st strat) (patients st).
Proof.
  unfold compile_order. destruct (decide _); [apply py_sorted_perm | reflexivity].
Qed.

Lemma compile_order_ids st strat :
  NoDup (map pid (patients st)) ->
  NoDup (map pid (compile_order st strat)) /\
  (forall p, In p (compile_order st strat) <-> In p (patients st)).
Proof.
  intros Hnd. pose proof (compile_order_perm st strat) as Hp. split.
  - apply NoDup_ListNoDup. apply NoDup_ListNoDup in Hnd.
    apply (Permutation_NoDup (Permutation_map pid (Permutation_sym Hp))). exact Hnd.
  - intros p. split; apply Permutation_in; [exact Hp | apply Permutation_sym, Hp].
Qed.

(** Distinct ids identify the patient. *)
Lemma NoDup_map_pid_inj (ps : list Patient) p q :
  NoDup (map pid ps) -> In p ps -> In q ps -> pid p = pid q -> p = q.
Proof.
  induction ps as [|x ps IH]; intros Hnd Hp Hq Heq; [destruct Hp|].
  simpl in Hnd. apply NoDup_cons in Hnd as [Hx Hnd].
  destruct Hp as [<- | Hp], Hq as [<- | Hq]; try reflexivity.
  - exfalso. apply Hx. apply list_elem_of_In. rewrite Heq. apply in_map, Hq.
  - exfalso. apply Hx. apply list_elem_of_In. rewrite <- Heq. apply in_map, Hp.
  - exact (IH Hnd Hp Hq Heq).
Qed.

(** A [flat_map] that only the elements equal to [i] contribute to. *)
Lemma flat_map_all_nil {A B} (F : A -> list B) (l : list A) :
  (forall x, In x l -> F x = []) -> flat_map F l = [].
Proof.
  induction l as [|x l IH]; intros H; simpl; [reflexivity|].
  rewrite (H x (or_introl eq_refl)), IH; [reflexivity|]. intros y Hy. apply H. right. exact Hy.
Qed.

Lemma flat_map_single {A B} `{EqDecision A} (F : A -> list B) (l : list A) i :
  NoDup l -> (forall j, j <> i -> F j = []) ->
  flat_map F l = if decide (i ∈ l) then F i else [].
Proof.
  induction l as [|x l IH]; intros Hnd HF; simpl.
  - destruct (decide (i ∈ [])) as [H|]; [apply elem_of_nil in H; contradiction | reflexivity].
  - apply NoDup_cons in Hnd as [Hx Hnd]. rewrite (IH Hnd HF).
    destruct (decide (i ∈ x :: l)) as [H1|H1], (decide (i ∈ l)) as [H2|H2];
      rewrite elem_of_cons in H1.
    + destruct H1 as [-> | _]; [contradiction|]. rewrite (HF x); [reflexivity|].
      intros ->. contradiction.
    + destruct H1 as [-> | H1]; [apply app_nil_r | contradiction].
    + exfalso. apply H1. right. exact H2.
    + rewrite (HF x); [reflexivity|]. intros ->. apply H1. left. reflexivity.
Qed.

Lemma flat_map_pid_unique {B} (g : Patient -> list B) ps p :
  NoDup (map pid ps) -> In p ps ->
  flat_map (fun q => if Z.eqb (pid q) (pid p) then g q else []) ps = g p.
Proof.
  intros Hnd Hp. induction ps as [|x ps IH]; [destruct Hp|].
  simpl. pose proof Hnd as Hnd'. simpl in Hnd'. apply NoDup_cons in Hnd' as [Hx Hnd'].
  destruct (Z.eqb_spec (pid x) (pid p)) as [E|E].
  - assert (x = p) as <- by (apply (NoDup_map_pid_inj (x :: ps)); simpl; auto).
    enough (flat_map (fun q => if Z.eqb (pid q) (pid x) then g q else []) ps = [])
      as -> by apply app_nil_r.
    apply flat_map_all_nil. intros q Hq.
    destruct (Z.eqb_spec (pid q) (pid x)) as [E'|]; [|reflexivity].
    exfalso. apply Hx, list_elem_of_In. rewrite <- E'. apply in_map, Hq.
  - destruct Hp as [<- | Hp]; [congruence|]. simpl. exact (IH Hnd' Hp).
Qed.

Lemma filter_bool_all (f : string -> bool) l :
  (forall x, In x l -> f x = true) -> filter (fun x => f x) l = l.
Proof.
  induction l as [|x l IH]; intros H; [reflexivity|].
  rewrite filter_cons. rewrite (H x (or_introl eq_refl)).
  destruct (decide _) as [_|n]; [|exfalso; apply n; exact I].
  f_equal. apply IH. intros y Hy. apply H. right. exact Hy.
Qed.

Lemma filter_bool_none (f : string -> bool) l :
  (forall x, In x l -> f x = false) -> filter (fun x => f x) l = [].
Proof.
  induction l as [|x l IH]; intros H; [reflexivity|].
  rewrite filter_cons. rewrite (H x (or_introl eq_refl)).
  destruct (decide _) as [i|_]; [destruct i|].
  apply IH. intros y Hy. apply H. right. exact Hy.
Qed.

Lemma treat_rooms_ensure_nonempty i cmds :
  treat_rooms i (ensure_nonempty cmds) = treat_rooms i cmds.
Proof. destruct cmds; reflexivity. Qed.

Lemma treat_rooms_fallback i ps missing :
  treat_rooms i (fallback_commands ps missing) =
  flat_map (fun j => match list_find (fun q => pid q = j) ps with
                     | Some (_, q) => if Z.eqb j i then pathway q else []
                     | None => []
                     end) missing.
Proof.
  unfold fallback_commands. induction missing as [|j missing IH]; [reflexivity|].
  cbn [flat_map]. rewrite treat_rooms_app, IH. f_equal.
  destruct (list_find _ ps) as [[k q]|]; [|reflexivity].
  induction (pathway q) as [|room rooms IHr]; cbn [flat_map].
  - destruct (Z.eqb j i); reflexivity.
  - rewrite treat_rooms_app, IHr.
    replace (treat_rooms i _) with (if Z.eqb j i then [room] else [])
      by (unfold treat_rooms; cbn; destruct (Z.eqb j i); reflexivity).
    destruct (Z.eqb j i); reflexivity.
Qed.

(** Every room goes to the nurse or to the doctor. *)
Lemma treats_cover strat p r : nurse_treats strat p r || doctor_treats strat p r = true.
Proof.
  destruct strat; simpl; try reflexivity;
    destruct (bool_decide _); reflexivity.
Qed.

(** The patients reported missing by the verification pass. *)
Lemma missing_patients_iff st strat i :
  In i (missing_patients st strat) <->
  (exists p, In p (compile_order st strat) /\ pid p = i) /\
  ~ (exists p, In p (compile_order st strat) /\ i = pid p /\ (0 < pid p)%Z /\
               exists r, In r (pathway p) /\ nurse_treats strat p r = true).
Proof.
  unfold missing_patients. pose proof (primary_commands_extra st strat) as H.
  destruct (primary_commands st strat) as [nurse doctor]. destruct H as (_ & _ & C).
  rewrite <- C. split.
  - intros H. apply list_elem_of_In, list_elem_of_filter in H as [Hf Hr].
    apply elem_of_remove_dups, list_elem_of_In, in_map_iff in Hr as (p & Hp & Hin).
    split; [exists p; tauto|]. intros Hc.
    destruct (bool_decide (i ∈ nurse_covered nurse)) eqn:E; [exact Hf|].
    apply bool_decide_eq_false_1 in E. apply E, list_elem_of_In, Hc.
  - intros [(p & Hp & Hin) Hn]. apply list_elem_of_In, list_elem_of_filter. split.
    + destruct (bool_decide (i ∈ nurse_covered nurse)) eqn:E; [|exact I].
      apply bool_decide_eq_true_1, list_elem_of_In in E. contradiction.
    + apply elem_of_remove_dups, list_elem_of_In, in_map_iff. exists p. tauto.
Qed.

Lemma NoDup_missing_patients st strat : NoDup (missing_patients st strat).
Proof.
  unfold missing_patients. destruct (primary_commands st strat).
  apply NoDup_filter, NoDup_remove_dups.
Qed.

Lemma flat_map_pid_filter (f : Patient -> string -> bool) ps p :
  NoDup (map pid ps) -> In p ps ->
  flat_map (fun q => if Z.eqb (pid q) (pid p) then filter (fun r => f q r) (pathway q) else []) ps =
  filter (fun r => f p r) (pathway p).
Proof. intros Hnd Hp. exact (flat_map_pid_unique (fun q => filter (fun r => f q r) (pathway q)) ps p Hnd Hp). Qed.

(** C4 (confirmed): on a roster with distinct patient ids (the service
    numbers patients 1, 2, 3, ...), for each of the six strategies and
    each patient [p], the rooms of the TREAT commands for [p] in the
    nurse list are an in-order selection of [p]'s pathway, and so are
    those of the doctor list, and every pathway location is selected in
    at least one of the two: the two lists together treat [p] at each
    location of its pathway, in pathway order.  This holds for the
    primary generation alone (repair pass disabled) and, for a patient
    with a positive id, for the compiled lists with the repair pass. *)
Theorem compiled_plans_cover_pathways (st : GameState) (strat : strategy) (p : Patient) :
  NoDup (map pid (patients st)) -> In p (patients st) ->
  (let '(nurse, doctor) := generate_unity_commands_no_repair st strat in
   exists fN fD : string -> bool,
     (forall r, In r (pathway p) -> fN r || fD r = true) /\
     treat_rooms (pid p) nurse = filter (fun r => fN r) (pathway p) /\
     treat_rooms (pid p) doctor = filter (fun r => fD r) (pathway p)) /\
  ((0 < pid p)%Z ->
   let '(nurse, doctor) := generate_unity_commands st strat in
   exists fN fD : string -> bool,
     (forall r, In r (pathway p) -> fN r || fD r = true) /\
     treat_rooms (pid p) nurse = filter (fun r => fN r) (pathway p) /\
     treat_rooms (pid p) doctor = filter (fun r => fD r) (pathway p)).
Proof.
  intros Hnd Hp. destruct (compile_order_ids st strat Hnd) as [Hnd' Hin].
  assert (Hp' : In p (compile_order st strat)) by (apply Hin, Hp).
  pose proof (missing_patients_iff st strat (pid p)) as Hm.
  pose proof (NoDup_missing_patients st strat) as Hmd.
  assert (HF : treat_rooms (pid p) (fallback_commands (compile_order st strat)
                                      (missing_patients st strat)) =
               if decide (pid p ∈ missing_patients st strat) then pathway p else []).
  { rewrite treat_rooms_fallback, (flat_map_single _ _ (pid p) Hmd).
    - destruct (decide _); [|reflexivity].
      destruct (list_find_elem_of (fun q => pid q = pid p) (compile_order st strat) p)
        as [[k q] Hq]; [apply list_elem_of_In, Hp' | reflexivity |].
      rewrite Hq. apply list_find_Some in Hq as (Hl & Hpq & _). rewrite Z.eqb_refl.
      apply list_elem_of_lookup_2, list_elem_of_In in Hl.
      rewrite (NoDup_map_pid_inj _ q p Hnd' Hl Hp' Hpq). reflexivity.
    - intros j Hj. destruct (list_find _ _) as [[k q]|]; [|reflexivity].
      destruct (Z.eqb_spec j (pid p)); [contradiction | reflexivity]. }
  unfold generate_unity_commands_no_repair, generate_unity_commands.
  pose proof (primary_commands_extra st strat) as Hx.
  destruct (primary_commands st strat) as [nurse doctor]. destruct Hx as (Tn & Td & _).
  specialize (Tn (pid p)). specialize (Td (pid p)).
  rewrite (flat_map_pid_filter (nurse_treats strat) _ p Hnd' Hp') in Tn.
  rewrite (flat_map_pid_filter (doctor_treats strat) _ p Hnd' Hp') in Td.
  split; [|intros Hpos].
  - exists (nurse_treats strat p), (doctor_treats strat p).
    split; [intros r _; apply treats_cover|].
    rewrite !treat_rooms_ensure_nonempty. auto.
  - rewrite !treat_rooms_ensure_nonempty, treat_rooms_app, HF, Tn, Td.
    destruct (decide (pid p ∈ missing_patients st strat)) as [Hmis | Hmis].
    + apply list_elem_of_In, Hm in Hmis as [_ Hnot].
      exists (fun _ => true), (doctor_treats strat p).
      split; [intros; reflexivity|]. split; [|reflexivity].
      rewrite filter_bool_none, filter_bool_all; [reflexivity | reflexivity|].
      intros r Hr. destruct (nurse_treats strat p r) eqn:E; [|reflexivity].
      exfalso. apply Hnot. exists p. repeat split; try assumption. exists r. tauto.
    + exists (nurse_treats strat p), (doctor_treats strat p).
      split; [intros r _; apply treats_cover|]. rewrite app_nil_r. auto.
Qed.

(** C4 witness: the one-patient roster, with the repair pass. *)
Lemma compiled_plans_cover_pathways_witness :
  NoDup (map pid (patients ce_state)) /\ In ex_patient (patients ce_state) /\
  (0 < pid ex_patient)%Z /\
  (let '(nurse, doctor) := generate_unity_commands ce_state DOCTOR_CRITICAL_NURSE_OTHERS in
   exists fN fD : string -> bool,
     (forall r, In r (pathway ex_patient) -> fN r || fD r = true) /\
     treat_rooms (pid ex_patient) nurse = filter (fun r => fN r) (pathway ex_patient) /\
     treat_rooms (pid ex_patient) doctor = filter (fun r => fD r) (pathway ex_patient)).
Proof.
  assert (H1 : NoDup (map pid (patients ce_state))) by apply NoDup_singleton.
  assert (H2 : In ex_patient (patients ce_state)) by (left; reflexivity).
  split; [exact H1|]. split; [exact H2|]. split; [reflexivity|].
  apply (proj2 (compiled_plans_cover_pathways ce_state DOCTOR_CRITICAL_NURSE_OTHERS
                  ex_patient H1 H2)).
  reflexivity.
Defined.

(** C5 (corrected): on a roster the service builds (distinct positive
    ids, catalog pathways), the verification pass reports patient [i]
    missing exactly when the strategy is DOCTOR_CRITICAL_NURSE_OTHERS and
    [i] is a Critical patient of the roster (whose commands all go to
    the doctor); for the other five strategies it never fires. *)
Theorem verification_pass_fires_iff (st : GameState) (strat : strategy) (i : Z) :
  NoDup (map pid (patients st)) ->
  (forall p, In p (patients st) -> (0 < pid p)%Z /\ pathway p = PATHWAYS (ptype p)) ->
  (In i (missing_patients st strat) <->
   strat = DOCTOR_CRITICAL_NURSE_OTHERS /\
   exists p, In p (patients st) /\ pid p = i /\ ptype p = Critical).
Proof.
  intros Hnd Hok. destruct (compile_order_ids st strat Hnd) as [Hnd' Hin].
  rewrite missing_patients_iff. split.
  - intros [(p & Hp & <-) Hn]. pose proof Hp as Hp'. apply Hin in Hp'.
    destruct (Hok p Hp') as [Hpos Hpw].
    assert (Ht : nurse_treats strat p "TRIAGE" = false).
    { destruct (nurse_treats strat p "TRIAGE") eqn:E; [|reflexivity].
      exfalso. apply Hn. exists p. repeat split; try assumption. exists "TRIAGE".
      split; [rewrite Hpw; destruct (ptype p); simpl; tauto | exact E]. }
    destruct strat; simpl in Ht; try discriminate; try (vm_compute in Ht; discriminate).
    split; [reflexivity|]. exists p. repeat split; try assumption.
    destruct (ptype p); [reflexivity | vm_compute in Ht; discriminate ..].
  - intros [-> (p & Hp & <- & Hc)]. pose proof Hp as Hp'. apply Hin in Hp'. split.
    + exists p. split; [exact Hp' | reflexivity].
    + intros (q & Hq & Heq & _ & r & _ & Ht).
      rewrite (NoDup_map_pid_inj _ q p Hnd' Hq Hp' (eq_sym Heq)) in Ht.
      simpl in Ht. rewrite Hc in Ht. vm_compute in Ht. discriminate.
Qed.

(** C5 witness: the Critical patient of the one-patient roster. *)
Lemma verification_pass_fires_iff_witness :
  NoDup (map pid (patients ce_state)) /\
  (forall p, In p (patients ce_state) -> (0 < pid p)%Z /\ pathway p = PATHWAYS (ptype p)) /\
  In 1%Z (missing_patients ce_state DOCTOR_CRITICAL_NURSE_OTHERS).
Proof.
  assert (H1 : NoDup (map pid (patients ce_state))) by apply NoDup_singleton.
  assert (H2 : forall p, In p (patients ce_state) ->
                 (0 < pid p)%Z /\ pathway p = PATHWAYS (ptype p))
    by (intros p [<- | []]; split; reflexivity).
  split; [exact H1|]. split; [exact H2|].
  apply (verification_pass_fires_iff ce_state DOCTOR_CRITICAL_NURSE_OTHERS 1 H1 H2).
  split; [reflexivity|]. exists ex_patient. split; [left; reflexivity|]. split; reflexivity.
Defined.

(** C5 counterexample: for the one-patient roster (a Critical patient,
    id 1) under DOCTOR_CRITICAL_NURSE_OTHERS the verification pass
    reports patient 1 missing, so fallback commands are synthesised. *)
Lemma verification_pass_fires_critical :
  missing_patients ce_state DOCTOR_CRITICAL_NURSE_OTHERS = [1%Z] /\
  fallback_commands (compile_order ce_state DOCTOR_CRITICAL_NURSE_OTHERS)
                    (missing_patients ce_state DOCTOR_CRITICAL_NURSE_OTHERS) <> [].
Proof. split; vm_compute; [reflexivity | discriminate]. Qed.

(* ================================================================= *)

(** ** The analyzer's roster operations *)

Lemma step_patient_fields_frame p :
  pid (step_patient_fields p) = pid p /\ ptype (step_patient_fields p) = ptype p /\
  pathway (step_patient_fields p) = pathway p.
Proof. unfold step_patient_fields. destruct (is_complete p); auto. Qed.

Lemma step_roster_ids i ps : map pid (fst (step_patient_roster i ps)) = map pid ps.
Proof.
  induction ps as [|p ps IH]; simpl; [reflexivity|].
  destruct (Z.eqb (pid p) i).
  - simpl. f_equal. apply step_patient_fields_frame.
  - destruct (step_patient_roster i ps) as [ps' b]. simpl in *. f_equal. exact IH.
Qed.

Lemma step_roster_notin i ps : ~ In i (map pid ps) -> step_patient_roster i ps = (ps, false).
Proof.
  induction ps as [|p ps IH]; intros Hn; simpl; [reflexivity|].
  destruct (Z.eqb_spec (pid p) i) as [E|E]; [exfalso; apply Hn; left; exact E|].
  rewrite IH by (intros H; apply Hn; right; exact H). reflexivity.
Qed.

Lemma step_roster_split i pre p post :
  ~ In i (map pid pre) -> pid p = i ->
  step_patient_roster i (pre ++ p :: post) =
    (pre ++ step_patient_fields p :: post, is_complete (step_patient_fields p)).
Proof.
  intros Hn Hp. induction pre as [|q pre IH]; simpl.
  - rewrite Hp, Z.eqb_refl. reflexivity.
  - destruct (Z.eqb_spec (pid q) i) as [E|E]; [exfalso; apply Hn; left; exact E|].
    rewrite IH by (intros H; apply Hn; right; exact H). reflexivity.
Qed.

Lemma step_roster_cases i ps :
  (~ In i (map pid ps) /\ step_patient_roster i ps = (ps, false)) \/
  (exists pre p post, ps = pre ++ p :: post /\ ~ In i (map pid pre) /\ pid p = i /\
     step_patient_roster i ps =
       (pre ++ step_patient_fields p :: post, is_complete (step_patient_fields p))).
Proof.
  induction ps as [|q ps IH].
  - left. split; [intros []|reflexivity].
  - destruct (Z.eqb_spec (pid q) i) as [E|E].
    + right. exists [], q, ps. split; [reflexivity|]. split; [intros []|]. split; [exact E|].
      simpl. rewrite E, Z.eqb_refl. reflexivity.
    + destruct IH as [[Hn Hs] | (pre & p & post & -> & Hn & Hp & Hs)].
      * left. split; [simpl; intros [H|H]; [exact (E H)|exact (Hn H)]|].
        simpl. apply Z.eqb_neq in E. rewrite E, Hs. reflexivity.
      * right. exists (q :: pre), p, post. split; [reflexivity|].
        split; [simpl; intros [H|H]; [exact (E H)|exact (Hn H)]|]. split; [exact Hp|].
        apply (step_roster_split i (q :: pre) p post);
          [simpl; intros [H|H]; [exact (E H)|exact (Hn H)]|exact Hp].
Qed.

Lemma step_roster_members i ps q :
  In q (fst (step_patient_roster i ps)) -> In q ps \/ exists p, In p ps /\ q = step_patient_fields p.
Proof.
  destruct (step_roster_cases i ps) as [[_ ->] | (pre & p & post & -> & _ & _ & ->)];
    simpl; [left; exact H|].
  intros H. apply in_app_or in H as [H|[<-|H]].
  - left. apply in_or_app. left. exact H.
  - right. exists p. split; [apply in_or_app; right; left; reflexivity|reflexivity].
  - left. apply in_or_app. right. right. exact H.
Qed.

Lemma remove_roster_In i ps p :
  In p (remove_patient_roster i ps) <-> In p ps /\ pid p <> i.
Proof.
  unfold remove_patient_roster. rewrite <- !list_elem_of_In, list_elem_of_filter.
  destruct (Z.eqb_spec (pid p) i); simpl; tauto.
Qed.

Lemma remove_roster_NoDup i ps :
  NoDup (map pid ps) -> NoDup (map pid (remove_patient_roster i ps)).
Proof.
  unfold remove_patient_roster. induction ps as [|p ps IH]; intros Hnd; [exact Hnd|].
  simpl in Hnd. apply NoDup_cons in Hnd as [Hp Hnd].
  rewrite filter_cons. destruct (decide _); simpl; [|apply IH, Hnd].
  apply NoDup_cons. split; [|apply IH, Hnd].
  intros Hin. apply Hp. apply list_elem_of_In in Hin. apply in_map_iff in Hin as (q & Hq & Hin).
  apply list_elem_of_In. apply in_map_iff. exists q. split; [exact Hq|].
  apply list_elem_of_In in Hin. apply list_elem_of_filter in Hin. apply list_elem_of_In. apply Hin.
Qed.


Lemma analyze_and_plan_frame sqrt Rng normal choice simulation_value a (rng : Rng) r a' rng' :
  analyze_and_plan sqrt Rng normal choice simulation_value a rng = Some (r, a', rng') ->
  patient_counter a' = patient_counter a /\ current_state a' = current_state a /\
  (r = idle_result (cfr a) \/
   exists st best, current_state a = Some st /\
     (nurse_plan r, doctor_plan r) = generate_unity_commands st best).
Proof.
  unfold analyze_and_plan. destruct (current_state a) as [st|] eqn:Hst.
  - destruct (patients st) as [|p ps] eqn:Hps.
    + intros H. injection H as <- <- _. auto.
    + destruct (cfr_loop _ _ _ _ _ _ _ _ _ _) as [[sv c] rng1].
      destruct (final_selection _ _) as [best|]; [|discriminate].
      destruct (generate_unity_commands st best) as [nurse doctor] eqn:Hg.
      intros H. injection H as <- <- _. simpl. split; [reflexivity|]. split; [reflexivity|].
      right. exists st, best. split; [reflexivity|]. rewrite Hg. reflexivity.
  - intros H. injection H as <- <- _. auto.
Qed.

(** Invariant of the rosters of reachable analyzers. *)
Definition roster_inv (a : DynamicRegretAnalyzer) : Prop :=
  (0 <= patient_counter a)%Z /\
  forall st, current_state a = Some st ->
    NoDup (map pid (patients st)) /\
    forall p, In p (patients st) ->
      (1 <= pid p <= patient_counter a)%Z /\ pathway p = PATHWAYS (ptype p) /\
      patient_reachable p.

Lemma roster_inv_reachable a : analyzer_reachable a -> roster_inv a.
Proof.
  induction 1 as [|t a _ [H0 IH]|i a _ [H0 IH]|i a _ [H0 IH]|a _ [H0 IH]
                 |sqrt Rng normal choice simulation_value a rng r a' rng' _ [H0 IH] Hplan].
  - split; [simpl; lia|]. intros st H. discriminate.
  - unfold roster_inv, spawn_patient. simpl. split; [lia|]. intros st' H. injection H as <-. simpl.
    assert (Hold : NoDup (map pid (patients (match current_state a with Some st => st
                                                | None => empty_game_state end))) /\
                   forall p, In p (patients (match current_state a with Some st => st
                                                | None => empty_game_state end)) ->
                     (1 <= pid p <= patient_counter a)%Z /\ pathway p = PATHWAYS (ptype p) /\
                     patient_reachable p).
    { destruct (current_state a) as [st|]; [apply IH; reflexivity|].
      split; [constructor|intros p []]. }
    destruct Hold as [Hnd Hps]. split.
    + rewrite map_app. simpl. apply NoDup_app. split; [exact Hnd|]. split; [|apply NoDup_singleton].
      intros j Hj Hj'. apply list_elem_of_singleton in Hj'. subst j.
      apply list_elem_of_In, in_map_iff in Hj as (p & Hp & Hin). apply Hps in Hin.
      simpl in Hp. lia.
    + intros p Hp. apply in_app_or in Hp as [Hp|[<-|[]]].
      * destruct (Hps p Hp) as (Hb & Hpw & Hr). split; [lia|]. auto.
      * simpl. split; [lia|]. split; [reflexivity|]. apply pr_spawn.
  - unfold step_patient. destruct (current_state a) as [st|] eqn:Hst; [|split; [exact H0|intros st H; cbn in H; rewrite Hst in H; discriminate]].
    destruct (IH st eq_refl) as [Hnd Hps].
    pose proof (step_roster_ids i (patients st)) as Hids.
    pose proof (step_roster_members i (patients st)) as Hmem.
    destruct (step_patient_roster i (patients st)) as [ps' b]. simpl in *.
    split; [exact H0|]. intros st' H. injection H as <-. simpl. split; [rewrite Hids; exact Hnd|].
    intros q Hq. destruct (Hmem q Hq) as [Hq'|(p & Hp & ->)]; [apply Hps; exact Hq'|].
    destruct (step_patient_fields_frame p) as (E1 & E2 & E3). rewrite E1, E2, E3.
    destruct (Hps p Hp) as (Hb & Hpw & Hr). split; [exact Hb|]. split; [exact Hpw|].
    apply pr_step, Hr.
  - unfold remove_patient. destruct (current_state a) as [st|] eqn:Hst; [|split; [exact H0|intros st H; cbn in H; rewrite Hst in H; discriminate]].
    destruct (IH st eq_refl) as [Hnd Hps]. split; [exact H0|].
    intros st' H. injection H as <-. simpl. split; [apply remove_roster_NoDup, Hnd|].
    intros p Hp. apply remove_roster_In in Hp as [Hp _]. apply Hps, Hp.
  - split; [simpl; lia|]. intros st H. discriminate.
  - destruct (analyze_and_plan_frame _ _ _ _ _ _ _ _ _ _ Hplan) as (Hc & Hs & _).
    unfold roster_inv. rewrite Hc. split; [exact H0|]. intros st H. rewrite Hs in H. exact (IH st H).
Qed.

Lemma nth_error_lt_Some {A} (l : list A) (n : nat) :
  (n < length l)%nat -> exists x, nth_error l n = Some x.
Proof. intros H. destruct (nth_error l n) eqn:E; [eauto|]. apply nth_error_None in E. lia. Qed.

Lemma queue_entry_of_ok p :
  patient_ok p ->
  exists q, queue_entry_of p = inr q /\ q_id q = pid p /\
    (0 <= q_steps_remaining q <= q_pathway_length q)%Z /\
    (q_next_room q = None <-> q_steps_remaining q = 0%Z).
Proof.
  intros [_ Hs]. unfold queue_entry_of, next_room, is_complete.
  destruct (Z.leb_spec (Z.of_nat (length (pathway p))) (current_step p)) as [Hle|Hlt].
  - eexists. split; [reflexivity|]. simpl. split; [reflexivity|]. split; [lia|].
    split; [intros _; lia|reflexivity].
  - unfold py_getitem. rewrite (proj2 (Z.leb_le 0 (current_step p))) by lia.
    destruct (nth_error_lt_Some (pathway p) (Z.to_nat (current_step p))) as [r Hr]; [lia|].
    rewrite Hr. eexists. split; [reflexivity|]. simpl. split; [reflexivity|]. split; [lia|].
    split; [discriminate|lia].
Qed.

Lemma queue_entries_ok ps :
  (forall p, In p ps -> patient_ok p) ->
  exists qs, queue_entries ps = inr qs /\ map q_id qs = map pid ps /\
    Forall (fun q => (0 <= q_steps_remaining q <= q_pathway_length q)%Z /\
                     (q_next_room q = None <-> q_steps_remaining q = 0%Z)) qs.
Proof.
  induction ps as [|p ps IH]; intros Hok.
  - exists []. split; [reflexivity|]. split; [reflexivity|constructor].
  - destruct (queue_entry_of_ok p (Hok p (or_introl eq_refl))) as (q & Hq & Hid & Hb).
    destruct IH as (qs & Hqs & Hids & Hall); [intros x Hx; apply Hok; right; exact Hx|].
    exists (q :: qs). simpl. rewrite Hq, Hqs. split; [reflexivity|].
    split; [rewrite Hid, Hids; reflexivity|]. constructor; assumption.
Qed.

Lemma spawn_patients_run ts a :
  let '(ps, a') := spawn_patients ts a in
  ps = imap (fun i t => new_patient (patient_counter a + Z.of_nat i + 1)%Z t) ts /\
  patient_counter a' = (patient_counter a + Z.of_nat (length ts))%Z /\
  cfr a' = cfr a /\
  match ts with
  | [] => a' = a
  | _ :: _ =>
      let st := match current_state a with Some st => st | None => empty_game_state end in
      current_state a' = Some (set_patients st (patients st ++ ps))
  end.
Proof.
  revert a. induction ts as [|t ts IH]; intros a; cbn [spawn_patients].
  - split; [reflexivity|]. split; [simpl; lia|]. auto.
  - specialize (IH (snd (spawn_patient t a))).
    set (a1 := snd (spawn_patient t a)) in IH.
    set (st0 := match current_state a with Some st => st | None => empty_game_state end).
    assert (Hsp : spawn_patient t a = (new_patient (patient_counter a + 1) t, a1)) by reflexivity.
    assert (Hc1 : patient_counter a1 = (patient_counter a + 1)%Z) by reflexivity.
    assert (Hf1 : cfr a1 = cfr a) by reflexivity.
    assert (Hs1 : current_state a1 =
                  Some (set_patients st0 (patients st0 ++ [new_patient (patient_counter a + 1) t])))
      by reflexivity.
    rewrite Hsp. clearbody a1.
    destruct (spawn_patients ts a1) as [ps a2].
    destruct IH as (Hps & Hc & Hcfr & Hst). split; [|split; [|split]].
    + rewrite imap_cons, Hps, Hc1. f_equal; [f_equal; lia|].
      apply imap_ext. intros i x _. simpl. f_equal. lia.
    + rewrite Hc, Hc1. simpl length. lia.
    + rewrite Hcfr. exact Hf1.
    + destruct ts as [|t' ts'].
      * rewrite Hst, Hs1, Hps. reflexivity.
      * rewrite Hst, Hs1. simpl. rewrite <- app_assoc. reflexivity.
Qed.

Lemma is_complete_step p :
  is_complete (step_patient_fields p) = true <->
  (Z.of_nat (length (pathway p)) <= current_step p + 1)%Z.
Proof.
  unfold step_patient_fields. destruct (is_complete p) eqn:E; unfold is_complete in *; simpl.
  - apply Z.leb_le in E. rewrite Z.leb_le. split; intros; lia.
  - rewrite Z.leb_le. reflexivity.
Qed.

Lemma map_pid_spawned c ts :
  map pid (imap (fun i t => new_patient (c + Z.of_nat i + 1)%Z t) ts) =
  map (fun i => (c + Z.of_nat i + 1)%Z) (seq 0 (length ts)) /\
  map ptype (imap (fun i t => new_patient (c + Z.of_nat i + 1)%Z t) ts) = ts.
Proof.
  revert c. induction ts as [|t ts IH]; intros c; [split; reflexivity|].
  rewrite imap_cons. cbn [length seq]. rewrite <- seq_shift.
  destruct (IH (c + 1)%Z) as [IH1 IH2].
  assert (Hf : imap ((fun i t0 => new_patient (c + Z.of_nat i + 1)%Z t0) ∘ S) ts =
               imap (fun i t0 => new_patient (c + 1 + Z.of_nat i + 1)%Z t0) ts).
  { apply imap_ext. intros i x _. simpl. f_equal. lia. }
  rewrite Hf. simpl. rewrite map_map. split.
  - rewrite IH1. f_equal; first [lia | apply map_ext; intros; lia].
  - f_equal. exact IH2.
Qed.

(** ** Roster operations: specifications *)




(** X3: the [/complete_step] endpoint, on a roster with distinct ids,
    reports completion exactly when a patient with that id exists with at
    most one step left; it then removes that id from the roster, keeping
    every other patient; otherwise the roster keeps its ids. *)
Theorem complete_step_spec (i : Z) (a : DynamicRegretAnalyzer) (st : GameState) :
  current_state a = Some st -> NoDup (map pid (patients st)) ->
  let '(b, a') := complete_step i a in
  (b = true <-> exists p, In p (patients st) /\ pid p = i /\
                  (Z.of_nat (length (pathway p)) <= current_step p + 1)%Z) /\
  exists st', current_state a' = Some st' /\
    (b = true -> ~ In i (map pid (patients st')) /\
                 forall p, In p (patients st) -> pid p <> i -> In p (patients st')) /\
    (b = false -> map pid (patients st') = map pid (patients st)).
Proof.
  intros Hst Hnd. unfold complete_step, step_patient. rewrite Hst.
  pose proof (step_roster_ids i (patients st)) as Hids.
  destruct (step_roster_cases i (patients st))
    as [[Hn Hs] | (pre & p & post & Hps & Hn & Hp & Hs)]; rewrite Hs in *; simpl in Hids.
  - split.
    + split; [discriminate|]. intros (p & Hp & Hpi & _). exfalso. apply Hn.
      rewrite <- Hpi. apply in_map, Hp.
    + eexists. split; [reflexivity|]. split; [discriminate|]. intros _. reflexivity.
  - assert (Hpin : In p (patients st)) by (rewrite Hps; apply in_or_app; right; left; reflexivity).
    assert (Hiff : is_complete (step_patient_fields p) = true <->
                   exists q, In q (patients st) /\ pid q = i /\
                     (Z.of_nat (length (pathway q)) <= current_step q + 1)%Z).
    { rewrite is_complete_step. split.
      - intros H. exists p. auto.
      - intros (q & Hq & Hqi & Hle). rewrite <- Hp in Hqi.
        rewrite <- (NoDup_map_pid_inj (patients st) q p Hnd Hq Hpin Hqi). exact Hle. }
    destruct (is_complete (step_patient_fields p)) eqn:Hc; simpl; split; [exact Hiff| |exact Hiff|].
    + unfold remove_patient. simpl. eexists. split; [reflexivity|]. split; [|discriminate].
      intros _. simpl. split.
      * intros Hin. apply in_map_iff in Hin as (q & Hq & Hin).
        apply remove_roster_In in Hin as [_ Hne]. exact (Hne Hq).
      * intros q Hq Hqi. apply remove_roster_In. split; [|exact Hqi].
        rewrite Hps in Hq. apply in_app_or in Hq as [Hq|[<-|Hq]].
        -- apply in_or_app. left. exact Hq.
        -- exfalso. exact (Hqi Hp).
        -- apply in_or_app. right. right. exact Hq.
    + eexists. split; [reflexivity|]. split; [discriminate|]. intros _. exact Hids.
Qed.

(** X3 witness: completing the only (fresh, Critical) patient of the
    one-patient scenario. *)
Lemma complete_step_spec_witness :
  current_state ce_analyzer = Some ce_state /\ NoDup (map pid (patients ce_state)) /\
  let '(b, a') := complete_step 1 ce_analyzer in
  (b = true <-> exists p, In p (patients ce_state) /\ pid p = 1%Z /\
                  (Z.of_nat (length (pathway p)) <= current_step p + 1)%Z) /\
  exists st', current_state a' = Some st' /\
    (b = true -> ~ In 1%Z (map pid (patients st')) /\
                 forall p, In p (patients ce_state) -> pid p <> 1%Z -> In p (patients st')) /\
    (b = false -> map pid (patients st') = map pid (patients ce_state)).
Proof.
  assert (H1 : current_state ce_analyzer = Some ce_state) by reflexivity.
  assert (H2 : NoDup (map pid (patients ce_state))) by apply NoDup_singleton.
  split; [exact H1|]. split; [exact H2|].
  exact (complete_step_spec 1 ce_analyzer ce_state H1 H2).
Defined.

(** X4: in every analyzer the server can reach, the patient counter is
    non-negative and the roster has distinct ids between [1] and the
    counter; each roster patient follows the pathway of its type and is a
    reachable patient. *)
Theorem analyzer_roster_invariant (a : DynamicRegretAnalyzer) :
  analyzer_reachable a ->
  (0 <= patient_counter a)%Z /\
  forall st, current_state a = Some st ->
    NoDup (map pid (patients st)) /\
    forall p, In p (patients st) ->
      (1 <= pid p <= patient_counter a)%Z /\ pathway p = PATHWAYS (ptype p) /\
      patient_reachable p.
Proof. apply roster_inv_reachable. Qed.

(** X4 witness: a fresh analyzer after one spawn. *)
Lemma analyzer_roster_invariant_witness :
  analyzer_reachable (snd (spawn_patient Critical analyzer_init)) /\
  (0 <= patient_counter (snd (spawn_patient Critical analyzer_init)))%Z /\
  forall st, current_state (snd (spawn_patient Critical analyzer_init)) = Some st ->
    NoDup (map pid (patients st)) /\
    forall p, In p (patients st) ->
      (1 <= pid p <= patient_counter (snd (spawn_patient Critical analyzer_init)))%Z /\
      pathway p = PATHWAYS (ptype p) /\ patient_reachable p.
Proof.
  assert (H : analyzer_reachable (snd (spawn_patient Critical analyzer_init)))
    by (apply ar_spawn, ar_init).
  split; [exact H|]. exact (analyzer_roster_invariant _ H).
Defined.

(** X5: on every reachable analyzer [get_queue_status()] succeeds (no
    [next_room] lookup raises); it reports the roster ids in order, a
    [queue_size] equal to the number of entries, and for each patient
    [0 <= steps_remaining <= pathway_length], with [next_room] None
    exactly when no step remains. *)
Theorem get_queue_status_reachable (a : DynamicRegretAnalyzer) :
  analyzer_reachable a ->
  exists qs, get_queue_status a = inr qs /\
    queue_size qs = Z.of_nat (length (queue_patients qs)) /\
    map q_id (queue_patients qs) =
      match current_state a with Some st => map pid (patients st) | None => [] end /\
    Forall (fun q => (0 <= q_steps_remaining q <= q_pathway_length q)%Z /\
                     (q_next_room q = None <-> q_steps_remaining q = 0%Z))
           (queue_patients qs).
Proof.
  intros Ha. destruct (roster_inv_reachable a Ha) as [_ Hinv].
  unfold get_queue_status. destruct (current_state a) as [st|] eqn:Hst.
  - destruct (Hinv st eq_refl) as [_ Hps].
    destruct (queue_entries_ok (patients st)) as (qs & Hqs & Hids & Hall).
    { intros p Hp. apply patient_reachable_ok. apply Hps, Hp. }
    rewrite Hqs. eexists. split; [reflexivity|]. simpl. split; [|split; [exact Hids|exact Hall]].
    rewrite <- (length_map q_id qs), Hids, length_map. reflexivity.
  - eexists. split; [reflexivity|]. simpl. split; [reflexivity|]. split; [reflexivity|constructor].
Qed.

(** X5 witness: the queue of a fresh analyzer after one spawn. *)
Lemma get_queue_status_reachable_witness :
  analyzer_reachable (snd (spawn_patient Minor analyzer_init)) /\
  exists qs, get_queue_status (snd (spawn_patient Minor analyzer_init)) = inr qs /\
    queue_size qs = Z.of_nat (length (queue_patients qs)) /\
    map q_id (queue_patients qs) =
      match current_state (snd (spawn_patient Minor analyzer_init)) with
      | Some st => map pid (patients st) | None => [] end /\
    Forall (fun q => (0 <= q_steps_remaining q <= q_pathway_length q)%Z /\
                     (q_next_room q = None <-> q_steps_remaining q = 0%Z))
           (queue_patients qs).
Proof.
  assert (H : analyzer_reachable (snd (spawn_patient Minor analyzer_init)))
    by (apply ar_spawn, ar_init).
  split; [exact H|]. exact (get_queue_status_reachable _ H).
Defined.

(** X6: spawning a list of types (the loop of [/process_scenario]) returns
    patients of those types, in order, with the consecutive ids
    [counter+1, counter+2, ...], advances the counter by their number and
    keeps the learner; the roster is the previous one (or an empty game
    state) with the new patients appended, and nothing changes for an
    empty list. *)
Theorem spawn_patients_fresh_ids (ts : list patient_type) (a : DynamicRegretAnalyzer) :
  let '(ps, a') := spawn_patients ts a in
  map pid ps = map (fun i => (patient_counter a + Z.of_nat i + 1)%Z) (seq 0 (length ts)) /\
  map ptype ps = ts /\
  patient_counter a' = (patient_counter a + Z.of_nat (length ts))%Z /\
  cfr a' = cfr a /\
  match ts with
  | [] => a' = a
  | _ :: _ =>
      let st := match current_state a with Some st => st | None => empty_game_state end in
      current_state a' = Some (set_patients st (patients st ++ ps))
  end.
Proof.
  pose proof (spawn_patients_run ts a) as H.
  destruct (spawn_patients ts a) as [ps a'].
  destruct H as (-> & Hc & Hf & Hs).
  destruct (map_pid_spawned (patient_counter a) ts) as [H1 H2]. auto.
Qed.

(** X7: [create_scenario(types)] builds exactly the patients (ids, types,
    health, pathways, deadlines, doctor requirement) that spawning the
    same types into a fresh analyzer returns, and for a non-empty list
    that analyzer's game state is the created scenario. *)
Theorem create_scenario_matches_spawn (ts : list patient_type) :
  patients (create_scenario ts) = fst (spawn_patients ts analyzer_init) /\
  current_state (snd (spawn_patients ts analyzer_init)) =
    match ts with [] => None | _ :: _ => Some (create_scenario ts) end.
Proof.
  pose proof (spawn_patients_run ts analyzer_init) as H.
  assert (Hp : patients (create_scenario ts) =
               imap (fun i t => new_patient (patient_counter analyzer_init + Z.of_nat i + 1)%Z t) ts).
  { unfold create_scenario. simpl. apply imap_ext. intros i t _.
    unfold post_init, new_patient. simpl. f_equal; lia. }
  destruct (spawn_patients ts analyzer_init) as [ps a'].
  assert (Hcs : create_scenario ts = set_patients empty_game_state (patients (create_scenario ts)))
    by reflexivity.
  destruct H as (Hps & _ & _ & Hs). rewrite Hcs, Hp, <- Hps. cbn [fst snd].
  split; [reflexivity|].
  destruct ts as [|t ts']; [rewrite Hs; reflexivity|].
  rewrite Hs. reflexivity.
Qed.

(* ----------------------------------------------------------------- *)
(** Rule-based parser *)

Lemma rules_count_cases s : rules_count s = 1 \/ rules_count s = 2 \/ rules_count s = 3 \/ rules_count s = 4.
Proof.
  unfold rules_count.
  destruct (_ || _); [tauto|]. destruct (_ || _); [tauto|]. destruct (_ || _); tauto.
Qed.

(** X8: the rule-based parser returns exactly [count] patients, where
    [count] is the number read from the description (1, 2, 3 or 4). *)
Lemma parse_patients_rules_length lower description :
  length (parse_patients_rules lower description) = rules_count (lower description) /\
  1 <= rules_count (lower description) <= 4.
Proof.
  unfold parse_patients_rules.
  destruct (rules_count_cases (lower description)) as [H|[H|[H|H]]]; rewrite H;
  destruct (has_keyword critical_keywords _), (has_keyword moderate_keywords _),
    (has_keyword minor_keywords _); simpl; lia.
Qed.

(** X9: the parsed types come in order of severity (critical first, then
    moderate, then minor), with at most one critical and one moderate
    patient; a critical patient is produced exactly when a critical keyword
    occurs, and a moderate one only when a moderate keyword occurs. *)
Lemma parse_patients_rules_types lower description :
  let ts := map fst (parse_patients_rules lower description) in
  Sorted (fun x y => severity_rank x <= severity_rank y) ts /\
  length (filter (fun t => t = Critical) ts) <= 1 /\
  length (filter (fun t => t = Moderate) ts) <= 1 /\
  bool_decide (Critical ∈ ts) = has_keyword critical_keywords (lower description) /\
  (Moderate ∈ ts -> has_keyword moderate_keywords (lower description) = true).
Proof.
  unfold parse_patients_rules.
  destruct (rules_count_cases (lower description)) as [H|[H|[H|H]]]; rewrite H;
  destruct (has_keyword critical_keywords _), (has_keyword moderate_keywords _),
    (has_keyword minor_keywords _); simpl;
  (split; [repeat (first [apply Sorted_nil | apply Sorted_cons | apply HdRel_nil
                          | apply HdRel_cons]); simpl; lia|]);
  (split; [simpl; lia|]); (split; [simpl; lia|]);
  (split; [reflexivity|]);
  intros Hm; first [reflexivity | exfalso;
    repeat (apply elem_of_cons in Hm as [Hm|Hm]; [discriminate|]);
    apply elem_of_nil in Hm as []].
Qed.

(* ----------------------------------------------------------------- *)
(** Room geometry *)

Lemma Qsq_sub_sym (a b : Q) : ((a - b) ^ 2 = (b - a) ^ 2)%Q.
Proof.
  destruct a as [na da], b as [nb db].
  unfold Qminus, Qplus, Qopp, Qpower, Qpower_positive, pow_pos, Qmult. simpl.
  f_equal; [ring | rewrite (Pos.mul_comm da db); reflexivity].
Qed.

(** X10: [room_distance] is symmetric, whatever [math.sqrt] is and
    whatever the positions. *)
Lemma room_distance_sym sqrt positions r1 r2 :
  room_distance sqrt positions r1 r2 = room_distance sqrt positions r2 r1.
Proof.
  unfold room_distance. rewrite (Qsq_sub_sym (fst _)), (Qsq_sub_sym (snd _)). reflexivity.
Qed.

(** X11: with [math.sqrt] as binary64 computes it, the distance from a room
    to itself is [0.0], whatever the positions. *)
Lemma room_distance_self positions r : room_distance py_sqrt positions r r = 0%Q.
Proof.
  unfold room_distance. destruct (dict_get positions r (0, 0)%Q) as [x y]. cbn [fst snd].
  assert (H : Qnum ((x - x) ^ 2 + (y - y) ^ 2)%Q = 0%Z).
  { destruct x as [n d], y as [n' d']. simpl. ring. }
  unfold py_sqrt. cbv beta zeta. rewrite H. reflexivity.
Qed.



(* ----------------------------------------------------------------- *)
(** Urgency order *)





(** X14: the urgency of a patient the program can produce lies between [0]
    and [3]. *)
Theorem urgency_bounds (p : Patient) :
  patient_reachable p -> (0 <= urgency p <= 3)%Q.
Proof.
  intros Hp. destruct (patient_reachable_ok p Hp) as [Hh _].
  unfold urgency, Qdiv. change (/ 100)%Q with (1 # 100)%Q.
  destruct (ptype p); lra.
Qed.

(** X14 witness: a freshly spawned Critical patient. *)
Lemma urgency_bounds_witness :
  patient_reachable (new_patient 1 Critical) /\ (0 <= urgency (new_patient 1 Critical) <= 3)%Q.
Proof.
  assert (H : patient_reachable (new_patient 1 Critical)) by apply pr_spawn.
  split; [exact H|]. exact (urgency_bounds _ H).
Defined.
